(** * serverless-lumigo: a shallow embedding of [src/index.js]

    The plugin wraps the handlers of a Serverless service with the Lumigo
    tracer.  The development follows the source top-down:

    - [Js]     the String.prototype methods the plugin calls;
    - [Path]   the POSIX flavour of Node's [path] module;
    - the data model (service, function declarations, environment);
    - a small monad for plugin state, thrown errors and the effect trace;
    - the methods of [LumigoPlugin], one definition per method;
    - the properties.

    JavaScript strings are modelled as [string], a sequence of code units.
    All slicing in the plugin happens at positions of ["."] and ["/"], which
    are single code units in every encoding, so the index arithmetic of the
    source carries over unchanged. *)

From Stdlib Require Import String Ascii List ZArith Lia Bool.
From Stdlib Require DecimalString.
Import ListNotations.

Local Open Scope Z_scope.
Local Open Scope string_scope.

(** ** JavaScript string methods *)

Module Js.

(** [s.lastIndexOf(c)] for a one-character needle: the greatest index
    holding [c], or [-1]. *)
Fixpoint lastIndexOf_from (c : ascii) (s : string) (i found : Z) : Z :=
  match s with
  | EmptyString => found
  | String a s' =>
      lastIndexOf_from c s' (i + 1) (if Ascii.eqb a c then i else found)
  end.

Definition lastIndexOf (s : string) (c : ascii) : Z :=
  lastIndexOf_from c s 0 (-1).

(** [s.substr(start, len)]; [len = None] stands for an omitted argument.
    A negative [start] counts from the end, a negative [len] yields the
    empty string. *)
Definition substr (s : string) (start : Z) (len : option Z) : string :=
  let size := Z.of_nat (String.length s) in
  let from := if (start <? 0)%Z then Z.max (size + start) 0 else Z.min start size in
  let count :=
    match len with
    | None => size - from
    | Some l => Z.min (Z.max l 0) (size - from)
    end in
  substring (Z.to_nat from) (Z.to_nat count) s.

Definition startsWith (s p : string) : bool := String.prefix p s.

(** [s.includes(needle)] *)
Fixpoint includes (s needle : string) : bool :=
  String.prefix needle s ||
  match s with
  | EmptyString => false
  | String _ s' => includes s' needle
  end.

(** [s.split(sep)] for a one-character separator; never the empty list. *)
Fixpoint split (s : string) (sep : ascii) : list string :=
  match s with
  | EmptyString => [""]
  | String a s' =>
      if Ascii.eqb a sep then "" :: split s' sep
      else match split s' sep with
           | seg :: rest => String a seg :: rest
           | [] => [String a ""]
           end
  end.

(** [arr.join(sep)] *)
Definition join (l : list string) (sep : string) : string :=
  String.concat sep l.

(** [s.toLowerCase()] on the ASCII range.  The plugin only compares the
    result with ["npm"] and ["yarn"]; no character outside ASCII lowers to
    one of their letters. *)
Definition lowerChar (a : ascii) : ascii :=
  let n := nat_of_ascii a in
  if (Nat.leb 65 n && Nat.leb n 90)%bool then ascii_of_nat (n + 32) else a.

Fixpoint toLowerCase (s : string) : string :=
  match s with
  | EmptyString => EmptyString
  | String a s' => String (lowerChar a) (toLowerCase s')
  end.

(** Template-literal rendering of a number. *)
Definition ofNat (n : nat) : string :=
  DecimalString.NilEmpty.string_of_uint (Nat.to_uint n).

(** Membership of a character, the one-character case of [includes]. *)
Fixpoint mem (c : ascii) (s : string) : bool :=
  match s with
  | EmptyString => false
  | String a s' => Ascii.eqb a c || mem c s'
  end.

End Js.

(** ** Node's [path] module, POSIX flavour

    [path] is a library of the runtime, not code of the plugin.  The model
    works on the list of ["/"]-separated segments, which is what Node's
    character loops compute. *)

Module Path.

Definition segments (p : string) : list string := Js.split p "/".

(** [path.basename(p)]: the last non-empty segment. *)
Definition pick (acc seg : string) : string := if seg =? "" then acc else seg.

Definition basename (p : string) : string := fold_left pick (segments p) "".

Fixpoint dropWhile {A} (f : A -> bool) (l : list A) : list A :=
  match l with
  | [] => []
  | x :: l' => if f x then dropWhile f l' else l
  end.

Definition isSep (a : ascii) : bool := Ascii.eqb a "/".

(** [path.dirname(p)]: Node scans indices [length-1 .. 1] from the right,
    skips trailing separators, skips the last segment, and cuts at the
    separator it meets. *)
Definition dirname (p : string) : string :=
  match p with
  | EmptyString => "."
  | String c0 rest =>
      let hasRoot := isSep c0 in
      let r := rev (list_ascii_of_string rest) in
      let r1 := dropWhile isSep r in
      let r2 := dropWhile (fun a => negb (isSep a)) r1 in
      match r2 with
      | [] => if hasRoot then "/" else "."
      | _ :: before =>
          if (hasRoot && Nat.eqb (List.length before) 0)%bool then "//"
          else String c0 (string_of_list_ascii (rev before))
      end
  end.

(** One step of [normalizeString]; the stack holds the kept segments, last
    one first. *)
Definition normStep (allowAboveRoot : bool) (stack : list string)
    (seg : string) : list string :=
  if ((seg =? "") || (seg =? "."))%bool then stack
  else if seg =? ".." then
    match stack with
    | top :: below =>
        if top =? ".." then (if allowAboveRoot then ".." :: stack else stack)
        else below
    | [] => if allowAboveRoot then [".."] else []
    end
  else seg :: stack.

Definition normSegments (allowAboveRoot : bool) (segs : list string)
    : list string :=
  rev (fold_left (normStep allowAboveRoot) segs []).

Definition normalizeString (p : string) (allowAboveRoot : bool) : string :=
  Js.join (normSegments allowAboveRoot (segments p)) "/".

Definition isAbsolute (p : string) : bool := Js.startsWith p "/".

Fixpoint endsWithSep (p : string) : bool :=
  match p with
  | EmptyString => false
  | String a EmptyString => isSep a
  | String _ p' => endsWithSep p'
  end.

(** [path.normalize(p)] *)
Definition normalize (p : string) : string :=
  if p =? "" then "."
  else
    let q := normalizeString p (negb (isAbsolute p)) in
    if q =? "" then
      if isAbsolute p then "/" else if endsWithSep p then "./" else "."
    else
      let q' := if endsWithSep p then q ++ "/" else q in
      if isAbsolute p then "/" ++ q' else q'.

(** [path.join(...args)]: the non-empty arguments joined by ["/"], then
    normalised. *)
Definition join (args : list string) : string :=
  match filter (fun a => negb (a =? "")) args with
  | [] => "."
  | parts => normalize (Js.join parts "/")
  end.

(** [path.resolve(p)] with one argument; [cwd] is [process.cwd()]. *)
Definition resolve (cwd p : string) : string :=
  let '(raw, absolute) :=
    if p =? "" then (cwd ++ "/", isAbsolute cwd)
    else if isAbsolute p then (p ++ "/", true)
    else (cwd ++ "/" ++ p ++ "/", isAbsolute cwd) in
  let q := normalizeString raw (negb absolute) in
  if absolute then "/" ++ q else if q =? "" then "." else q.

Fixpoint stripCommon (from to : list string) : list string * list string :=
  match from, to with
  | f :: from', t :: to' =>
      if f =? t then stripCommon from' to' else (from, to)
  | _, _ => (from, to)
  end.

(** [path.relative(from, to)]: both sides resolved, the common leading
    segments dropped, one [".."] per remaining segment of [from]. *)
Definition relative (cwd from to : string) : string :=
  if from =? to then ""
  else
    let f := resolve cwd from in
    let t := resolve cwd to in
    if f =? t then ""
    else
      let kept p := filter (fun s => negb (s =? "")) (segments p) in
      let '(up, down) := stripCommon (kept f) (kept t) in
      Js.join (map (fun _ => "..") up ++ down) "/".

End Path.

(** ** Data model

    The service description is a tree of values: no array or object is
    shared between two places of it, so an assignment to one field leaves
    every other field as it was.  File writes and removals are taken to
    succeed; a failing [execSync] is part of the model. *)

(** Values of the service description that the plugin carries around without
    looking inside. *)
#[warnings="-register-all"]
Inductive JValue : Type :=
| JNull
| JBool (b : bool)
| JNum (n : Z)
| JStr (s : string)
| JArr (items : list JValue)
| JObj (props : list (string * JValue)).

(** One entry of [service.functions].  [fields] holds every own property
    other than [handler] (events, runtime, tags, environment, layers, ...). *)
Record FunctionDeclaration : Type := mkFunctionDeclaration {
  handler : string;
  fields : list (string * JValue)
}.

(** The deep clone made by [getFunctionsToWrap], with [localName] added. *)
Record Func : Type := mkFunc {
  localName : string;
  decl : FunctionDeclaration
}.

(** [service.custom.lumigo]; [None] is [undefined].  [otherKeys] are keys the
    plugin never reads. *)
Record LumigoConfig : Type := mkLumigoConfig {
  token : option string;
  edgeHost : option string;
  nodePackageManagerKey : option string;
  otherKeys : list (string * JValue)
}.

Record PackageConfig : Type := mkPackageConfig {
  individually : bool;
  include : option (list string)
}.

(** [serverless.service].  [functions] lists the entries in the order of
    [Object.keys]; the keys of a JavaScript object are pairwise distinct. *)
Record Service : Type := mkService {
  functions : list (string * FunctionDeclaration);
  providerRuntime : string;
  lumigo : LumigoConfig;
  pythonRequirementsFileName : option string;
  plugins : list string;
  package : option PackageConfig
}.

Inductive PackageJson : Type :=
| PackageJsonUnreadable (message : string)
| PackageJsonDependencies (names : list string).

Inductive ExecResult : Type :=
| ExecFailed (message : string)
| ExecOutput (output : string).

(** What the plugin reads from its surroundings during one hook. *)
Record Env : Type := mkEnv {
  SLS_DEBUG : bool;
  servicePath : string;
  cwd : string;
  packageJson : PackageJson;
  pathExistsSync : string -> bool;
  readFile : string -> string;
  execSync : string -> ExecResult
}.

(** The mutable part of a [LumigoPlugin] instance. *)
Record Plugin : Type := mkPlugin {
  service : Service;
  _isNodeTracerInstalled : option bool
}.

Inductive RuntimeFamily : Type := nodejs | python | unsupported.

Inductive Effect : Type :=
| CliLog (line : string)
| CliLogJson (fn : Func)
| RequireJson (path : string)
| PathExistsSync (path : string)
| ReadFile (path : string)
| OutputFile (path content : string)
| Remove (path : string)
| ExecSync (command : string).

Inductive Error : Type :=
| ServerlessError (message : string)
| ExecSyncError (message : string).

(** ** Plugin state, thrown errors and the effect trace *)

Definition M (A : Type) : Type := Plugin -> (Error + A) * Plugin * list Effect.

Definition ret {A} (a : A) : M A := fun p => (inr a, p, []).

Definition bind {A B} (m : M A) (k : A -> M B) : M B :=
  fun p =>
    match m p with
    | (inl e, p', t) => (inl e, p', t)
    | (inr a, p', t) =>
        match k a p' with
        | (r, p'', t') => (r, p'', (t ++ t')%list)
        end
    end.

Definition throw {A} (e : Error) : M A := fun p => (inl e, p, []).
Definition emit (e : Effect) : M unit := fun p => (inr tt, p, [e]).
Definition getPlugin : M Plugin := fun p => (inr p, p, []).
Definition putPlugin (p' : Plugin) : M unit := fun _ => (inr tt, p', []).

Notation "x <- m ;; k" := (bind m (fun x => k))
  (at level 61, m at next level, right associativity).
Notation "m ;; k" := (bind m (fun _ => k))
  (at level 61, right associativity).

Fixpoint forEach {A} (l : list A) (body : A -> M unit) : M unit :=
  match l with
  | [] => ret tt
  | x :: l' => body x ;; forEach l' body
  end.

Definition outcome {A} (r : (Error + A) * Plugin * list Effect) : Error + A :=
  fst (fst r).
Definition final {A} (r : (Error + A) * Plugin * list Effect) : Plugin :=
  snd (fst r).
Definition trace {A} (r : (Error + A) * Plugin * list Effect) : list Effect :=
  snd r.

(** ** The plugin *)

Definition LF : string := String (ascii_of_nat 10) "".
Definition TAB : string := String (ascii_of_nat 9) "".
Definition DQ : string := String (ascii_of_nat 34) "".

Definition NPM : string := "npm".
Definition Yarn : string := "yarn".

Definition log (msg : string) : M unit :=
  emit (CliLog ("serverless-lumigo: " ++ msg)).

Definition verboseLog (env : Env) (msg : string) : M unit :=
  if SLS_DEBUG env then log msg else ret tt.

Definition verboseLogJson (env : Env) (fn : Func) : M unit :=
  if SLS_DEBUG env then emit (CliLogJson fn) else ret tt.

Definition folderPath (env : Env) : string :=
  Path.join [servicePath env; "_lumigo"].

Definition getAllFunctions (svc : Service) : list string :=
  map fst (functions svc).

Definition nodePackageManager (svc : Service) : string :=
  Js.toLowerCase
    match nodePackageManagerKey (lumigo svc) with
    | Some m => m
    | None => NPM
    end.

(** [functionNames.includes(localName)] *)
Definition namesInclude (names : list string) (localName : string) : bool :=
  existsb (String.eqb localName) names.

Definition getFunctionsToWrap (functionNames : option (list string))
    : M (RuntimeFamily * list Func) :=
  p <- getPlugin ;;
  let svc := service p in
  let names :=
    match functionNames with
    | Some l => l
    | None => getAllFunctions svc
    end in
  let functions :=
    map (fun e => mkFunc (fst e) (snd e))
      (filter (fun e => namesInclude names (fst e)) (functions svc)) in
  if Js.startsWith (providerRuntime svc) "nodejs" then ret (nodejs, functions)
  else if Js.startsWith (providerRuntime svc) "python3" then
    ret (python, functions)
  else
    log ("unsupported runtime: [" ++ providerRuntime svc ++ "], skipped...") ;;
    ret (unsupported, []).

Definition isLumigoNodejsInstalled (env : Env) : M bool :=
  emit (RequireJson (Path.join [servicePath env; "package.json"])) ;;
  match packageJson env with
  | PackageJsonDependencies names =>
      ret (existsb (String.eqb "@lumigo/tracer") names)
  | PackageJsonUnreadable message =>
      verboseLog env
        "error when trying to check if @lumigo/tracer is already installed..." ;;
      verboseLog env message ;;
      verboseLog env "assume @lumigo/tracer has not been installed..." ;;
      ret false
  end.

(** The memoising getter [isNodeTracerInstalled]. *)
Definition isNodeTracerInstalled (env : Env) : M bool :=
  p <- getPlugin ;;
  match _isNodeTracerInstalled p with
  | Some b => ret b
  | None =>
      b <- isLumigoNodejsInstalled env ;;
      putPlugin (mkPlugin (service p) (Some b)) ;;
      ret b
  end.

Definition noPackageManager : Error :=
  ServerlessError
    "No Node.js package manager found. Please install either NPM or Yarn.".

Definition runCommand (env : Env) (command : string) : M unit :=
  emit (ExecSync command) ;;
  match execSync env command with
  | ExecFailed message => throw (ExecSyncError message)
  | ExecOutput details => verboseLog env details
  end.

Definition installLumigoNodejs (env : Env) : M unit :=
  installed <- isNodeTracerInstalled env ;;
  if installed then
    verboseLog env "@lumigo/tracer is already installed, skipped..."
  else
    log "installing @lumigo/tracer..." ;;
    p <- getPlugin ;;
    if nodePackageManager (service p) =? NPM then
      runCommand env "npm install --no-save @lumigo/tracer@latest"
    else if nodePackageManager (service p) =? Yarn then
      runCommand env "yarn add @lumigo/tracer@latest"
    else throw noPackageManager.

Definition uninstallLumigoNodejs (env : Env) : M unit :=
  installed <- isNodeTracerInstalled env ;;
  if installed then ret tt
  else
    log "uninstalling @lumigo/tracer..." ;;
    p <- getPlugin ;;
    if nodePackageManager (service p) =? NPM then
      runCommand env "npm uninstall @lumigo/tracer"
    else if nodePackageManager (service p) =? Yarn then
      runCommand env "yarn remove @lumigo/tracer"
    else throw noPackageManager.

Definition ensureTracerInstalled (env : Env) (slsPythonInstalled : bool)
    (fileName : string) : M unit :=
  emit (PathExistsSync fileName) ;;
  if negb (pathExistsSync env fileName) then
    throw (ServerlessError
      (fileName ++ " is not found." ++
       (if negb slsPythonInstalled then
          LF ++ "Consider using the serverless-python-requirements plugin to help you package Python dependencies."
        else "")))
  else
    emit (ReadFile fileName) ;;
    if negb (Js.includes (readFile env fileName) "lumigo_tracer") then
      throw (ServerlessError
        ("lumigo_tracer is not installed. Please check " ++ fileName ++ "."))
    else ret tt.

Definition ensureLumigoPythonIsInstalled (env : Env) : M unit :=
  log "checking if lumigo_tracer is installed..." ;;
  p <- getPlugin ;;
  let svc := service p in
  let slsPythonInstalled :=
    existsb (String.eqb "serverless-python-requirements") (plugins svc) in
  let packageIndividually :=
    match package svc with
    | Some pkg => individually pkg
    | None => false
    end in
  if packageIndividually then
    log "functions are packed individually, ensuring each function has a requirement.txt..." ;;
    rf <- getFunctionsToWrap None ;;
    forEach (snd rf) (fun fn =>
      let dir := Path.dirname (handler (decl fn)) in
      let defaultRequirementsFilename := Path.join [dir; "requirements.txt"] in
      let requirementsFilename :=
        match pythonRequirementsFileName svc with
        | Some f => f
        | None => defaultRequirementsFilename
        end in
      ensureTracerInstalled env slsPythonInstalled requirementsFilename)
  else
    log "ensuring there is a requirement.txt or equivalent..." ;;
    let requirementsFilename :=
      match pythonRequirementsFileName svc with
      | Some f => f
      | None => "requirements.txt"
      end in
    ensureTracerInstalled env slsPythonInstalled requirementsFilename.

(** A template literal renders [undefined] as the word. *)
Definition render (v : option string) : string :=
  match v with
  | Some s => s
  | None => "undefined"
  end.

Definition getNodeTracerParameters (token edgeHost : option string)
    : Error + string :=
  match token with
  | None => inl (ServerlessError "Lumigo's tracer token is undefined")
  | Some _ =>
      let configuration := ["token: '" ++ render token ++ "'"] in
      let configuration :=
        match edgeHost with
        | Some (String _ _) =>
            List.app configuration ["edgeHost: '" ++ render edgeHost ++ "'"]
        | _ => configuration
        end in
      inr (Js.join configuration ",")
  end.

(** [func.handler.substr(0, func.handler.lastIndexOf("."))] *)
Definition handlerModulePath (handler : string) : string :=
  Js.substr handler 0 (Some (Js.lastIndexOf handler ".")).

(** The Python variant replaces every ["/"] of the module path by ["."]. *)
Definition handlerModulePath_python (handler : string) : string :=
  Js.join (Js.split (handlerModulePath handler) "/") ".".

(** [handler.substr(handler.lastIndexOf(".") + 1)] on the base name. *)
Definition handlerFuncName (handler : string) : string :=
  let base := Path.basename handler in
  Js.substr base (Js.lastIndexOf base "." + 1) None.

Definition wrappedNodejsFunction (parameters modulePath funcName : string)
    : string :=
  LF ++ "const tracer = require(" ++ DQ ++ "@lumigo/tracer" ++ DQ ++ ")({" ++ LF ++
  TAB ++ parameters ++ LF ++
  "});" ++ LF ++
  "const handler = require('../" ++ modulePath ++ "')." ++ funcName ++ ";" ++ LF ++
  LF ++
  "module.exports." ++ funcName ++ " = tracer.trace(handler);" ++ LF ++
  "    ".

Definition wrappedPythonFunction (token modulePath funcName : string)
    : string :=
  LF ++ "from lumigo_tracer import lumigo_tracer" ++ LF ++
  "from " ++ modulePath ++ " import " ++ funcName ++ " as userHandler" ++ LF ++
  LF ++
  "@lumigo_tracer(token='" ++ token ++ "')" ++ LF ++
  "def " ++ funcName ++ "(event, context):" ++ LF ++
  "  return userHandler(event, context)" ++ LF ++
  "    ".

(** [newFilePath.substr(0, newFilePath.lastIndexOf(".") + 1) + funcName] *)
Definition newHandler (newFilePath funcName : string) : string :=
  Js.substr newFilePath 0 (Some (Js.lastIndexOf newFilePath "." + 1)) ++ funcName.

Definition createWrappedNodejsFunction (env : Env) (func : Func)
    (token edgeHost : option string) : M string :=
  verboseLog env ("wrapping [" ++ handler (decl func) ++ "]...") ;;
  match getNodeTracerParameters token edgeHost with
  | inl e => throw e
  | inr parameters =>
      let wrappedFunction :=
        wrappedNodejsFunction parameters
          (handlerModulePath (handler (decl func)))
          (handlerFuncName (handler (decl func))) in
      let fileName := localName func ++ ".js" in
      let filePath := Path.join [folderPath env; fileName] in
      verboseLog env ("writing wrapper function to [" ++ filePath ++ "]...") ;;
      emit (OutputFile filePath wrappedFunction) ;;
      let newFilePath := Path.relative (cwd env) (servicePath env) filePath in
      ret (newHandler newFilePath (handlerFuncName (handler (decl func))))
  end.

Definition createWrappedPythonFunction (env : Env) (func : Func)
    (token : option string) : M string :=
  verboseLog env ("wrapping [" ++ handler (decl func) ++ "]...") ;;
  let wrappedFunction :=
    wrappedPythonFunction (render token)
      (handlerModulePath_python (handler (decl func)))
      (handlerFuncName (handler (decl func))) in
  let fileName := localName func ++ ".py" in
  let filePath := Path.join [folderPath env; fileName] in
  verboseLog env ("writing wrapper function to [" ++ filePath ++ "]...") ;;
  emit (OutputFile filePath wrappedFunction) ;;
  let newFilePath := Path.relative (cwd env) (servicePath env) filePath in
  ret (newHandler newFilePath (handlerFuncName (handler (decl func)))).

(** [service.functions[localName].handler = h] *)
Definition assignHandler (name h : string)
    (fns : list (string * FunctionDeclaration))
    : list (string * FunctionDeclaration) :=
  map (fun e =>
         if fst e =? name then (fst e, mkFunctionDeclaration h (fields (snd e)))
         else e) fns.

Definition setHandler (name h : string) : M unit :=
  p <- getPlugin ;;
  let svc := service p in
  putPlugin
    (mkPlugin
       (mkService (assignHandler name h (functions svc)) (providerRuntime svc)
          (lumigo svc) (pythonRequirementsFileName svc) (plugins svc)
          (package svc))
       (_isNodeTracerInstalled p)).

(** The closing block of [wrapFunctions]: add ["_lumigo/*"] to
    [package.include] when [service.package] is set. *)
Definition includeLumigoFolder : M unit :=
  p <- getPlugin ;;
  let svc := service p in
  match package svc with
  | Some pkg =>
      let include :=
        match include pkg with
        | Some l => l
        | None => []
        end in
      putPlugin
        (mkPlugin
           (mkService (functions svc) (providerRuntime svc) (lumigo svc)
              (pythonRequirementsFileName svc) (plugins svc)
              (Some (mkPackageConfig (individually pkg)
                       (Some (List.app include ["_lumigo/*"])))))
           (_isNodeTracerInstalled p))
  | None => ret tt
  end.

Definition tokenMissing : Error :=
  ServerlessError
    "serverless-lumigo: Unable to find token. Please follow https://github.com/lumigo-io/serverless-lumigo".

Definition wrapFunctions (env : Env) (functionNames : option (list string))
    : M unit :=
  rf <- getFunctionsToWrap functionNames ;;
  let runtime := fst rf in
  let functions := snd rf in
  log ("there are " ++ Js.ofNat (List.length functions) ++ " function(s) to wrap...") ;;
  forEach functions (verboseLogJson env) ;;
  if Nat.eqb (List.length functions) 0 then ret tt
  else
    p <- getPlugin ;;
    let token := token (lumigo (service p)) in
    let edgeHost := edgeHost (lumigo (service p)) in
    match token with
    | None => throw tokenMissing
    | Some _ =>
        match runtime with
        | nodejs =>
            installLumigoNodejs env ;;
            forEach functions (fun func =>
              handler <- createWrappedNodejsFunction env func token edgeHost ;;
              verboseLog env
                ("setting [" ++ localName func ++ "]'s handler to [" ++ handler ++ "]...") ;;
              setHandler (localName func) handler)
        | python =>
            ensureLumigoPythonIsInstalled env ;;
            forEach functions (fun func =>
              handler <- createWrappedPythonFunction env func token ;;
              verboseLog env
                ("setting [" ++ localName func ++ "]'s handler to [" ++ handler ++ "]...") ;;
              setHandler (localName func) handler)
        | unsupported => ret tt
        end ;;
        includeLumigoFolder
    end.

Definition cleanFolder (env : Env) : M unit :=
  verboseLog env ("removing the temporary folder [" ++ folderPath env ++ "]...") ;;
  emit (Remove (folderPath env)).

Definition afterCreateDeploymentArtifacts (env : Env) : M unit :=
  rf <- getFunctionsToWrap None ;;
  if Nat.eqb (List.length (snd rf)) 0 then ret tt
  else
    cleanFolder env ;;
    match fst rf with
    | nodejs => uninstallLumigoNodejs env
    | _ => ret tt
    end.

Definition afterPackageInitialize (env : Env) : M unit :=
  wrapFunctions env None.

(** [wrapFunctions([this.options.function])]; an [undefined] option makes a
    one-element list that includes no function name. *)
Definition afterDeployFunctionInitialize (env : Env)
    (optionsFunction : option string) : M unit :=
  wrapFunctions env
    (Some match optionsFunction with
          | Some f => [f]
          | None => []
          end).

(** ** Sample services, after the repository's tests *)

Definition fn (h : string) : FunctionDeclaration :=
  mkFunctionDeclaration h [("events", JArr [])].

Definition sampleFunctions : list (string * FunctionDeclaration) :=
  [ ("hello", fn "hello.world");
    ("hello.world", fn "hello.world.handler");
    ("foo", fn "foo_bar.handler");
    ("bar", fn "foo_bar.handler");
    ("jet", fn "foo/foo/bar.handler");
    ("pack", fn "foo.bar/zoo.handler") ].

Definition sampleLumigo : LumigoConfig :=
  mkLumigoConfig (Some "test-token") None None [].

Definition sampleService (runtime : string) : Service :=
  mkService sampleFunctions runtime sampleLumigo None [] None.

Definition sampleEnv : Env :=
  mkEnv false "/srv/app" "/home/user"
    (PackageJsonDependencies [])
    (fun _ => true)
    (fun _ => "lumigo_tracer")
    (fun _ => ExecOutput "").

Definition fresh (svc : Service) : Plugin := mkPlugin svc None.



Definition staleEnv : Env :=
  mkEnv false "/srv/app" "/home/user"
    (PackageJsonDependencies ["@lumigo/tracer"])
    (fun _ => true) (fun _ => "lumigo_tracer") (fun _ => ExecOutput "").

(** The service of the repository's newer tests: [skippy] opts out with
    [lumigo: { enabled: false }]. *)
Definition optOutService : Service :=
  mkService
    (List.app sampleFunctions
       [("skippy",
         mkFunctionDeclaration "will.skip"
           [("lumigo", JObj [("enabled", JBool false)])])])
    "nodejs12.x" sampleLumigo None [] None.

(** Layer mode switched on: [custom.lumigo.useLayers: true]. *)
Definition useLayersService : Service :=
  mkService [("hello", fn "hello.world")] "nodejs12.x"
    (mkLumigoConfig (Some "test-token") None None [("useLayers", JBool true)])
    None [] None.

(** The package manager spelled with a capital letter. *)
Definition yarnService : Service :=
  mkService [("hello", fn "hello.world")] "nodejs12.x"
    (mkLumigoConfig (Some "test-token") None (Some "Yarn") []) None [] None.

(** Two python functions packaged one by one. *)
Definition individualService : Service :=
  mkService
    [("hello", fn "functions/hello/hello.world");
     ("world", fn "functions/world/world.handler")]
    "python3.7" sampleLumigo None []
    (Some (mkPackageConfig true None)).

(** Surroundings in which the second function has no requirements file. *)
Definition partialEnv : Env :=
  mkEnv false "/srv/app" "/home/user" (PackageJsonDependencies [])
    (fun f => f =? "functions/hello/requirements.txt")
    (fun _ => "lumigo_tracer") (fun _ => ExecOutput "").

(** Surroundings in which every command fails. *)
Definition brokenEnv : Env :=
  mkEnv false "/srv/app" "/home/user" (PackageJsonDependencies [])
    (fun _ => true) (fun _ => "lumigo_tracer")
    (fun _ => ExecFailed "npm ERR! network").

(** A service whose only function opts out. *)
Definition optedOutService : Service :=
  mkService
    [("skippy",
      mkFunctionDeclaration "will.skip"
        [("lumigo", JObj [("enabled", JBool false)])])]
    "nodejs12.x" sampleLumigo None [] None.

(** ** Vocabulary of the properties *)

(** [n] occurs in [s] as a contiguous piece. *)
Definition infix (n s : string) : Prop := exists a b, s = a ++ n ++ b.

(** The runtime family that [getFunctionsToWrap] reports. *)
Definition runtimeFamily (svc : Service) : RuntimeFamily :=
  if Js.startsWith (providerRuntime svc) "nodejs" then nodejs
  else if Js.startsWith (providerRuntime svc) "python3" then python
  else unsupported.

(** The declared functions picked by the optional name filter, cloned. *)
Definition named (svc : Service) (functionNames : option (list string))
    : list Func :=
  let names :=
    match functionNames with
    | Some l => l
    | None => getAllFunctions svc
    end in
  map (fun e => mkFunc (fst e) (snd e))
    (filter (fun e => namesInclude names (fst e)) (functions svc)).

(** The eligible set: the function list that [getFunctionsToWrap] returns. *)
Definition eligible (svc : Service) (functionNames : option (list string))
    : list Func :=
  match runtimeFamily svc with
  | unsupported => []
  | _ => named svc functionNames
  end.

Definition unsupportedLine (svc : Service) : Effect :=
  CliLog ("serverless-lumigo: unsupported runtime: [" ++ providerRuntime svc
          ++ "], skipped...").

Definition countLine (n : nat) : Effect :=
  CliLog ("serverless-lumigo: there are " ++ Js.ofNat n
          ++ " function(s) to wrap...").

(** The log lines every call of [wrapFunctions] starts with. *)
Definition prologue (env : Env) (svc : Service)
    (functionNames : option (list string)) : list Effect :=
  List.app
    match runtimeFamily svc with
    | unsupported => [unsupportedLine svc]
    | _ => []
    end
    (countLine (List.length (eligible svc functionNames))
     :: if SLS_DEBUG env then map CliLogJson (eligible svc functionNames)
        else []).

(** What [wrapFunctions] does once the eligible set is known to be
    non-empty. *)
Definition wrapEligible (env : Env) (runtime : RuntimeFamily)
    (functions : list Func) : M unit :=
  p <- getPlugin ;;
  let token := token (lumigo (service p)) in
  let edgeHost := edgeHost (lumigo (service p)) in
  match token with
  | None => throw tokenMissing
  | Some _ =>
      match runtime with
      | nodejs =>
          installLumigoNodejs env ;;
          forEach functions (fun func =>
            handler <- createWrappedNodejsFunction env func token edgeHost ;;
            verboseLog env
              ("setting [" ++ localName func ++ "]'s handler to [" ++ handler ++ "]...") ;;
            setHandler (localName func) handler)
      | python =>
          ensureLumigoPythonIsInstalled env ;;
          forEach functions (fun func =>
            handler <- createWrappedPythonFunction env func token ;;
            verboseLog env
              ("setting [" ++ localName func ++ "]'s handler to [" ++ handler ++ "]...") ;;
            setHandler (localName func) handler)
      | unsupported => ret tt
      end ;;
      includeLumigoFolder
  end.

(** Log lines, as opposed to file and process operations. *)
Definition isLog (e : Effect) : bool :=
  match e with
  | CliLog _ | CliLogJson _ => true
  | _ => false
  end.

(** File writes, removals and process executions. *)
Definition changesWorld (e : Effect) : bool :=
  match e with
  | OutputFile _ _ | Remove _ | ExecSync _ => true
  | _ => false
  end.

Definition worldChanges (t : list Effect) : list Effect := filter changesWorld t.

(** A segment that [normalizeString] keeps as it is. *)
Definition isClean (s : string) : bool :=
  negb ((s =? "") || (s =? ".") || (s =? ".."))%bool.

Definition good (s : string) : Prop :=
  isClean s = true /\ Js.mem "/" s = false.

(** The handler string that a wrapper generator returns for [func]; [ext]
    is [".js"] or [".py"]. *)
Definition wrappedHandler (env : Env) (ext : string) (func : Func) : string :=
  newHandler
    (Path.relative (cwd env) (servicePath env)
       (Path.join [folderPath env; localName func ++ ext]))
    (handlerFuncName (handler (decl func))).

(** The file that [createWrappedPythonFunction] writes for [func]. *)
Definition pythonWrite (env : Env) (token : option string) (func : Func)
    : Effect :=
  OutputFile (Path.join [folderPath env; localName func ++ ".py"])
    (wrappedPythonFunction (render token)
       (handlerModulePath_python (handler (decl func)))
       (handlerFuncName (handler (decl func)))).

(** The file that [createWrappedNodejsFunction] writes for [func]. *)
Definition nodejsWrite (env : Env) (t : string) (edgeHost : option string)
    (func : Func) : Effect :=
  OutputFile (Path.join [folderPath env; localName func ++ ".js"])
    (wrappedNodejsFunction
       match edgeHost with
       | Some (String c e) =>
           "token: '" ++ t ++ "',edgeHost: '" ++ String c e ++ "'"
       | _ => "token: '" ++ t ++ "'"
       end
       (handlerModulePath (handler (decl func)))
       (handlerFuncName (handler (decl func)))).

(** The plugin with another function table. *)
Definition setFunctions (fns : list (string * FunctionDeclaration))
    (p : Plugin) : Plugin :=
  mkPlugin
    (mkService fns (providerRuntime (service p)) (lumigo (service p))
       (pythonRequirementsFileName (service p)) (plugins (service p))
       (package (service p)))
    (_isNodeTracerInstalled p).

(** The function table after the wrap loop went through [fs]. *)
Definition rewriteHandlers (env : Env) (ext : string) (fs : list Func)
    (fns : list (string * FunctionDeclaration))
    : list (string * FunctionDeclaration) :=
  fold_left
    (fun fns f => assignHandler (localName f) (wrappedHandler env ext f) fns)
    fs fns.

(** The same table entry by entry: the last function of [fs] with the
    entry's name decides the new handler. *)
Definition rewriteEntry (env : Env) (ext : string) (fs : list Func)
    (e : string * FunctionDeclaration) : string * FunctionDeclaration :=
  match find (fun f => fst e =? localName f) (rev fs) with
  | Some f => (fst e, mkFunctionDeclaration (wrappedHandler env ext f) (fields (snd e)))
  | None => e
  end.

(** [service.package] after the closing block of [wrapFunctions]. *)
Definition lumigoIncluded (pkg : option PackageConfig) : option PackageConfig :=
  match pkg with
  | Some pkg =>
      Some (mkPackageConfig (individually pkg)
              (Some (List.app
                       match include pkg with
                       | Some l => l
                       | None => []
                       end ["_lumigo/*"])))
  | None => None
  end.

(** An action keeps the plugin within the relation [R]. *)
Definition preserves (R : Plugin -> Plugin -> Prop) {A} (m : M A) : Prop :=
  forall p, R p (final (m p)).

(** The plugin with another [service.package]. *)
Definition setPackage (pkg : option PackageConfig) (p : Plugin) : Plugin :=
  mkPlugin
    (mkService (functions (service p)) (providerRuntime (service p))
       (lumigo (service p)) (pythonRequirementsFileName (service p))
       (plugins (service p)) pkg)
    (_isNodeTracerInstalled p).

(** An action that writes no file, removes nothing and runs no command. *)
Definition quiet {A} (m : M A) : Prop :=
  forall p, worldChanges (trace (m p)) = [].

(** What the getter [isNodeTracerInstalled] answers: the remembered value
    when there is one, the manifest as it is now otherwise. *)
Definition tracerPresent (env : Env) (p : Plugin) : bool :=
  match _isNodeTracerInstalled p with
  | Some b => b
  | None =>
      match packageJson env with
      | PackageJsonDependencies names =>
          existsb (String.eqb "@lumigo/tracer") names
      | PackageJsonUnreadable _ => false
      end
  end.

(** The plugin once the getter has been read. *)
Definition remembered (env : Env) (p : Plugin) : Plugin :=
  mkPlugin (service p) (Some (tracerPresent env p)).

(** The shell command of [uninstallLumigoNodejs], if the package manager is
    a known one. *)
Definition uninstallCommand (svc : Service) : option string :=
  if nodePackageManager svc =? NPM then Some "npm uninstall @lumigo/tracer"
  else if nodePackageManager svc =? Yarn then Some "yarn remove @lumigo/tracer"
  else None.

(** The memo field is left as it was. *)
Definition sameMemo (p p' : Plugin) : Prop :=
  _isNodeTracerInstalled p' = _isNodeTracerInstalled p.

(** A table entry after a pass: same name, same fields other than
    [handler], and a handler that differs only for the names in [E]. *)
Definition sameBut (E : list string) (e e' : string * FunctionDeclaration)
    : Prop :=
  fst e' = fst e /\
  fields (snd e') = fields (snd e) /\
  (handler (snd e') <> handler (snd e) -> In (fst e) E).

(** The service description is as before, up to the handlers of [E]. *)
Definition frame (E : list string) (p p' : Plugin) : Prop :=
  Forall2 (sameBut E) (functions (service p)) (functions (service p')) /\
  providerRuntime (service p') = providerRuntime (service p) /\
  lumigo (service p') = lumigo (service p) /\
  pythonRequirementsFileName (service p') = pythonRequirementsFileName (service p) /\
  plugins (service p') = plugins (service p) /\
  package (service p') = package (service p).

(** The shell command of [installLumigoNodejs], if the package manager is
    a known one. *)
Definition installCommand (svc : Service) : option string :=
  if nodePackageManager svc =? NPM
  then Some "npm install --no-save @lumigo/tracer@latest"
  else if nodePackageManager svc =? Yarn
       then Some "yarn add @lumigo/tracer@latest"
       else None.

(** How a shell command ends for the plugin. *)
Definition commandResult (env : Env) (command : option string) : Error + unit :=
  match command with
  | Some c =>
      match execSync env c with
      | ExecFailed m => inl (ExecSyncError m)
      | ExecOutput _ => inr tt
      end
  | None => inl noPackageManager
  end.

Definition commandRun (command : option string) : list Effect :=
  match command with
  | Some c => [ExecSync c]
  | None => []
  end.

(** The requirements files that [ensureLumigoPythonIsInstalled] looks at,
    in the order it does. *)
Definition requirementsFiles (svc : Service) : list string :=
  if match package svc with
     | Some pkg => individually pkg
     | None => false
     end
  then
    map (fun fn =>
           match pythonRequirementsFileName svc with
           | Some f => f
           | None =>
               Path.join [Path.dirname (handler (decl fn)); "requirements.txt"]
           end)
      (eligible svc None)
  else
    [match pythonRequirementsFileName svc with
     | Some f => f
     | None => "requirements.txt"
     end].

(** A requirements file passes when it exists and names the tracer. *)
Definition requirementsOk (env : Env) (fileName : string) : bool :=
  pathExistsSync env fileName &&
  Js.includes (readFile env fileName) "lumigo_tracer".

(** The error thrown for a requirements file that does not pass. *)
Definition requirementsError (env : Env) (svc : Service) (fileName : string)
    : Error :=
  if pathExistsSync env fileName then
    ServerlessError
      ("lumigo_tracer is not installed. Please check " ++ fileName ++ ".")
  else
    ServerlessError
      (fileName ++ " is not found." ++
       (if existsb (String.eqb "serverless-python-requirements") (plugins svc)
        then ""
        else LF ++ "Consider using the serverless-python-requirements plugin to help you package Python dependencies.")).

(** [s] with every [a] replaced by [b]. *)
Fixpoint replaceChar (a b : ascii) (s : string) : string :=
  match s with
  | EmptyString => EmptyString
  | String c s' => String (if Ascii.eqb c a then b else c) (replaceChar a b s')
  end.

(** The plugin with another [custom.lumigo.edgeHost]. *)
Definition setEdgeHost (e : option string) (p : Plugin) : Plugin :=
  mkPlugin
    (mkService (functions (service p)) (providerRuntime (service p))
       (mkLumigoConfig (token (lumigo (service p))) e
          (nodePackageManagerKey (lumigo (service p)))
          (otherKeys (lumigo (service p))))
       (pythonRequirementsFileName (service p)) (plugins (service p))
       (package (service p)))
    (_isNodeTracerInstalled p).

(** The surroundings with another setting of [SLS_DEBUG]. *)
Definition withDebug (b : bool) (env : Env) : Env :=
  mkEnv b (servicePath env) (cwd env) (packageJson env) (pathExistsSync env)
    (readFile env) (execSync env).

(** The trace without its log lines. *)
Definition operations (t : list Effect) : list Effect :=
  filter (fun e => negb (isLog e)) t.

(** Two runs that differ in log lines at most. *)
Definition sameUpToLogs {A} (r r' : (Error + A) * Plugin * list Effect) : Prop :=
  outcome r = outcome r' /\ final r = final r' /\
  operations (trace r) = operations (trace r').

(** Two actions whose runs differ in log lines at most. *)
Definition alike {A} (m m' : M A) : Prop :=
  forall p, sameUpToLogs (m p) (m' p).

(** * Properties *)

(** ** Facts about strings *)

Section StringFacts.

Lemma append_assoc (a b c : string) : (a ++ b) ++ c = a ++ (b ++ c).
Proof. induction a as [|x a IH]; simpl; [reflexivity | now rewrite IH]. Qed.

Lemma append_nil_r (a : string) : a ++ "" = a.
Proof. induction a as [|x a IH]; simpl; [reflexivity | now rewrite IH]. Qed.

Lemma length_append (a b : string) :
  String.length (a ++ b) = (String.length a + String.length b)%nat.
Proof. induction a as [|x a IH]; simpl; [reflexivity | now rewrite IH]. Qed.

Lemma mem_append (c : ascii) (a b : string) :
  Js.mem c (a ++ b) = (Js.mem c a || Js.mem c b)%bool.
Proof.
  induction a as [|x a IH]; simpl; [reflexivity|].
  rewrite IH. now rewrite orb_assoc.
Qed.

Lemma prefix_refl_append (n s : string) : String.prefix n (n ++ s) = true.
Proof.
  induction n as [|x n IH]; simpl; [now destruct s|].
  destruct (ascii_dec x x); [exact IH | congruence].
Qed.

Lemma prefix_nil (s : string) : String.prefix "" s = true.
Proof. now destruct s. Qed.

Lemma prefix_inv (n s : string) :
  String.prefix n s = true -> exists r, s = n ++ r.
Proof.
  revert s; induction n as [|x n IH]; intros s H.
  - now exists s.
  - destruct s as [|y s]; simpl in H; [discriminate|].
    destruct (ascii_dec x y) as [->|]; [|discriminate].
    destruct (IH _ H) as [r ->]. now exists r.
Qed.

(** ** [lastIndexOf] *)

Lemma lastIndexOf_from_append c a b i found :
  Js.lastIndexOf_from c (a ++ b) i found =
  Js.lastIndexOf_from c b (i + Z.of_nat (String.length a))
    (Js.lastIndexOf_from c a i found).
Proof.
  revert i found; induction a as [|x a IH]; intros i found; simpl String.length.
  - simpl. now rewrite Z.add_0_r.
  - cbn [Js.lastIndexOf_from append]. rewrite IH. f_equal. lia.
Qed.

Lemma lastIndexOf_from_absent c s i found :
  Js.mem c s = false -> Js.lastIndexOf_from c s i found = found.
Proof.
  revert i found; induction s as [|x s IH]; intros i found H; simpl in *.
  - reflexivity.
  - apply orb_false_iff in H as [Hx Hs]. rewrite Hx. now apply IH.
Qed.

Lemma lastIndexOf_absent c s : Js.mem c s = false -> Js.lastIndexOf s c = -1.
Proof. apply lastIndexOf_from_absent. Qed.

Lemma lastIndexOf_last c m f :
  Js.mem c f = false ->
  Js.lastIndexOf (m ++ String c f) c = Z.of_nat (String.length m).
Proof.
  intros H. unfold Js.lastIndexOf. rewrite lastIndexOf_from_append.
  cbn [Js.lastIndexOf_from]. rewrite Ascii.eqb_refl.
  rewrite lastIndexOf_from_absent by assumption. lia.
Qed.

(** ** [substr] *)

Lemma substring_prefix (m x : string) :
  substring 0 (String.length m) (m ++ x) = m.
Proof.
  induction m as [|a m IH]; simpl; [now destruct x | now rewrite IH].
Qed.

Lemma substring_all (s : string) : substring 0 (String.length s) s = s.
Proof. rewrite <- (append_nil_r s) at 2. apply substring_prefix. Qed.

Lemma substring_skip (m x : string) (k : nat) :
  substring (String.length m) k (m ++ x) = substring 0 k x.
Proof. induction m as [|a m IH]; simpl; [reflexivity | exact IH]. Qed.

Lemma substring_zero_len (n : nat) (s : string) : substring n 0 s = "".
Proof.
  revert n; induction s as [|a s IH]; intros [|n]; simpl; auto.
Qed.

Lemma substr_prefix (m x : string) :
  Js.substr (m ++ x) 0 (Some (Z.of_nat (String.length m))) = m.
Proof.
  unfold Js.substr. rewrite length_append. cbn [Z.ltb Z.compare].
  replace (Z.to_nat (Z.min 0 _)) with 0%nat by lia.
  replace (Z.to_nat _) with (String.length m) by lia.
  apply substring_prefix.
Qed.

Lemma substr_suffix (m x : string) :
  Js.substr (m ++ x) (Z.of_nat (String.length m)) None = x.
Proof.
  unfold Js.substr. rewrite length_append.
  destruct (Z.ltb_spec (Z.of_nat (String.length m)) 0); [lia|].
  replace (Z.to_nat (Z.min _ _)) with (String.length m) by lia.
  replace (Z.to_nat _) with (String.length x) by lia.
  rewrite substring_skip. apply substring_all.
Qed.

Lemma substr_negative_length (s : string) (l : Z) :
  l <= 0 -> Js.substr s 0 (Some l) = "".
Proof.
  intros H. unfold Js.substr. cbn [Z.ltb Z.compare].
  replace (Z.to_nat (Z.min (Z.max l 0) _)) with 0%nat by lia.
  apply substring_zero_len.
Qed.

Lemma substr_from_zero (s : string) : Js.substr s 0 None = s.
Proof. apply (substr_suffix "" s). Qed.

(** ** [split] and [join] *)

Lemma split_not_nil s sep : Js.split s sep <> [].
Proof.
  destruct s as [|a s]; simpl; [discriminate|].
  destruct (Ascii.eqb a sep); [discriminate|].
  destruct (Js.split s sep); discriminate.
Qed.

Lemma split_absent s sep : Js.mem sep s = false -> Js.split s sep = [s].
Proof.
  induction s as [|a s IH]; simpl; intros H; [reflexivity|].
  apply orb_false_iff in H as [Ha Hs]. rewrite Ha, (IH Hs). reflexivity.
Qed.

Lemma split_append_sep a b sep :
  Js.split (a ++ String sep b) sep = (Js.split a sep ++ Js.split b sep)%list.
Proof.
  induction a as [|x a IH]; simpl.
  - now rewrite Ascii.eqb_refl.
  - rewrite IH. destruct (Ascii.eqb x sep); [reflexivity|].
    destruct (Js.split a sep) eqn:E; [now apply split_not_nil in E|].
    reflexivity.
Qed.

(** The last segment absorbs a separator-free suffix. *)
Lemma split_append_absent a x sep :
  Js.mem sep x = false ->
  exists init l,
    Js.split a sep = (init ++ [l])%list /\
    Js.split (a ++ x) sep = List.app init [l ++ x].
Proof.
  intros Hx. induction a as [|c a (init & l & E1 & E2)]; simpl.
  - exists [], "". split; [reflexivity|]. now rewrite split_absent.
  - destruct (Ascii.eqb c sep).
    + exists ("" :: init), l. rewrite E1, E2. now split.
    + rewrite E1, E2. destruct init as [|i init]; simpl.
      * exists [], (String c l). now split.
      * exists (String c i :: init), l. now split.
Qed.

Lemma split_segment_absent s sep seg :
  In seg (Js.split s sep) -> Js.mem sep seg = false.
Proof.
  revert seg; induction s as [|a s IH]; simpl; intros seg H.
  - destruct H as [<-|[]]. reflexivity.
  - destruct (Ascii.eqb a sep) eqn:Ea.
    + destruct H as [<-|H]; [reflexivity | now apply IH].
    + destruct (Js.split s sep) as [|s0 rest] eqn:E.
      * destruct H as [<-|[]]. simpl. now rewrite Ea.
      * destruct H as [<-|H]; simpl.
        -- rewrite Ea. apply IH. now left.
        -- apply IH. now right.
Qed.

Lemma join_snoc (l : list string) (x sep : string) :
  l <> [] -> Js.join (l ++ [x]) sep = Js.join l sep ++ sep ++ x.
Proof.
  unfold Js.join. induction l as [|a l IH]; intros H; [congruence|].
  destruct l as [|b l]; simpl.
  - reflexivity.
  - simpl in IH. rewrite IH by discriminate.
    now rewrite !append_assoc.
Qed.

Lemma split_join (l : list string) (sep : ascii) :
  l <> [] -> Forall (fun s => Js.mem sep s = false) l ->
  Js.split (Js.join l (String sep "")) sep = l.
Proof.
  unfold Js.join. induction l as [|a l IH]; intros Hne Hall; [congruence|].
  inversion Hall as [|? ? Ha Hl]; subst.
  destruct l as [|b l].
  - simpl. now apply split_absent.
  - change (String.concat (String sep "") (a :: b :: l))
      with (a ++ String sep (String.concat (String sep "") (b :: l))).
    rewrite split_append_sep, split_absent by assumption.
    rewrite IH by (assumption || discriminate). reflexivity.
Qed.

(** ** [includes] *)

Lemma includes_spec (s n : string) : Js.includes s n = true <-> infix n s.
Proof.
  split.
  - induction s as [|x s IH]; cbn [Js.includes]; intros H.
    + rewrite orb_false_r in H. apply prefix_inv in H as [r ->].
      now exists "", r.
    + apply orb_true_iff in H as [H|H].
      * apply prefix_inv in H as [r ->]. now exists "", r.
      * destruct (IH H) as (a & b & ->). now exists (String x a), b.
  - intros (a & b & ->). induction a as [|x a IH].
    + change ("" ++ n ++ b) with (n ++ b).
      pose proof (prefix_refl_append n b) as H.
      destruct (n ++ b); cbn [Js.includes]; now rewrite H.
    + cbn [append Js.includes]. cbn [append] in IH. rewrite IH.
      apply orb_true_r.
Qed.

Lemma infix_trans (a b c : string) : infix a b -> infix b c -> infix a c.
Proof.
  intros (x & y & ->) (u & v & ->). exists (u ++ x), (y ++ v).
  now rewrite !append_assoc.
Qed.

Lemma infix_absent (n s t : string) :
  infix s t -> Js.includes t n = false -> Js.includes s n = false.
Proof.
  intros Hst Ht. destruct (Js.includes s n) eqn:E; [|reflexivity].
  apply includes_spec in E. rewrite <- Ht. symmetry.
  apply includes_spec. eapply infix_trans; eauto.
Qed.

Lemma includes_char (s : string) (c : ascii) :
  Js.includes s (String c "") = Js.mem c s.
Proof.
  induction s as [|x s IH]; simpl; [reflexivity|].
  rewrite IH. f_equal.
  destruct (ascii_dec c x) as [->|Hn].
  - rewrite prefix_nil. now rewrite Ascii.eqb_refl.
  - symmetry. apply Ascii.eqb_neq. congruence.
Qed.

Lemma prefix_before_absent (n a b : string) (d : ascii) :
  Js.mem d n = false ->
  String.prefix n (a ++ String d b) = String.prefix n a.
Proof.
  revert n; induction a as [|x a IH]; intros n Hd.
  - destruct n as [|c n]; [reflexivity|]. simpl in *.
    apply orb_false_iff in Hd as [Hc _].
    destruct (ascii_dec c d) as [->|]; [|reflexivity].
    now rewrite Ascii.eqb_refl in Hc.
  - destruct n as [|c n]; [reflexivity|]. simpl in *.
    apply orb_false_iff in Hd as [_ Hn].
    destruct (ascii_dec c x); [now apply IH | reflexivity].
Qed.

(** A needle that does not hold the character [d] cannot straddle it. *)
Lemma includes_across (n a b : string) (d : ascii) :
  Js.mem d n = false ->
  Js.includes (a ++ String d b) n =
  (Js.includes a n || Js.includes b n)%bool.
Proof.
  intros Hd. induction a as [|x a IH].
  - pose proof (prefix_before_absent n "" b d Hd) as E.
    cbn [append] in E. cbn [append Js.includes].
    rewrite E. now rewrite orb_false_r.
  - pose proof (prefix_before_absent n (String x a) b d Hd) as E.
    cbn [append] in E. cbn [append Js.includes].
    rewrite E, IH. now rewrite orb_assoc.
Qed.

Lemma substring_infix (n m : nat) (s : string) : infix (substring n m s) s.
Proof.
  revert n m; induction s as [|x s IH]; intros n m.
  - destruct n, m; now exists "", "".
  - destruct n as [|n].
    + destruct m as [|m]; simpl.
      * now exists "", (String x s).
      * destruct (IH 0%nat m) as (a & b & E).
        (* the slice starts here, so nothing precedes it *)
        exists "". 
        assert (Hp : exists r, s = substring 0 m s ++ r).
        { clear. revert m. induction s as [|y s IH]; intros m.
          - exists "". now destruct m.
          - destruct m as [|m]; simpl; [now exists (String y s)|].
            destruct (IH m) as [r Hr]. exists r. now rewrite <- Hr. }
        destruct Hp as [r Hr]. exists r. simpl. now rewrite <- Hr.
    + simpl. destruct (IH n m) as (a & b & E).
      exists (String x a), b. simpl. now rewrite <- E.
Qed.

Lemma substr_infix (s : string) (i : Z) (l : option Z) :
  infix (Js.substr s i l) s.
Proof. apply substring_infix. Qed.

Lemma split_segment_infix s sep seg :
  In seg (Js.split s sep) -> infix seg s.
Proof.
  revert seg; induction s as [|a s IH]; simpl; intros seg H.
  - destruct H as [<-|[]]. now exists "", "".
  - destruct (Ascii.eqb a sep).
    + destruct H as [<-|H]; [now exists "", (String a s)|].
      destruct (IH _ H) as (u & v & E). exists (String a u), v.
      simpl. now rewrite <- E.
    + destruct (Js.split s sep) as [|s0 rest] eqn:E.
      * destruct H as [<-|[]]. now apply split_not_nil in E.
      * destruct H as [<-|H].
        -- destruct (IH s0 (or_introl eq_refl)) as (u & v & Es).
           (* [s0] is the first segment, a prefix of [s] *)
           assert (Hp : exists r, s = s0 ++ r).
           { clear - E. revert s0 rest E.
             induction s as [|y s IH]; simpl; intros s0 rest E.
             - injection E as <- _. now exists "".
             - destruct (Ascii.eqb y sep).
               + injection E as <- _. now exists (String y s).
               + destruct (Js.split s sep) as [|t ts] eqn:Et.
                 * injection E as <- _. now apply split_not_nil in Et.
                 * injection E as <- _. destruct (IH _ _ eq_refl) as [r ->].
                   now exists r. }
           destruct Hp as [r ->]. exists "", r. reflexivity.
        -- destruct (IH seg (or_intror H)) as (u & v & Es).
           exists (String a u), v. simpl. now rewrite <- Es.
Qed.

End StringFacts.

(** ** The handler reference parser *)

Section HandlerReference.

Lemma fold_pick_cases (l : list string) (acc : string) :
  fold_left Path.pick l acc = acc \/ In (fold_left Path.pick l acc) l.
Proof.
  revert acc; induction l as [|s l IH]; intros acc; simpl; [now left|].
  destruct (IH (Path.pick acc s)) as [E|HIn]; [|now right; right].
  rewrite E. unfold Path.pick. destruct (s =? "") eqn:Es; [now left|].
  right; now left.
Qed.

Lemma basename_infix (h : string) : infix (Path.basename h) h.
Proof.
  unfold Path.basename.
  destruct (fold_pick_cases (Path.segments h) "") as [->|HIn].
  - now exists "", h.
  - now apply split_segment_infix in HIn.
Qed.

(** A non-empty suffix without separator extends the last segment, which
    then is the base name. *)
Lemma basename_append (m x : string) :
  x <> "" -> Js.mem "/" x = false ->
  exists l, Path.basename (m ++ x) = l ++ x.
Proof.
  intros Hne Hx. unfold Path.basename, Path.segments.
  destruct (split_append_absent m x "/" Hx) as (init & l & _ & ->).
  exists l. rewrite fold_left_app. simpl. unfold Path.pick at 1.
  destruct (l ++ x =? "") eqn:E; [|reflexivity].
  apply String.eqb_eq in E. destruct l, x; simpl in E; congruence.
Qed.

Lemma handlerModulePath_last_dot (m f : string) :
  Js.mem "." f = false -> handlerModulePath (m ++ String "." f) = m.
Proof.
  intros Hf. unfold handlerModulePath.
  rewrite lastIndexOf_last by assumption. apply substr_prefix.
Qed.

Lemma handlerFuncName_last_dot (m f : string) :
  Js.mem "." f = false -> Js.mem "/" f = false ->
  handlerFuncName (m ++ String "." f) = f.
Proof.
  intros Hdot Hsep. unfold handlerFuncName.
  destruct (basename_append m (String "." f)) as [l ->];
    [discriminate | simpl; now rewrite Hsep |].
  rewrite lastIndexOf_last by assumption.
  change (l ++ String "." f) with (l ++ "." ++ f).
  rewrite <- append_assoc.
  replace (Z.of_nat (String.length l) + 1)
    with (Z.of_nat (String.length (l ++ "."))).
  - apply substr_suffix.
  - rewrite length_append. simpl. lia.
Qed.

Lemma handlerModulePath_no_dot (h : string) :
  Js.mem "." h = false -> handlerModulePath h = "".
Proof.
  intros H. unfold handlerModulePath. rewrite lastIndexOf_absent by assumption.
  apply substr_negative_length. lia.
Qed.

Lemma handlerFuncName_no_dot (h : string) :
  Js.mem "." h = false -> handlerFuncName h = Path.basename h.
Proof.
  intros H. unfold handlerFuncName.
  rewrite lastIndexOf_absent.
  - apply substr_from_zero.
  - rewrite <- includes_char in *.
    eapply infix_absent; [apply basename_infix | exact H].
Qed.

(** Every handler with a dot splits at its last dot. *)
Lemma last_dot_decomposition (h : string) :
  Js.includes h "." = true ->
  exists m f, h = m ++ "." ++ f /\ Js.includes f "." = false.
Proof.
  rewrite includes_char. induction h as [|x h IH]; simpl; [discriminate|].
  intros H. destruct (Js.mem "." h) eqn:Eh.
  - destruct (IH eq_refl) as (m & f & -> & Hf). now exists (String x m), f.
  - rewrite orb_false_r in H. apply Ascii.eqb_eq in H as ->.
    exists "", h. split; [reflexivity|]. now rewrite includes_char.
Qed.

End HandlerReference.

(** C1 (as amended).  A handler that holds a dot splits at its last dot
    into a prefix and a dot-free suffix.  The module path the parser returns
    is exactly that prefix.  When no path separator follows the last dot,
    the function name it returns is exactly that suffix, and module path,
    dot and function name rebuild the handler string. *)
Theorem C1_handler_reference_parser (h : string) :
  Js.includes h "." = true ->
  exists m f,
    h = m ++ "." ++ f /\
    Js.includes f "." = false /\
    handlerModulePath h = m /\
    (Js.includes f "/" = false ->
     handlerFuncName h = f /\
     handlerModulePath h ++ "." ++ handlerFuncName h = h).
Proof.
  intros Hh. destruct (last_dot_decomposition h Hh) as (m & f & -> & Hf).
  exists m, f. rewrite includes_char in Hf.
  change (m ++ "." ++ f) with (m ++ String "." f).
  rewrite handlerModulePath_last_dot by assumption.
  split; [reflexivity|]. split; [now rewrite includes_char|].
  split; [reflexivity|]. intros Hsep. rewrite includes_char in Hsep.
  now rewrite handlerFuncName_last_dot.
Qed.

Lemma C1_handler_reference_parser_witness :
  Js.includes "foo.bar/zoo.handler" "." = true /\
  exists m f,
    "foo.bar/zoo.handler" = m ++ "." ++ f /\
    Js.includes f "." = false /\
    handlerModulePath "foo.bar/zoo.handler" = m /\
    (Js.includes f "/" = false ->
     handlerFuncName "foo.bar/zoo.handler" = f /\
     handlerModulePath "foo.bar/zoo.handler" ++ "." ++
       handlerFuncName "foo.bar/zoo.handler" = "foo.bar/zoo.handler").
Proof.
  split; [reflexivity|].
  apply (C1_handler_reference_parser "foo.bar/zoo.handler"). reflexivity.
Defined.

(** C1 fails as stated.  In ["foo.bar/zoo"] the last dot precedes a path
    separator; the function name is cut from the base name ["zoo"], not from
    the text after the last dot, and the two parts do not rebuild the
    handler.  The handler ["hello"] has no dot, and the Node.js generator
    reports nothing: it reaches its write, with the empty module path in
    the [require]. *)
Lemma C1_counterexample :
  (Js.includes "foo.bar/zoo" "." = true /\
   handlerModulePath "foo.bar/zoo" = "foo" /\
   handlerFuncName "foo.bar/zoo" = "zoo" /\
   handlerFuncName "foo.bar/zoo" <> "bar/zoo" /\
   handlerModulePath "foo.bar/zoo" ++ "." ++ handlerFuncName "foo.bar/zoo"
     <> "foo.bar/zoo") /\
  (Js.includes "hello" "." = false /\
   worldChanges
     (trace (createWrappedNodejsFunction sampleEnv (mkFunc "hello" (fn "hello"))
               (Some "test-token") None (fresh (sampleService "nodejs12.x")))) =
     [OutputFile "/srv/app/_lumigo/hello.js"
        (wrappedNodejsFunction "token: 'test-token'" "" "hello")]).
Proof. repeat split; try reflexivity; discriminate. Qed.

(** ** Running the monad *)

Lemma bind_run {A B} (m : M A) (k : A -> M B) (p : Plugin) :
  bind m k p =
  match m p with
  | (inl e, p', t) => (inl e, p', t)
  | (inr a, p', t) =>
      match k a p' with
      | (r, p'', t') => (r, p'', (t ++ t')%list)
      end
  end.
Proof. reflexivity. Qed.

Lemma bind_getPlugin {B} (k : Plugin -> M B) (p : Plugin) :
  bind getPlugin k p = k p p.
Proof. unfold bind, getPlugin. now destruct (k p p) as [[r p'] t]. Qed.

Lemma bind_emit {B} (e : Effect) (k : M B) (p : Plugin) :
  bind (emit e) (fun _ => k) p =
  match k p with (r, p', t) => (r, p', e :: t) end.
Proof. reflexivity. Qed.

Lemma bind_ret {A B} (a : A) (k : A -> M B) (p : Plugin) :
  bind (ret a) k p = k a p.
Proof. unfold bind, ret. now destruct (k a p) as [[r p'] t]. Qed.

Lemma getFunctionsToWrap_run (functionNames : option (list string)) (p : Plugin) :
  getFunctionsToWrap functionNames p =
  (inr (runtimeFamily (service p), eligible (service p) functionNames), p,
   match runtimeFamily (service p) with
   | unsupported => [unsupportedLine (service p)]
   | _ => []
   end).
Proof.
  unfold getFunctionsToWrap. rewrite bind_getPlugin.
  unfold eligible, runtimeFamily, named.
  destruct (Js.startsWith (providerRuntime (service p)) "nodejs");
    [reflexivity|].
  destruct (Js.startsWith (providerRuntime (service p)) "python3");
    reflexivity.
Qed.

Lemma forEach_verboseLogJson (env : Env) (l : list Func) (p : Plugin) :
  forEach l (verboseLogJson env) p =
  (inr tt, p, if SLS_DEBUG env then map CliLogJson l else []).
Proof.
  induction l as [|x l IH]; simpl.
  - now destruct (SLS_DEBUG env).
  - rewrite bind_run. unfold verboseLogJson at 1.
    destruct (SLS_DEBUG env); cbn [emit ret]; rewrite IH; reflexivity.
Qed.

(** [wrapFunctions] is its prologue, then the early return or the wrap. *)
Lemma wrapFunctions_run env functionNames p :
  wrapFunctions env functionNames p =
  match eligible (service p) functionNames with
  | [] => (inr tt, p, prologue env (service p) functionNames)
  | functions =>
      match wrapEligible env (runtimeFamily (service p)) functions p with
      | (r, p', t) =>
          (r, p', (prologue env (service p) functionNames ++ t)%list)
      end
  end.
Proof.
  unfold wrapFunctions. rewrite bind_run, getFunctionsToWrap_run.
  cbn [fst snd]. unfold log. rewrite bind_emit, bind_run, forEach_verboseLogJson.
  unfold prologue.
  destruct (eligible (service p) functionNames) as [|f l] eqn:E.
  - cbn [List.length Nat.eqb ret]. now rewrite app_nil_r.
  - cbn [List.length Nat.eqb].
    fold (wrapEligible env (runtimeFamily (service p)) (f :: l)).
    destruct (wrapEligible env (runtimeFamily (service p)) (f :: l) p)
      as [[r p'] t].
    now rewrite <- app_assoc.
Qed.

(** ** Eligibility *)

Lemma namesInclude_In (names : list string) (n : string) :
  namesInclude names n = true <-> In n names.
Proof.
  unfold namesInclude. rewrite existsb_exists. split.
  - intros (x & Hx & E). apply String.eqb_eq in E. now subst.
  - intros H. exists n. split; [assumption | apply String.eqb_refl].
Qed.

Lemma named_localNames (svc : Service) (names : list string) :
  map localName (named svc (Some names)) =
  filter (namesInclude names) (getAllFunctions svc).
Proof.
  unfold named, getAllFunctions.
  induction (functions svc) as [|e l IH]; simpl; [reflexivity|].
  destruct (namesInclude names (fst e)); simpl; now rewrite IH.
Qed.

Lemma eligible_supported (svc : Service) functionNames :
  runtimeFamily svc <> unsupported ->
  eligible svc functionNames = named svc functionNames.
Proof. unfold eligible. now destruct (runtimeFamily svc). Qed.

Lemma eligible_unsupported (svc : Service) functionNames :
  runtimeFamily svc = unsupported -> eligible svc functionNames = [].
Proof. unfold eligible. now intros ->. Qed.

Lemma eligible_subset (svc : Service) functionNames (f : Func) :
  In f (eligible svc functionNames) ->
  In (localName f, decl f) (functions svc).
Proof.
  unfold eligible, named. intros H.
  assert (H' : In f (map (fun e => mkFunc (fst e) (snd e))
                       (filter (fun e => namesInclude
                          match functionNames with
                          | Some l => l
                          | None => getAllFunctions svc
                          end (fst e)) (functions svc)))).
  { destruct (runtimeFamily svc); [assumption | assumption | destruct H]. }
  apply in_map_iff in H' as ([n d] & <- & Hin).
  apply filter_In in Hin as [Hin _]. exact Hin.
Qed.

Lemma prologue_logs env svc functionNames :
  forallb isLog (prologue env svc functionNames) = true.
Proof.
  unfold prologue. rewrite forallb_app. apply andb_true_iff. split.
  - now destruct (runtimeFamily svc).
  - simpl. destruct (SLS_DEBUG env); [|reflexivity].
    induction (eligible svc functionNames); simpl; auto.
Qed.

Lemma logs_change_nothing (t : list Effect) :
  forallb isLog t = true -> worldChanges t = [].
Proof.
  induction t as [|e t IH]; simpl; [reflexivity|].
  intros H. apply andb_true_iff in H as [He Ht].
  destruct e; simpl in *; try discriminate; now apply IH.
Qed.

(** C3.  Under a provider runtime that starts neither with ["nodejs"] nor
    with ["python3"], [wrapFunctions] returns normally whatever the rest of
    the configuration, the surroundings and the name filter are: the plugin
    is unchanged, and the whole trace is the informational line about the
    unsupported runtime followed by the count line for zero functions, so
    no file is written and no command is executed. *)
Theorem C3_unsupported_runtime_is_skipped
    (env : Env) (functionNames : option (list string)) (p : Plugin) :
  Js.startsWith (providerRuntime (service p)) "nodejs" = false ->
  Js.startsWith (providerRuntime (service p)) "python3" = false ->
  wrapFunctions env functionNames p =
    (inr tt, p,
     [CliLog ("serverless-lumigo: unsupported runtime: ["
              ++ providerRuntime (service p) ++ "], skipped...");
      CliLog "serverless-lumigo: there are 0 function(s) to wrap..."]) /\
  worldChanges (trace (wrapFunctions env functionNames p)) = [].
Proof.
  intros Hnode Hpy.
  assert (Hfam : runtimeFamily (service p) = unsupported).
  { unfold runtimeFamily. now rewrite Hnode, Hpy. }
  assert (Hrun : wrapFunctions env functionNames p =
    (inr tt, p, [unsupportedLine (service p); countLine 0])).
  { rewrite wrapFunctions_run, eligible_unsupported by assumption.
    unfold prologue. rewrite eligible_unsupported, Hfam by assumption.
    now destruct (SLS_DEBUG env). }
  split; [exact Hrun|]. now rewrite Hrun.
Qed.

Lemma C3_unsupported_runtime_is_skipped_witness :
  Js.startsWith "python2.7" "nodejs" = false /\
  Js.startsWith "python2.7" "python3" = false /\
  wrapFunctions sampleEnv None (fresh (sampleService "python2.7")) =
    (inr tt, fresh (sampleService "python2.7"),
     [CliLog "serverless-lumigo: unsupported runtime: [python2.7], skipped...";
      CliLog "serverless-lumigo: there are 0 function(s) to wrap..."]).
Proof.
  split; [reflexivity|]. split; [reflexivity|].
  apply (C3_unsupported_runtime_is_skipped sampleEnv None
           (fresh (sampleService "python2.7"))); reflexivity.
Defined.

(** C9 (as amended).  With a name filter, [getFunctionsToWrap] returns,
    under a supported runtime, the declared functions whose name the filter
    includes, in the order of declaration: the eligible names are those both
    in the filter and declared, and names of the filter that are not
    declared are dropped without a trace.  Under an unsupported runtime it
    returns no function, whatever the filter.  When no name of the filter is
    declared the eligible set is empty and [wrapFunctions] returns at once:
    no error, the plugin unchanged, nothing but log lines in the trace. *)
Theorem C9_unknown_names_are_dropped
    (env : Env) (names : list string) (p : Plugin) :
  outcome (getFunctionsToWrap (Some names) p) =
    inr (runtimeFamily (service p), eligible (service p) (Some names)) /\
  (runtimeFamily (service p) <> unsupported ->
   map localName (eligible (service p) (Some names)) =
     filter (namesInclude names) (getAllFunctions (service p)) /\
   forall n, In n (map localName (eligible (service p) (Some names))) <->
             In n names /\ In n (getAllFunctions (service p))) /\
  (runtimeFamily (service p) = unsupported ->
   eligible (service p) (Some names) = []) /\
  ((forall n, In n names -> ~ In n (getAllFunctions (service p))) ->
   eligible (service p) (Some names) = [] /\
   outcome (wrapFunctions env (Some names) p) = inr tt /\
   final (wrapFunctions env (Some names) p) = p /\
   forallb isLog (trace (wrapFunctions env (Some names) p)) = true /\
   worldChanges (trace (wrapFunctions env (Some names) p)) = []).
Proof.
  split; [now rewrite getFunctionsToWrap_run|]. split; [|split].
  - intros Hsup. rewrite eligible_supported, named_localNames by assumption.
    split; [reflexivity|]. intros n. rewrite filter_In, namesInclude_In.
    tauto.
  - apply eligible_unsupported.
  - intros Hnone.
    assert (Hempty : eligible (service p) (Some names) = []).
    { destruct (runtimeFamily (service p)) eqn:Hfam;
        try now apply eligible_unsupported.
      all: rewrite eligible_supported by congruence.
      all: apply map_eq_nil with (f := localName).
      all: rewrite named_localNames.
      all: induction (getAllFunctions (service p)) as [|n l IH]; simpl;
        [reflexivity|].
      all: destruct (namesInclude names n) eqn:E;
        [apply namesInclude_In in E; exfalso; apply (Hnone n E); now left|].
      all: apply IH; intros m Hm Hin; apply (Hnone m Hm); now right. }
    rewrite wrapFunctions_run, Hempty. cbn [outcome final trace fst snd].
    repeat split; try reflexivity.
    + apply prologue_logs.
    + apply logs_change_nothing, prologue_logs.
Qed.

Lemma C9_unknown_names_are_dropped_witness :
  (forall n, In n ["nope"; "neither"] ->
             ~ In n (getAllFunctions (sampleService "nodejs12.x"))) /\
  eligible (sampleService "nodejs12.x") (Some ["nope"; "neither"]) = [] /\
  outcome (wrapFunctions sampleEnv (Some ["nope"; "neither"])
             (fresh (sampleService "nodejs12.x"))) = inr tt /\
  final (wrapFunctions sampleEnv (Some ["nope"; "neither"])
           (fresh (sampleService "nodejs12.x"))) =
    fresh (sampleService "nodejs12.x") /\
  worldChanges (trace (wrapFunctions sampleEnv (Some ["nope"; "neither"])
                         (fresh (sampleService "nodejs12.x")))) = [].
Proof.
  assert (H : forall n, In n ["nope"; "neither"] ->
                ~ In n (getAllFunctions (sampleService "nodejs12.x"))).
  { intros n [<-|[<-|[]]] Hin; simpl in Hin;
      repeat (destruct Hin as [Hin|Hin]; [discriminate|]); exact Hin. }
  split; [exact H|].
  destruct (C9_unknown_names_are_dropped sampleEnv ["nope"; "neither"]
              (fresh (sampleService "nodejs12.x"))) as (_ & _ & _ & Hdrop).
  destruct (Hdrop H) as (He & Ho & Hf & _ & Hw). repeat split; assumption.
Defined.

(** C9 fails as stated under an unsupported runtime: with the runtime
    ["java8"] and the filter [hello, nope], the name [hello] is both in the
    filter and declared, and yet no function is eligible. *)
Lemma C9_counterexample :
  In "hello" ["hello"; "nope"] /\
  In "hello" (getAllFunctions (sampleService "java8")) /\
  outcome (getFunctionsToWrap (Some ["hello"; "nope"])
             (fresh (sampleService "java8"))) = inr (unsupported, []) /\
  eligible (sampleService "java8") (Some ["hello"; "nope"]) = [] /\
  ~ In "hello"
      (map localName (eligible (sampleService "java8") (Some ["hello"; "nope"]))).
Proof.
  repeat split; try reflexivity; simpl; tauto.
Qed.




(** ** The generated Node.js wrapper *)

Lemma includes_intro (a n b : string) : Js.includes (a ++ n ++ b) n = true.
Proof. apply includes_spec. now exists a, b. Qed.

Lemma includes_absent_longer (s n n' : string) :
  infix n n' -> Js.includes s n = false -> Js.includes s n' = false.
Proof.
  intros Hn Hs. destruct (Js.includes s n') eqn:E; [|reflexivity].
  apply includes_spec in E. rewrite <- Hs. symmetry.
  apply includes_spec. eapply infix_trans; eauto.
Qed.

Lemma handlerModulePath_infix (h : string) : infix (handlerModulePath h) h.
Proof. apply substr_infix. Qed.

Lemma handlerFuncName_infix (h : string) : infix (handlerFuncName h) h.
Proof.
  eapply infix_trans; [apply substr_infix | apply basename_infix].
Qed.

Lemma getNodeTracerParameters_eq (t : string) (edgeHost : option string) :
  getNodeTracerParameters (Some t) edgeHost =
  inr match edgeHost with
      | Some (String c e) =>
          "token: '" ++ t ++ "',edgeHost: '" ++ String c e ++ "'"
      | _ => "token: '" ++ t ++ "'"
      end.
Proof.
  destruct edgeHost as [[|c e]|]; try reflexivity.
  unfold getNodeTracerParameters, Js.join, render.
  cbn [List.app String.concat]. now rewrite !append_assoc.
Qed.

(** The single write of [createWrappedNodejsFunction]. *)
Lemma createWrappedNodejsFunction_writes env func t edgeHost p parameters :
  getNodeTracerParameters (Some t) edgeHost = inr parameters ->
  worldChanges (trace (createWrappedNodejsFunction env func (Some t) edgeHost p)) =
    [OutputFile (Path.join [folderPath env; localName func ++ ".js"])
       (wrappedNodejsFunction parameters
          (handlerModulePath (handler (decl func)))
          (handlerFuncName (handler (decl func))))].
Proof.
  intros E. unfold createWrappedNodejsFunction. rewrite E.
  unfold trace, bind, verboseLog, log, emit, ret.
  destruct (SLS_DEBUG env); reflexivity.
Qed.

(** The wrapper text, cut at characters that do not occur in ["edgeHost"]. *)
Lemma wrappedNodejsFunction_pieces (t modulePath funcName : string) :
  wrappedNodejsFunction ("token: '" ++ t ++ "'") modulePath funcName =
  (LF ++ "const tracer = require(" ++ DQ ++ "@lumigo/tracer" ++ DQ ++ ")({"
      ++ LF ++ TAB ++ "token: ") ++
  String "'" (t ++
  String "'" ((LF ++ "});" ++ LF ++ "const handler = require('..") ++
  String "/" (modulePath ++
  String "'" (")" ++
  String "." (funcName ++
  String ";" ((LF ++ LF ++ "module.exports") ++
  String "." (funcName ++
  String " " ("= tracer.trace(handler);" ++ LF ++ "    ")))))))).
Proof.
  unfold wrappedNodejsFunction. rewrite !append_assoc. reflexivity.
Qed.

Lemma wrappedNodejsFunction_without_edgeHost (t h : string) :
  Js.includes t "edgeHost" = false ->
  Js.includes h "edgeHost" = false ->
  Js.includes
    (wrappedNodejsFunction ("token: '" ++ t ++ "'")
       (handlerModulePath h) (handlerFuncName h)) "edgeHost" = false.
Proof.
  intros Ht Hh.
  pose proof (infix_absent "edgeHost" _ _ (handlerModulePath_infix h) Hh) as Hm.
  pose proof (infix_absent "edgeHost" _ _ (handlerFuncName_infix h) Hh) as Hf.
  rewrite wrappedNodejsFunction_pieces.
  repeat (rewrite includes_across by reflexivity).
  rewrite Ht, Hm, Hf. reflexivity.
Qed.

(** X16.  [createWrappedNodejsFunction] called with a token changes the
    world by exactly one write, of the file named after the function in the
    plugin folder, and the text holds the token as [token: '<token>'], with
    a space after the colon.  With a non-empty edgeHost the text holds
    [edgeHost: '<edgeHost>'].  Without one (absent or empty) the parameters
    are the token alone, and as long as neither the token nor the handler
    spell the word, ["edgeHost"] occurs nowhere in the text, so no
    [edgeHost: '...'] entry of any value does. *)
Theorem X16_nodejs_wrapper_parameters
    (env : Env) (func : Func) (t : string) (edgeHost : option string)
    (p : Plugin) :
  exists content,
    worldChanges
      (trace (createWrappedNodejsFunction env func (Some t) edgeHost p)) =
      [OutputFile (Path.join [folderPath env; localName func ++ ".js"]) content] /\
    Js.includes content ("token: '" ++ t ++ "'") = true /\
    (forall e, edgeHost = Some e -> e <> "" ->
       Js.includes content ("edgeHost: '" ++ e ++ "'") = true) /\
    (edgeHost = None \/ edgeHost = Some "" ->
     getNodeTracerParameters (Some t) edgeHost = inr ("token: '" ++ t ++ "'") /\
     (Js.includes t "edgeHost" = false ->
      Js.includes (handler (decl func)) "edgeHost" = false ->
      Js.includes content "edgeHost" = false /\
      forall e, Js.includes content ("edgeHost: '" ++ e ++ "'") = false)).
Proof.
  pose (before := LF ++ "const tracer = require(" ++ DQ ++ "@lumigo/tracer"
                    ++ DQ ++ ")({" ++ LF ++ TAB).
  set (m := handlerModulePath (handler (decl func))).
  set (f := handlerFuncName (handler (decl func))).
  pose (after := LF ++ "});" ++ LF ++ "const handler = require('../" ++ m
                   ++ "')." ++ f ++ ";" ++ LF ++ LF ++ "module.exports." ++ f
                   ++ " = tracer.trace(handler);" ++ LF ++ "    ").
  pose proof (getNodeTracerParameters_eq t edgeHost) as E.
  eexists.
  split; [exact (createWrappedNodejsFunction_writes env func t edgeHost p _ E)|].
  fold m f. split; [|split].
  - apply includes_spec.
    destruct edgeHost as [[|c e]|].
    + now exists before, after.
    + exists before, (",edgeHost: '" ++ String c e ++ "'" ++ after).
      unfold wrappedNodejsFunction, before, after.
      rewrite !append_assoc. reflexivity.
    + now exists before, after.
  - intros e -> Hne. destruct e as [|c e]; [congruence|].
    apply includes_spec. exists (before ++ "token: '" ++ t ++ "',"), after.
    unfold wrappedNodejsFunction, before, after.
    rewrite !append_assoc. reflexivity.
  - intros Hnone.
    assert (Ep : getNodeTracerParameters (Some t) edgeHost
                 = inr ("token: '" ++ t ++ "'"))
      by (destruct Hnone as [-> | ->]; reflexivity).
    split; [exact Ep|]. intros Ht Hh.
    assert (Habs : Js.includes
              (wrappedNodejsFunction
                 match edgeHost with
                 | Some (String c e) =>
                     "token: '" ++ t ++ "',edgeHost: '" ++ String c e ++ "'"
                 | _ => "token: '" ++ t ++ "'"
                 end m f) "edgeHost" = false).
    { destruct Hnone as [-> | ->];
        now apply wrappedNodejsFunction_without_edgeHost. }
    split; [exact Habs|]. intros e.
    apply (includes_absent_longer _ "edgeHost"); [|exact Habs].
    now exists "", (": '" ++ e ++ "'").
Qed.

(** The proviso on the token cannot be dropped: template literals do not
    escape, so a token can smuggle an [edgeHost] entry into the text. *)
Lemma edgeHost_entry_from_token :
  Js.includes
    (wrappedNodejsFunction "token: 't', edgeHost: 'h'" "hello" "world")
    "edgeHost: 'h'" = true /\
  getNodeTracerParameters (Some "t', edgeHost: 'h") None =
    inr "token: 't', edgeHost: 'h'".
Proof. split; reflexivity. Qed.

Lemma X16_nodejs_wrapper_parameters_witness :
  exists content,
    worldChanges
      (trace (createWrappedNodejsFunction sampleEnv
                (mkFunc "hello" (fn "hello.world")) (Some "test-token")
                (Some "edge-host") (fresh (sampleService "nodejs12.x")))) =
      [OutputFile "/srv/app/_lumigo/hello.js" content] /\
    Js.includes content "token: 'test-token'" = true /\
    Js.includes content "edgeHost: 'edge-host'" = true.
Proof.
  destruct (X16_nodejs_wrapper_parameters sampleEnv
              (mkFunc "hello" (fn "hello.world")) "test-token"
              (Some "edge-host") (fresh (sampleService "nodejs12.x")))
    as (content & Hw & Ht & He & _).
  exists content. split; [exact Hw|]. split; [exact Ht|].
  apply (He "edge-host"); [reflexivity | discriminate].
Defined.

(** C6, at the failing input.  With the token ["test-token"] and the edge
    host ["edge-host"], the wrapper written for [hello] spells both entries
    with a space after the colon: [token: 'test-token'] and
    [edgeHost: 'edge-host'] occur in the text, [token:'test-token'] and
    [edgeHost:'edge-host'] do not. *)
Theorem C6_entries_are_spelled_with_a_space :
  let content :=
    wrappedNodejsFunction "token: 'test-token',edgeHost: 'edge-host'"
      "hello" "world" in
  getNodeTracerParameters (Some "test-token") (Some "edge-host") =
    inr "token: 'test-token',edgeHost: 'edge-host'" /\
  worldChanges
    (trace (createWrappedNodejsFunction sampleEnv
              (mkFunc "hello" (fn "hello.world")) (Some "test-token")
              (Some "edge-host") (fresh (sampleService "nodejs12.x")))) =
    [OutputFile "/srv/app/_lumigo/hello.js" content] /\
  Js.includes content "token: 'test-token'" = true /\
  Js.includes content "edgeHost: 'edge-host'" = true /\
  Js.includes content "token:'test-token'" = false /\
  Js.includes content "edgeHost:'edge-host'" = false.
Proof. repeat split. Qed.

(** ** Paths below the service directory *)

Section PathFacts.

Lemma endsWithSep_absent (b : string) :
  b <> "" -> Js.mem "/" b = false -> Path.endsWithSep b = false.
Proof.
  induction b as [|x b IH]; intros Hne Hm; [congruence|].
  simpl in Hm. apply orb_false_iff in Hm as [Hx Hb].
  destruct b as [|y b]; [exact Hx|].
  change (Path.endsWithSep (String x (String y b)))
    with (Path.endsWithSep (String y b)).
  apply IH; [discriminate | exact Hb].
Qed.

Lemma endsWithSep_append (a b : string) :
  b <> "" -> Path.endsWithSep (a ++ b) = Path.endsWithSep b.
Proof.
  intros Hne. induction a as [|x a IH]; [reflexivity|].
  cbn [append Path.endsWithSep]. destruct (a ++ b) eqn:E; [|exact IH].
  destruct a, b; simpl in E; congruence.
Qed.

Lemma normStep_clean (allow : bool) (st : list string) (seg : string) :
  isClean seg = true -> Path.normStep allow st seg = seg :: st.
Proof.
  unfold isClean, Path.normStep. intros H.
  apply negb_true_iff, orb_false_iff in H as [H H2].
  now rewrite H, H2.
Qed.

Lemma fold_normStep_clean (allow : bool) (l st : list string) :
  Forall good l ->
  fold_left (Path.normStep allow) l st = (rev l ++ st)%list.
Proof.
  revert st; induction l as [|x l IH]; intros st H; [reflexivity|].
  inversion H as [|? ? [Hx _] Hl]; subst. simpl.
  rewrite normStep_clean, IH by assumption.
  now rewrite <- app_assoc.
Qed.

Lemma fold_normStep_good (l st : list string) :
  Forall (fun s => Js.mem "/" s = false) l -> Forall good st ->
  Forall good (fold_left (Path.normStep false) l st).
Proof.
  revert st; induction l as [|x l IH]; intros st Hl Hst; [exact Hst|].
  inversion Hl as [|? ? Hx Hl']; subst. simpl. apply IH; [exact Hl'|].
  unfold Path.normStep.
  destruct ((x =? "") || (x =? "."))%bool eqn:E1; [exact Hst|].
  destruct (x =? "..") eqn:E2.
  - destruct st as [|top below]; [constructor|].
    destruct (top =? ".."); [exact Hst|]. now inversion Hst.
  - constructor; [|exact Hst]. split; [|exact Hx].
    unfold isClean. apply orb_false_iff in E1 as [Ea Eb].
    now rewrite Ea, Eb, E2.
Qed.

Lemma normSegments_good (p : string) :
  Forall good (Path.normSegments false (Path.segments p)).
Proof.
  unfold Path.normSegments. apply Forall_rev, fold_normStep_good.
  - apply Forall_forall. intros seg. apply split_segment_absent.
  - constructor.
Qed.

Lemma normSegments_snoc (l : list string) (x : string) :
  isClean x = true ->
  Path.normSegments false (l ++ [x]) =
  (Path.normSegments false l ++ [x])%list.
Proof.
  intros Hx. unfold Path.normSegments. rewrite fold_left_app. simpl.
  now rewrite normStep_clean.
Qed.

Lemma normSegments_snoc_empty (l : list string) :
  Path.normSegments false (l ++ [""]) = Path.normSegments false l.
Proof. unfold Path.normSegments. now rewrite fold_left_app. Qed.

Lemma join_snoc_nonempty (l : list string) (x sep : string) :
  x <> "" -> Js.join (l ++ [x]) sep <> "".
Proof.
  intros Hx. unfold Js.join. induction l as [|a l IH]; simpl; [exact Hx|].
  destruct (l ++ [x])%list eqn:E; [now destruct l|].
  destruct a; simpl; [|discriminate]. destruct sep; simpl; [|discriminate].
  exact IH.
Qed.

Lemma good_nonempty (x : string) : good x -> x <> "".
Proof. intros [H _] ->. discriminate. Qed.

(** The segments of a normalised absolute path. *)
Lemma segments_absolute (l : list string) :
  l <> [] -> Forall good l ->
  Path.segments ("/" ++ Js.join l "/") = "" :: l.
Proof.
  intros Hne Hl. unfold Path.segments.
  change ("/" ++ Js.join l "/") with (String "/" (Js.join l "/")).
  cbn [Js.split]. rewrite Ascii.eqb_refl. f_equal.
  apply split_join; [exact Hne|].
  eapply Forall_impl; [|exact Hl]. now intros a [_ Ha].
Qed.

Lemma normSegments_absolute (l : list string) :
  l <> [] -> Forall good l ->
  Path.normSegments false (Path.segments ("/" ++ Js.join l "/")) = l.
Proof.
  intros Hne Hl. rewrite segments_absolute by assumption.
  unfold Path.normSegments. cbn [fold_left].
  change (Path.normStep false [] "") with (@nil string).
  rewrite fold_normStep_clean by assumption.
  now rewrite app_nil_r, rev_involutive.
Qed.

Lemma isAbsolute_inv (a : string) :
  Path.isAbsolute a = true -> exists r, a = String "/" r.
Proof.
  unfold Path.isAbsolute, Js.startsWith. intros H.
  apply prefix_inv in H as [r ->]. now exists r.
Qed.

Lemma isAbsolute_slash (r : string) : Path.isAbsolute (String "/" r) = true.
Proof.
  unfold Path.isAbsolute, Js.startsWith. simpl.
  destruct (ascii_dec "/" "/"); [apply prefix_nil | congruence].
Qed.

Lemma isAbsolute_append (a b : string) :
  Path.isAbsolute a = true -> Path.isAbsolute (a ++ b) = true.
Proof.
  intros Ha. destruct (isAbsolute_inv a Ha) as [r ->]. apply isAbsolute_slash.
Qed.

(** Appending one clean segment to an absolute path. *)
Lemma normalize_absolute_append (a x : string) :
  Path.isAbsolute a = true -> good x ->
  Path.normalize (a ++ "/" ++ x) =
  "/" ++ Js.join (Path.normSegments false (Path.segments a) ++ [x]) "/".
Proof.
  intros Ha [Hclean Hsep].
  pose proof (good_nonempty x (conj Hclean Hsep)) as Hne.
  destruct (isAbsolute_inv a Ha) as [r ->].
  assert (Eseg : Path.normSegments false
                   (Path.segments (String "/" r ++ "/" ++ x)) =
                 (Path.normSegments false (Path.segments (String "/" r))
                    ++ [x])%list).
  { unfold Path.segments.
    change (String "/" r ++ "/" ++ x) with (String "/" r ++ String "/" x).
    rewrite split_append_sep, (split_absent x) by assumption.
    now apply normSegments_snoc. }
  unfold Path.normalize, Path.normalizeString.
  rewrite (isAbsolute_append _ _ Ha). cbn [negb]. rewrite Eseg.
  change (String "/" r ++ "/" ++ x =? "") with false. cbn iota.
  destruct (Js.join _ "/" =? "") eqn:E.
  - apply String.eqb_eq in E. now apply join_snoc_nonempty in E.
  - rewrite endsWithSep_append by discriminate.
    rewrite endsWithSep_append by assumption.
    now rewrite endsWithSep_absent.
Qed.

Lemma join_two (a b : string) :
  a <> "" -> b <> "" -> Path.join [a; b] = Path.normalize (a ++ "/" ++ b).
Proof.
  intros Ha Hb. unfold Path.join. cbn [filter].
  apply String.eqb_neq in Ha, Hb. now rewrite Ha, Hb.
Qed.

Lemma resolve_absolute (cwd a : string) :
  Path.isAbsolute a = true ->
  Path.resolve cwd a =
  "/" ++ Js.join (Path.normSegments false (Path.segments a)) "/".
Proof.
  intros Ha. destruct (isAbsolute_inv a Ha) as [r ->].
  unfold Path.resolve.
  change (String "/" r =? "") with false. rewrite Ha. cbn iota beta.
  unfold Path.normalizeString, Path.segments.
  change (String "/" r ++ "/") with (String "/" r ++ String "/" "").
  rewrite split_append_sep. change (Js.split "" "/") with [""].
  now rewrite normSegments_snoc_empty.
Qed.

Lemma kept_absolute (l : list string) :
  Forall good l ->
  filter (fun s => negb (s =? "")) (Path.segments ("/" ++ Js.join l "/")) = l.
Proof.
  intros Hl. destruct l as [|a l]; [reflexivity|].
  rewrite segments_absolute by (assumption || discriminate).
  set (f := fun s => negb (s =? "")).
  change (filter f ("" :: a :: l)) with (filter f (a :: l)).
  apply forallb_filter_id. subst f.
  apply forallb_forall. intros x Hx.
  rewrite Forall_forall in Hl. apply Hl in Hx as [Hc _].
  unfold isClean in Hc. apply negb_true_iff, orb_false_iff in Hc as [Hc _].
  apply orb_false_iff in Hc as [-> _]. reflexivity.
Qed.

Lemma stripCommon_prefix (l x : list string) :
  Path.stripCommon l (l ++ x) = ([], x).
Proof.
  induction l as [|a l IH]; simpl; [now destruct x|].
  now rewrite String.eqb_refl.
Qed.

(** A file directly inside [_lumigo], seen from the service directory. *)
Lemma lumigo_file_paths (cwd sp name : string) :
  Path.isAbsolute sp = true -> good name ->
  Path.join [Path.join [sp; "_lumigo"]; name] =
    Path.join [sp; "_lumigo"] ++ "/" ++ name /\
  Path.relative cwd sp (Path.join [Path.join [sp; "_lumigo"]; name]) =
    "_lumigo/" ++ name.
Proof.
  intros Hsp Hname.
  set (N := Path.normSegments false (Path.segments sp)).
  assert (HN : Forall good N) by apply normSegments_good.
  assert (Hlum : good "_lumigo") by (split; reflexivity).
  assert (Hsp' : sp <> "") by (destruct (isAbsolute_inv sp Hsp) as [r ->]; discriminate).
  assert (Efolder : Path.join [sp; "_lumigo"] =
            "/" ++ Js.join (N ++ ["_lumigo"]) "/").
  { rewrite join_two by (assumption || discriminate).
    now apply normalize_absolute_append. }
  assert (HN1 : Forall good (N ++ ["_lumigo"])).
  { apply Forall_app. split; [exact HN | now constructor]. }
  assert (Efile : Path.join [Path.join [sp; "_lumigo"]; name] =
            "/" ++ Js.join (N ++ ["_lumigo"; name]) "/").
  { rewrite join_two; [| rewrite Efolder; discriminate
                       | now apply good_nonempty].
    rewrite normalize_absolute_append;
      [| rewrite Efolder; apply isAbsolute_slash | exact Hname].
    rewrite Efolder, normSegments_absolute; [| now destruct N | exact HN1].
    now rewrite <- app_assoc. }
  assert (HN2 : Forall good (N ++ ["_lumigo"; name])).
  { apply Forall_app. split; [exact HN|].
    constructor; [exact Hlum | constructor; [exact Hname | constructor]]. }
  split.
  - rewrite Efile, Efolder.
    change [ "_lumigo"; name ] with (["_lumigo"] ++ [name])%list.
    rewrite app_assoc, join_snoc by now destruct N.
    now rewrite append_assoc.
  - rewrite Efile. unfold Path.relative.
    assert (Ef : Path.resolve cwd sp = "/" ++ Js.join N "/")
      by now apply resolve_absolute.
    assert (Et : Path.resolve cwd ("/" ++ Js.join (N ++ ["_lumigo"; name]) "/")
                 = "/" ++ Js.join (N ++ ["_lumigo"; name]) "/").
    { rewrite resolve_absolute by apply isAbsolute_slash.
      rewrite normSegments_absolute; [reflexivity | now destruct N | exact HN2]. }
    assert (Hdiff : "/" ++ Js.join N "/" <>
                    "/" ++ Js.join (N ++ ["_lumigo"; name]) "/").
    { intros E. apply (f_equal (fun q =>
        List.length (filter (fun s => negb (s =? "")) (Path.segments q)))) in E.
      rewrite !kept_absolute in E by assumption.
      rewrite length_app in E. simpl in E. lia. }
    destruct (sp =? _) eqn:E1.
    { apply String.eqb_eq in E1. exfalso. apply Hdiff.
      rewrite <- Ef, <- Et at 1. now rewrite <- E1. }
    rewrite Ef, Et.
    destruct (String.eqb_spec ("/" ++ Js.join N "/")
                ("/" ++ Js.join (N ++ ["_lumigo"; name]) "/")) as [E2|_];
      [contradiction|].
    rewrite !kept_absolute by assumption.
    rewrite stripCommon_prefix. reflexivity.
Qed.

Lemma good_file_name (name ext : string) :
  Js.mem "/" name = false -> Js.mem "/" ext = false ->
  (3 <= String.length ext)%nat -> good (name ++ ext).
Proof.
  intros Hn He Hlen. split.
  - unfold isClean. apply negb_true_iff.
    assert (Hl : (3 <= String.length (name ++ ext))%nat)
      by (rewrite length_append; lia).
    repeat (apply orb_false_iff; split); apply String.eqb_neq;
      intros E; rewrite E in Hl; simpl in Hl; lia.
  - rewrite mem_append. now rewrite Hn, He.
Qed.

(** The handler that replaces the original one. *)
Lemma newHandler_lumigo (name ext funcName : string) :
  Js.mem "." ext = false ->
  newHandler ("_lumigo/" ++ name ++ "." ++ ext) funcName =
  "_lumigo/" ++ name ++ "." ++ funcName.
Proof.
  intros He. unfold newHandler.
  change ("_lumigo/" ++ name ++ "." ++ ext)
    with ("_lumigo/" ++ name ++ String "." ext).
  rewrite <- append_assoc, lastIndexOf_last by assumption.
  change (("_lumigo/" ++ name) ++ String "." ext)
    with (("_lumigo/" ++ name) ++ "." ++ ext).
  rewrite <- (append_assoc _ "." ext).
  replace (Z.of_nat (String.length ("_lumigo/" ++ name)) + 1)
    with (Z.of_nat (String.length (("_lumigo/" ++ name) ++ ".")))
    by (rewrite (length_append _ "."); simpl; lia).
  rewrite substr_prefix. now rewrite !append_assoc.
Qed.

End PathFacts.

(** ** What an action leaves alone *)

Section Preservation.

Variable R : Plugin -> Plugin -> Prop.
Hypothesis R_refl : forall p, R p p.
Hypothesis R_trans : forall p q r, R p q -> R q r -> R p r.

Lemma preserves_ret {A} (a : A) : preserves R (ret a).
Proof. intros p. apply R_refl. Qed.

Lemma preserves_throw {A} (e : Error) : preserves R (@throw A e).
Proof. intros p. apply R_refl. Qed.

Lemma preserves_emit (e : Effect) : preserves R (emit e).
Proof. intros p. apply R_refl. Qed.

Lemma preserves_getPlugin : preserves R getPlugin.
Proof. intros p. apply R_refl. Qed.

Lemma preserves_bind {A B} (m : M A) (k : A -> M B) :
  preserves R m -> (forall a, preserves R (k a)) -> preserves R (bind m k).
Proof.
  intros Hm Hk p. unfold final. rewrite bind_run.
  specialize (Hm p). unfold final in Hm.
  destruct (m p) as [[[e|a] p'] t]; [exact Hm|].
  specialize (Hk a p'). unfold final in Hk.
  destruct (k a p') as [[r p''] t']. cbn [fst snd] in *. eauto.
Qed.

Lemma preserves_log (msg : string) : preserves R (log msg).
Proof. apply preserves_emit. Qed.

Lemma preserves_verboseLog env (msg : string) : preserves R (verboseLog env msg).
Proof.
  unfold verboseLog. destruct (SLS_DEBUG env);
    [apply preserves_log | apply preserves_ret].
Qed.

Lemma preserves_forEach {A} (l : list A) (body : A -> M unit) :
  (forall x, In x l -> preserves R (body x)) -> preserves R (forEach l body).
Proof.
  induction l as [|x l IH]; intros H; simpl; [apply preserves_ret|].
  apply preserves_bind; [apply H; now left|].
  intros _. apply IH. intros y Hy. apply H. now right.
Qed.

Lemma preserves_getFunctionsToWrap names :
  preserves R (getFunctionsToWrap names).
Proof. intros p. rewrite getFunctionsToWrap_run. apply R_refl. Qed.

Lemma preserves_runCommand env command : preserves R (runCommand env command).
Proof.
  unfold runCommand. apply preserves_bind; [apply preserves_emit|].
  intros _. destruct (execSync env command);
    [apply preserves_throw | apply preserves_verboseLog].
Qed.

Lemma preserves_ensureTracerInstalled env sls fileName :
  preserves R (ensureTracerInstalled env sls fileName).
Proof.
  unfold ensureTracerInstalled. apply preserves_bind; [apply preserves_emit|].
  intros _. destruct (negb (pathExistsSync env fileName));
    [apply preserves_throw|].
  apply preserves_bind; [apply preserves_emit|]. intros _.
  destruct (negb _); [apply preserves_throw | apply preserves_ret].
Qed.

Lemma preserves_ensureLumigoPythonIsInstalled env :
  preserves R (ensureLumigoPythonIsInstalled env).
Proof.
  unfold ensureLumigoPythonIsInstalled.
  apply preserves_bind; [apply preserves_log|]. intros _.
  apply preserves_bind; [apply preserves_getPlugin|]. intros q.
  destruct (match package (service q) with
            | Some pkg => individually pkg
            | None => false
            end).
  - apply preserves_bind; [apply preserves_log|]. intros _.
    apply preserves_bind; [apply preserves_getFunctionsToWrap|]. intros rf.
    apply preserves_forEach. intros fn _.
    apply preserves_ensureTracerInstalled.
  - apply preserves_bind; [apply preserves_log|]. intros _.
    apply preserves_ensureTracerInstalled.
Qed.

Lemma preserves_createWrappedNodejsFunction env func token edgeHost :
  preserves R (createWrappedNodejsFunction env func token edgeHost).
Proof.
  unfold createWrappedNodejsFunction.
  apply preserves_bind; [apply preserves_verboseLog|]. intros _.
  destruct (getNodeTracerParameters token edgeHost); [apply preserves_throw|].
  apply preserves_bind; [apply preserves_verboseLog|]. intros _.
  apply preserves_bind; [apply preserves_emit|]. intros _.
  apply preserves_ret.
Qed.

Lemma preserves_createWrappedPythonFunction env func token :
  preserves R (createWrappedPythonFunction env func token).
Proof.
  unfold createWrappedPythonFunction.
  apply preserves_bind; [apply preserves_verboseLog|]. intros _.
  apply preserves_bind; [apply preserves_verboseLog|]. intros _.
  apply preserves_bind; [apply preserves_emit|]. intros _.
  apply preserves_ret.
Qed.

Lemma preserves_isLumigoNodejsInstalled env :
  preserves R (isLumigoNodejsInstalled env).
Proof.
  unfold isLumigoNodejsInstalled.
  apply preserves_bind; [apply preserves_emit|]. intros _.
  destruct (packageJson env); [|apply preserves_ret].
  repeat (apply preserves_bind; [apply preserves_verboseLog|]; intros _).
  apply preserves_ret.
Qed.

(** The getter [isNodeTracerInstalled] only assigns the memo field; the
    rest follows when [R] tolerates that. *)
Hypothesis R_memo :
  forall p b, R p (mkPlugin (service p) (Some b)).

Lemma preserves_isNodeTracerInstalled env :
  preserves R (isNodeTracerInstalled env).
Proof.
  unfold isNodeTracerInstalled. intros p. unfold final.
  rewrite bind_getPlugin.
  destruct (_isNodeTracerInstalled p); [apply R_refl|].
  rewrite bind_run.
  pose proof (preserves_isLumigoNodejsInstalled env p) as H. unfold final in H.
  destruct (isLumigoNodejsInstalled env p) as [[[e|b] p'] t]; [exact H|].
  cbn [bind putPlugin ret fst snd]. apply R_memo.
Qed.

Lemma preserves_installLumigoNodejs env : preserves R (installLumigoNodejs env).
Proof.
  unfold installLumigoNodejs.
  apply preserves_bind; [apply preserves_isNodeTracerInstalled|].
  intros [|]; [apply preserves_verboseLog|].
  apply preserves_bind; [apply preserves_log|]. intros _.
  apply preserves_bind; [apply preserves_getPlugin|]. intros q.
  destruct (_ =? NPM); [apply preserves_runCommand|].
  destruct (_ =? Yarn); [apply preserves_runCommand | apply preserves_throw].
Qed.

Lemma preserves_uninstallLumigoNodejs env :
  preserves R (uninstallLumigoNodejs env).
Proof.
  unfold uninstallLumigoNodejs.
  apply preserves_bind; [apply preserves_isNodeTracerInstalled|].
  intros [|]; [apply preserves_ret|].
  apply preserves_bind; [apply preserves_log|]. intros _.
  apply preserves_bind; [apply preserves_getPlugin|]. intros q.
  destruct (_ =? NPM); [apply preserves_runCommand|].
  destruct (_ =? Yarn); [apply preserves_runCommand | apply preserves_throw].
Qed.

End Preservation.

Lemma ensureLumigoPythonIsInstalled_final env p :
  final (ensureLumigoPythonIsInstalled env p) = p.
Proof.
  symmetry.
  apply (preserves_ensureLumigoPythonIsInstalled eq); [reflexivity|].
  intros; congruence.
Qed.

(** ** The wrap loop *)

Lemma setFunctions_same (p : Plugin) : setFunctions (functions (service p)) p = p.
Proof. now destruct p as [[? ? ? ? ? ?] ?]. Qed.

Lemma setFunctions_twice fns fns' p :
  setFunctions fns (setFunctions fns' p) = setFunctions fns p.
Proof. reflexivity. Qed.

Lemma setHandler_run (name h : string) (p : Plugin) :
  setHandler name h p =
  (inr tt, setFunctions (assignHandler name h (functions (service p))) p, []).
Proof. reflexivity. Qed.

Lemma createWrappedPythonFunction_run env func token p :
  exists T,
    createWrappedPythonFunction env func token p =
      (inr (wrappedHandler env ".py" func), p, T) /\
    worldChanges T = [pythonWrite env token func].
Proof.
  unfold createWrappedPythonFunction, bind, verboseLog, log, emit, ret.
  destruct (SLS_DEBUG env); eexists; split; reflexivity.
Qed.

Lemma createWrappedNodejsFunction_run env func t edgeHost p :
  exists T,
    createWrappedNodejsFunction env func (Some t) edgeHost p =
      (inr (wrappedHandler env ".js" func), p, T) /\
    worldChanges T = [nodejsWrite env t edgeHost func].
Proof.
  unfold createWrappedNodejsFunction. rewrite getNodeTracerParameters_eq.
  unfold bind, verboseLog, log, emit, ret.
  destruct (SLS_DEBUG env); eexists; split; reflexivity.
Qed.

Lemma worldChanges_app (t t' : list Effect) :
  worldChanges (t ++ t') = (worldChanges t ++ worldChanges t')%list.
Proof. apply filter_app. Qed.

(** Each round writes one wrapper and assigns one handler. *)
Lemma wrap_loop env ext (create : Func -> M string) (write : Func -> Effect) :
  (forall f p, exists T,
      create f p = (inr (wrappedHandler env ext f), p, T) /\
      worldChanges T = [write f]) ->
  forall fs p, exists T,
    forEach fs (fun func =>
      handler <- create func ;;
      verboseLog env
        ("setting [" ++ localName func ++ "]'s handler to [" ++ handler ++ "]...") ;;
      setHandler (localName func) handler) p =
    (inr tt, setFunctions (rewriteHandlers env ext fs (functions (service p))) p, T)
    /\ worldChanges T = map write fs.
Proof.
  intros Hcreate fs. induction fs as [|f fs IH]; intros p.
  - exists []. cbn [forEach ret rewriteHandlers fold_left map].
    now rewrite setFunctions_same.
  - cbn [forEach]. destruct (Hcreate f p) as (T1 & E1 & W1).
    set (p1 := setFunctions
                 (assignHandler (localName f) (wrappedHandler env ext f)
                    (functions (service p))) p).
    destruct (IH p1) as (T2 & E2 & W2).
    set (L := if SLS_DEBUG env
              then [CliLog ("serverless-lumigo: " ++ "setting [" ++ localName f
                            ++ "]'s handler to [" ++ wrappedHandler env ext f
                            ++ "]...")]
              else []).
    exists ((T1 ++ L) ++ T2)%list. split.
    + rewrite bind_run, bind_run, E1, bind_run.
      unfold verboseLog at 1, log at 1.
      assert (Estep :
        (if SLS_DEBUG env
         then emit (CliLog ("serverless-lumigo: " ++ "setting [" ++ localName f
                            ++ "]'s handler to [" ++ wrappedHandler env ext f
                            ++ "]..."))
         else ret tt) p = (inr tt, p, L)).
      { subst L. now destruct (SLS_DEBUG env). }
      rewrite Estep, setHandler_run. fold p1. rewrite E2.
      subst p1. cbn [rewriteHandlers fold_left service functions setFunctions].
      now rewrite app_nil_r.
    + rewrite !worldChanges_app, W1, W2.
      assert (EL : worldChanges L = []) by (subst L; now destruct (SLS_DEBUG env)).
      rewrite EL. reflexivity.
Qed.

Lemma find_app {A} (f : A -> bool) (l l' : list A) :
  find f (l ++ l') =
  match find f l with
  | Some x => Some x
  | None => find f l'
  end.
Proof.
  induction l as [|x l IH]; simpl; [reflexivity|].
  now destruct (f x).
Qed.

Lemma rewriteHandlers_entries env ext fs fns :
  rewriteHandlers env ext fs fns = map (rewriteEntry env ext fs) fns.
Proof.
  unfold rewriteHandlers. revert fns.
  induction fs as [|f fs IH]; intros fns.
  - cbn. unfold rewriteEntry. cbn. now rewrite map_id.
  - cbn [fold_left]. rewrite IH. unfold assignHandler. rewrite map_map.
    apply map_ext. intros e. unfold rewriteEntry.
    cbn [rev]. rewrite find_app. cbn [find].
    destruct (fst e =? localName f) eqn:Ef; cbn [fst snd fields];
      now destruct (find _ (rev fs)).
Qed.



(** ** The python scenario *)

Lemma wrappedHandler_lumigo env ext func :
  Path.isAbsolute (servicePath env) = true ->
  Js.mem "/" (localName func) = false ->
  Js.mem "/" ext = false -> Js.mem "." ext = false ->
  (2 <= String.length ext)%nat ->
  Path.join [folderPath env; localName func ++ "." ++ ext] =
    folderPath env ++ "/" ++ localName func ++ "." ++ ext /\
  Path.relative (cwd env) (servicePath env)
      (Path.join [folderPath env; localName func ++ "." ++ ext]) =
    "_lumigo/" ++ localName func ++ "." ++ ext /\
  wrappedHandler env ("." ++ ext) func =
    "_lumigo/" ++ localName func ++ "." ++ handlerFuncName (handler (decl func)).
Proof.
  intros Hsp Hname Hsep Hdot Hlen.
  assert (Hgood : good (localName func ++ "." ++ ext)).
  { apply good_file_name; [exact Hname | simpl; exact Hsep | simpl; lia]. }
  destruct (lumigo_file_paths (cwd env) _ _ Hsp Hgood) as [Ejoin Erel].
  fold (folderPath env) in Ejoin, Erel.
  split; [exact Ejoin|]. split; [exact Erel|].
  unfold wrappedHandler. rewrite Erel. now apply newHandler_lumigo.
Qed.

Lemma includeLumigoFolder_run (p : Plugin) :
  includeLumigoFolder p =
  (inr tt, setPackage (lumigoIncluded (package (service p))) p, []).
Proof.
  destruct p as [[fns rt lum req pl [pkg|]] memo]; reflexivity.
Qed.

(** ** Actions without effect on the world *)

Lemma quiet_ret {A} (a : A) : quiet (ret a).
Proof. intros p. reflexivity. Qed.

Lemma quiet_throw {A} (e : Error) : quiet (@throw A e).
Proof. intros p. reflexivity. Qed.

Lemma quiet_emit (e : Effect) : changesWorld e = false -> quiet (emit e).
Proof. intros H p. cbn. now rewrite H. Qed.

Lemma quiet_bind {A B} (m : M A) (k : A -> M B) :
  quiet m -> (forall a, quiet (k a)) -> quiet (bind m k).
Proof.
  intros Hm Hk p. unfold trace. rewrite bind_run.
  specialize (Hm p). unfold trace in Hm.
  destruct (m p) as [[[e|a] p'] t]; [exact Hm|].
  specialize (Hk a p'). unfold trace in Hk.
  destruct (k a p') as [[r p''] t']. cbn [fst snd] in *.
  now rewrite worldChanges_app, Hm, Hk.
Qed.

Lemma quiet_log (msg : string) : quiet (log msg).
Proof. now apply quiet_emit. Qed.

Lemma quiet_verboseLog env (msg : string) : quiet (verboseLog env msg).
Proof.
  unfold verboseLog. destruct (SLS_DEBUG env); [apply quiet_log | apply quiet_ret].
Qed.

Lemma quiet_forEach {A} (l : list A) (body : A -> M unit) :
  (forall x, quiet (body x)) -> quiet (forEach l body).
Proof.
  intros H. induction l as [|x l IH]; simpl; [apply quiet_ret|].
  apply quiet_bind; [apply H | intros _; exact IH].
Qed.

Lemma quiet_getFunctionsToWrap names : quiet (getFunctionsToWrap names).
Proof.
  intros p. rewrite getFunctionsToWrap_run. cbn [trace snd].
  now destruct (runtimeFamily (service p)).
Qed.

Lemma quiet_ensureTracerInstalled env sls fileName :
  quiet (ensureTracerInstalled env sls fileName).
Proof.
  unfold ensureTracerInstalled. apply quiet_bind; [now apply quiet_emit|].
  intros _. destruct (negb (pathExistsSync env fileName)); [apply quiet_throw|].
  apply quiet_bind; [now apply quiet_emit|]. intros _.
  destruct (negb _); [apply quiet_throw | apply quiet_ret].
Qed.

Lemma quiet_ensureLumigoPythonIsInstalled env :
  quiet (ensureLumigoPythonIsInstalled env).
Proof.
  unfold ensureLumigoPythonIsInstalled.
  apply quiet_bind; [apply quiet_log|]. intros _.
  apply quiet_bind; [intros p; reflexivity|]. intros q.
  destruct (match package (service q) with
            | Some pkg => individually pkg
            | None => false
            end).
  - apply quiet_bind; [apply quiet_log|]. intros _.
    apply quiet_bind; [apply quiet_getFunctionsToWrap|]. intros rf.
    apply quiet_forEach. intros fn. apply quiet_ensureTracerInstalled.
  - apply quiet_bind; [apply quiet_log|]. intros _.
    apply quiet_ensureTracerInstalled.
Qed.

Lemma prologue_quiet env svc names : worldChanges (prologue env svc names) = [].
Proof. apply logs_change_nothing, prologue_logs. Qed.

(** A completed python pass: one write per eligible function, the handlers
    reassigned, the folder added to [package.include]. *)
Lemma wrapFunctions_python env functionNames p t :
  runtimeFamily (service p) = python ->
  eligible (service p) functionNames <> [] ->
  token (lumigo (service p)) = Some t ->
  outcome (ensureLumigoPythonIsInstalled env p) = inr tt ->
  outcome (wrapFunctions env functionNames p) = inr tt /\
  final (wrapFunctions env functionNames p) =
    setPackage (lumigoIncluded (package (service p)))
      (setFunctions
         (rewriteHandlers env ".py" (eligible (service p) functionNames)
            (functions (service p))) p) /\
  worldChanges (trace (wrapFunctions env functionNames p)) =
    map (pythonWrite env (Some t)) (eligible (service p) functionNames).
Proof.
  intros Hfam Hne Htok Hens.
  rewrite wrapFunctions_run.
  destruct (eligible (service p) functionNames) as [|f0 l0] eqn:Eel;
    [congruence|]. rewrite <- Eel. clear Hne.
  unfold wrapEligible. rewrite bind_getPlugin, Htok, Hfam.
  rewrite bind_run, bind_run.
  pose proof (ensureLumigoPythonIsInstalled_final env p) as Hfin.
  pose proof (quiet_ensureLumigoPythonIsInstalled env p) as Hq.
  unfold outcome, final, trace in Hens, Hfin, Hq.
  destruct (ensureLumigoPythonIsInstalled env p) as [[r1 p1] t1].
  cbn [fst snd] in Hens, Hfin, Hq. subst r1 p1.
  destruct (wrap_loop env ".py"
              (fun func => createWrappedPythonFunction env func (Some t))
              (pythonWrite env (Some t))
              (fun f q => createWrappedPythonFunction_run env f (Some t) q)
              (eligible (service p) functionNames) p) as (T & -> & HT).
  rewrite includeLumigoFolder_run.
  cbn [outcome final trace fst snd].
  split; [reflexivity|]. split; [reflexivity|].
  rewrite !worldChanges_app, prologue_quiet, Hq, HT.
  now rewrite app_nil_r.
Qed.



(** ** Cleanup *)

Lemma isNodeTracerInstalled_run env p :
  exists T,
    isNodeTracerInstalled env p =
      (inr (tracerPresent env p), remembered env p, T) /\
    worldChanges T = [].
Proof.
  unfold isNodeTracerInstalled, remembered, tracerPresent.
  rewrite bind_getPlugin.
  destruct p as [svc [b|]]; cbn [_isNodeTracerInstalled service].
  - exists []. now split.
  - unfold isLumigoNodejsInstalled, bind, emit, verboseLog, log, ret, putPlugin.
    destruct (packageJson env); destruct (SLS_DEBUG env);
      eexists; split; reflexivity.
Qed.

Lemma runCommand_run env command p :
  exists T,
    runCommand env command p =
      (match execSync env command with
       | ExecFailed m => inl (ExecSyncError m)
       | ExecOutput _ => inr tt
       end, p, T) /\
    worldChanges T = [ExecSync command].
Proof.
  unfold runCommand, bind, emit, throw, verboseLog, log, ret.
  destruct (execSync env command); [|destruct (SLS_DEBUG env)];
    eexists; split; reflexivity.
Qed.

Lemma uninstallLumigoNodejs_run env p :
  exists T,
    uninstallLumigoNodejs env p =
      (if tracerPresent env p then inr tt
       else match uninstallCommand (service p) with
            | Some c =>
                match execSync env c with
                | ExecFailed m => inl (ExecSyncError m)
                | ExecOutput _ => inr tt
                end
            | None => inl noPackageManager
            end,
       remembered env p, T) /\
    worldChanges T =
      if tracerPresent env p then []
      else match uninstallCommand (service p) with
           | Some c => [ExecSync c]
           | None => []
           end.
Proof.
  unfold uninstallLumigoNodejs. rewrite bind_run.
  destruct (isNodeTracerInstalled_run env p) as (T0 & -> & W0).
  destruct (tracerPresent env p).
  - exists (T0 ++ [])%list. cbn [ret]. split; [reflexivity|].
    now rewrite app_nil_r.
  - unfold log. rewrite bind_emit, bind_getPlugin.
    unfold uninstallCommand. cbn [service remembered].
    destruct (nodePackageManager (service p) =? NPM).
    + destruct (runCommand_run env "npm uninstall @lumigo/tracer"
                  (remembered env p)) as (T1 & -> & W1).
      eexists. split; [reflexivity|].
      rewrite worldChanges_app, W0. unfold worldChanges in *.
      cbn [List.app filter changesWorld]. exact W1.
    + destruct (nodePackageManager (service p) =? Yarn).
      * destruct (runCommand_run env "yarn remove @lumigo/tracer"
                    (remembered env p)) as (T1 & -> & W1).
        eexists. split; [reflexivity|].
        rewrite worldChanges_app, W0. unfold worldChanges in *.
        cbn [List.app filter changesWorld]. exact W1.
      * eexists. split; [reflexivity|].
        rewrite worldChanges_app, W0. reflexivity.
Qed.

Lemma cleanFolder_run env p :
  exists T,
    cleanFolder env p = (inr tt, p, T) /\
    worldChanges T = [Remove (folderPath env)].
Proof.
  unfold cleanFolder, bind, verboseLog, log, emit, ret.
  destruct (SLS_DEBUG env); eexists; split; reflexivity.
Qed.

Lemma final_bind {A B} (m : M A) (k : A -> M B) (p : Plugin) :
  final (bind m k p) =
  match m p with
  | (inl _, p', _) => p'
  | (inr a, p', _) => final (k a p')
  end.
Proof.
  unfold final. rewrite bind_run.
  destruct (m p) as [[[e|a] p'] t]; [reflexivity|].
  now destruct (k a p') as [[r p''] t'].
Qed.

Lemma sameMemo_refl p : sameMemo p p.
Proof. reflexivity. Qed.

Lemma sameMemo_trans p q r : sameMemo p q -> sameMemo q r -> sameMemo p r.
Proof. unfold sameMemo. congruence. Qed.

Lemma preserves_setHandler_memo name h : preserves sameMemo (setHandler name h).
Proof. intros p. reflexivity. Qed.

Lemma preserves_includeLumigoFolder_memo : preserves sameMemo includeLumigoFolder.
Proof. intros p. now rewrite includeLumigoFolder_run. Qed.

Lemma memo_after_bind {A B} (m : M A) (k : A -> M B) (p : Plugin) :
  (forall a, preserves sameMemo (k a)) ->
  _isNodeTracerInstalled (final (bind m k p)) =
  _isNodeTracerInstalled (final (m p)).
Proof.
  intros Hk. rewrite final_bind. unfold final at 2.
  destruct (m p) as [[[e|a] p'] t]; [reflexivity | apply Hk].
Qed.

Lemma installLumigoNodejs_remembers env p :
  _isNodeTracerInstalled (final (installLumigoNodejs env p)) =
  Some (tracerPresent env p).
Proof.
  unfold installLumigoNodejs. rewrite final_bind.
  destruct (isNodeTracerInstalled_run env p) as (T0 & -> & _).
  match goal with
  | |- _isNodeTracerInstalled (final (?m ?q)) = _ =>
      enough (H : preserves sameMemo m) by exact (H q)
  end.
  destruct (tracerPresent env p).
  - apply preserves_verboseLog, sameMemo_refl.
  - apply preserves_bind;
      [exact sameMemo_trans | apply preserves_log, sameMemo_refl |].
    intros _.
    apply preserves_bind;
      [exact sameMemo_trans | apply preserves_getPlugin, sameMemo_refl |].
    intros q.
    destruct (_ =? NPM);
      [apply preserves_runCommand; [exact sameMemo_refl | exact sameMemo_trans]|].
    destruct (_ =? Yarn);
      [apply preserves_runCommand; [exact sameMemo_refl | exact sameMemo_trans]|].
    apply preserves_throw, sameMemo_refl.
Qed.

(** A nodejs pass that got past the token check leaves the answer of its
    first manifest check in the memo field, whatever happens afterwards. *)
Lemma wrapFunctions_remembers env functionNames p t :
  runtimeFamily (service p) = nodejs ->
  eligible (service p) functionNames <> [] ->
  token (lumigo (service p)) = Some t ->
  _isNodeTracerInstalled (final (wrapFunctions env functionNames p)) =
    Some (tracerPresent env p).
Proof.
  intros Hfam Hne Htok.
  assert (Hfinal : final (wrapFunctions env functionNames p) =
            final (wrapEligible env nodejs (eligible (service p) functionNames) p)).
  { rewrite wrapFunctions_run, Hfam.
    destruct (eligible (service p) functionNames); [congruence|].
    now destruct (wrapEligible env nodejs (f :: l) p) as [[r p'] t']. }
  rewrite Hfinal. unfold wrapEligible.
  rewrite final_bind. cbn [getPlugin]. rewrite Htok.
  rewrite memo_after_bind by (intros _; apply preserves_includeLumigoFolder_memo).
  rewrite memo_after_bind; [apply installLumigoNodejs_remembers|].
  intros _.
  apply preserves_forEach; [exact sameMemo_refl | exact sameMemo_trans |].
  intros func _.
  apply preserves_bind;
    [exact sameMemo_trans
    | apply preserves_createWrappedNodejsFunction;
        [exact sameMemo_refl | exact sameMemo_trans] |].
  intros h. apply preserves_bind;
    [exact sameMemo_trans | apply preserves_verboseLog, sameMemo_refl |].
  intros _. apply preserves_setHandler_memo.
Qed.

(** X17.  [afterCreateDeploymentArtifacts] never touches the service
    description.  When [getFunctionsToWrap] returns no function (none is
    declared, or the runtime is unsupported) it returns at once, the plugin
    unchanged, nothing removed and nothing executed.  Otherwise it removes
    the generated folder; under the python family that is all.  Under the
    nodejs family it goes on to uninstall the tracer unless the getter
    [isNodeTracerInstalled] says the project already depends on it: one
    uninstall command of the configured package manager is run and its
    failure is passed on, an unknown package manager is a configuration
    error.  The getter is remembered: after a nodejs wrap pass that got past
    the token check, cleanup decides by the manifest as that pass first saw
    it, whatever the manifest says by then. *)
Theorem X17_cleanup_by_cases (env : Env) (p : Plugin) :
  let r := afterCreateDeploymentArtifacts env p in
  service (final r) = service p /\
  match eligible (service p) None with
  | [] => outcome r = inr tt /\ final r = p /\ worldChanges (trace r) = []
  | _ :: _ =>
      match runtimeFamily (service p) with
      | nodejs =>
          if tracerPresent env p then
            outcome r = inr tt /\
            worldChanges (trace r) = [Remove (folderPath env)]
          else
            match uninstallCommand (service p) with
            | Some c =>
                worldChanges (trace r) = [Remove (folderPath env); ExecSync c] /\
                outcome r =
                  match execSync env c with
                  | ExecFailed m => inl (ExecSyncError m)
                  | ExecOutput _ => inr tt
                  end
            | None =>
                worldChanges (trace r) = [Remove (folderPath env)] /\
                outcome r = inl noPackageManager
            end
      | _ =>
          outcome r = inr tt /\ final r = p /\
          worldChanges (trace r) = [Remove (folderPath env)]
      end
  end /\
  (forall env0 functionNames p0 t,
     runtimeFamily (service p0) = nodejs ->
     eligible (service p0) functionNames <> [] ->
     token (lumigo (service p0)) = Some t ->
     tracerPresent env (final (wrapFunctions env0 functionNames p0)) =
       tracerPresent env0 p0).
Proof.
  cbv zeta. unfold afterCreateDeploymentArtifacts.
  rewrite bind_run, getFunctionsToWrap_run. cbn [fst snd].
  split; [|split].
  - destruct (eligible (service p) None) as [|f l]; [reflexivity|].
    cbn [List.length Nat.eqb]. rewrite bind_run.
    destruct (cleanFolder_run env p) as (T1 & -> & _).
    destruct (runtimeFamily (service p)); try reflexivity.
    destruct (uninstallLumigoNodejs_run env p) as (T2 & -> & _). reflexivity.
  - destruct (eligible (service p) None) as [|f l] eqn:Eel.
    + cbn [List.length Nat.eqb ret outcome final trace fst snd].
      repeat split. rewrite app_nil_r. now destruct (runtimeFamily (service p)).
    + cbn [List.length Nat.eqb]. rewrite bind_run.
      destruct (cleanFolder_run env p) as (T1 & -> & W1).
      destruct (runtimeFamily (service p)) eqn:Hfam.
      * destruct (uninstallLumigoNodejs_run env p) as (T2 & -> & W2).
        cbn [outcome trace fst snd List.app].
        rewrite worldChanges_app, W1, W2.
        destruct (tracerPresent env p); [now split|].
        destruct (uninstallCommand (service p)); now split.
      * cbn [ret outcome final trace fst snd List.app].
        rewrite app_nil_r. now repeat split.
      * now rewrite eligible_unsupported in Eel.
  - intros env0 functionNames p0 t Hfam Hne Htok.
    unfold tracerPresent at 1.
    now rewrite (wrapFunctions_remembers env0 functionNames p0 t).
Qed.

Lemma X17_cleanup_by_cases_witness :
  runtimeFamily (sampleService "nodejs12.x") = nodejs /\
  eligible (sampleService "nodejs12.x") None <> [] /\
  token (lumigo (sampleService "nodejs12.x")) = Some "test-token" /\
  tracerPresent staleEnv
    (final (wrapFunctions sampleEnv None (fresh (sampleService "nodejs12.x")))) =
    false /\
  worldChanges
    (trace (afterCreateDeploymentArtifacts staleEnv
              (final (wrapFunctions sampleEnv None
                        (fresh (sampleService "nodejs12.x")))))) =
    [Remove "/srv/app/_lumigo"; ExecSync "npm uninstall @lumigo/tracer"].
Proof.
  assert (Hne : eligible (service (fresh (sampleService "nodejs12.x"))) None <> [])
    by discriminate.
  destruct (X17_cleanup_by_cases staleEnv (fresh (sampleService "nodejs12.x")))
    as (_ & _ & Hmemo).
  split; [reflexivity|]. split; [exact Hne|]. split; [reflexivity|].
  split.
  - exact (Hmemo sampleEnv None (fresh (sampleService "nodejs12.x"))
             "test-token" eq_refl Hne eq_refl).
  - reflexivity.
Defined.

(** C8, at the failing input.  In a nodejs service whose only function
    carries [lumigo: { enabled: false }], cleanup takes that function for
    eligible: it removes the generated folder and runs the uninstall
    command. *)
Theorem C8_cleanup_after_opting_out :
  functions optedOutService =
    [("skippy",
      mkFunctionDeclaration "will.skip"
        [("lumigo", JObj [("enabled", JBool false)])])] /\
  eligible optedOutService None =
    [mkFunc "skippy"
       (mkFunctionDeclaration "will.skip"
          [("lumigo", JObj [("enabled", JBool false)])])] /\
  outcome (afterCreateDeploymentArtifacts sampleEnv (fresh optedOutService)) =
    inr tt /\
  worldChanges
    (trace (afterCreateDeploymentArtifacts sampleEnv (fresh optedOutService))) =
    [Remove "/srv/app/_lumigo"; ExecSync "npm uninstall @lumigo/tracer"].
Proof. repeat split. Qed.

(** ** The frame of a wrap pass *)

Section Frame.

Variable E : list string.

Lemma sameBut_refl e : sameBut E e e.
Proof. repeat split. congruence. Qed.

Lemma sameBut_trans e1 e2 e3 :
  sameBut E e1 e2 -> sameBut E e2 e3 -> sameBut E e1 e3.
Proof.
  intros (Hn & Hf & Hh) (Hn' & Hf' & Hh'). repeat split; try congruence.
  intros Hdiff.
  destruct (string_dec (handler (snd e2)) (handler (snd e1))) as [Eq|Ne].
  - rewrite <- Hn. apply Hh'. congruence.
  - now apply Hh.
Qed.

Lemma Forall2_sameBut_refl l : Forall2 (sameBut E) l l.
Proof. induction l; constructor; auto using sameBut_refl. Qed.

Lemma Forall2_sameBut_trans l1 l2 l3 :
  Forall2 (sameBut E) l1 l2 -> Forall2 (sameBut E) l2 l3 ->
  Forall2 (sameBut E) l1 l3.
Proof.
  intros H. revert l3. induction H as [|a b l1 l2 Hab _ IH]; intros l3 H';
    inversion H'; subst; constructor; eauto using sameBut_trans.
Qed.

Lemma frame_refl p : frame E p p.
Proof. repeat split. apply Forall2_sameBut_refl. Qed.

Lemma frame_trans p q r : frame E p q -> frame E q r -> frame E p r.
Proof.
  intros (H1 & H2 & H3 & H4 & H5 & H6) (H1' & H2' & H3' & H4' & H5' & H6').
  repeat split; try congruence. eapply Forall2_sameBut_trans; eauto.
Qed.

Lemma frame_memo p b : frame E p (mkPlugin (service p) (Some b)).
Proof. repeat split. apply Forall2_sameBut_refl. Qed.

Lemma assignHandler_sameBut name h fns :
  In name E -> Forall2 (sameBut E) fns (assignHandler name h fns).
Proof.
  intros Hin. unfold assignHandler.
  induction fns as [|e fns IH]; cbn [map]; constructor; [|exact IH].
  destruct (fst e =? name) eqn:En; [|apply sameBut_refl].
  apply String.eqb_eq in En. repeat split. intros _. now rewrite En.
Qed.

Lemma preserves_setHandler_frame name h :
  In name E -> preserves (frame E) (setHandler name h).
Proof.
  intros Hin p. rewrite setHandler_run. cbn [final fst snd].
  repeat split. now apply assignHandler_sameBut.
Qed.

(** Everything a pass does before its closing block. *)
Lemma preserves_wrap_frame env runtime fs token edgeHost :
  (forall f, In f fs -> In (localName f) E) ->
  preserves (frame E)
    (match runtime with
     | nodejs =>
         installLumigoNodejs env ;;
         forEach fs (fun func =>
           handler <- createWrappedNodejsFunction env func token edgeHost ;;
           verboseLog env
             ("setting [" ++ localName func ++ "]'s handler to [" ++ handler ++ "]...") ;;
           setHandler (localName func) handler)
     | python =>
         ensureLumigoPythonIsInstalled env ;;
         forEach fs (fun func =>
           handler <- createWrappedPythonFunction env func token ;;
           verboseLog env
             ("setting [" ++ localName func ++ "]'s handler to [" ++ handler ++ "]...") ;;
           setHandler (localName func) handler)
     | unsupported => ret tt
     end).
Proof.
  intros HE.
  pose proof frame_refl as Hr. pose proof frame_trans as Ht.
  destruct runtime.
  - apply preserves_bind; [exact Ht | |].
    + apply preserves_installLumigoNodejs; auto using frame_memo.
    + intros _. apply preserves_forEach; [exact Hr | exact Ht |].
      intros func Hin.
      apply preserves_bind;
        [exact Ht | now apply preserves_createWrappedNodejsFunction |].
      intros h. apply preserves_bind;
        [exact Ht | now apply preserves_verboseLog |].
      intros _. apply preserves_setHandler_frame, HE, Hin.
  - apply preserves_bind; [exact Ht | |].
    + now apply preserves_ensureLumigoPythonIsInstalled.
    + intros _. apply preserves_forEach; [exact Hr | exact Ht |].
      intros func Hin.
      apply preserves_bind;
        [exact Ht | now apply preserves_createWrappedPythonFunction |].
      intros h. apply preserves_bind;
        [exact Ht | now apply preserves_verboseLog |].
      intros _. apply preserves_setHandler_frame, HE, Hin.
  - now apply preserves_ret.
Qed.

End Frame.

(** C10.  Whatever the outcome of [wrapFunctions], the function table keeps
    its entries, in their order and under their names; every entry keeps all
    its fields other than [handler]; an entry whose handler changed belongs
    to the eligible set.  Provider runtime, plugin configuration,
    requirements file name and plugin list are as before.
    [service.package] has ["_lumigo/*"] appended to its include list (a new
    list when there was none) exactly when the pass completes with a
    non-empty eligible set and a package object exists; otherwise it is as
    before. *)
Theorem C10_wrap_pass_frame
    (env : Env) (functionNames : option (list string)) (p : Plugin) :
  let r := wrapFunctions env functionNames p in
  let E := map localName (eligible (service p) functionNames) in
  Forall2 (sameBut E) (functions (service p)) (functions (service (final r))) /\
  map fst (functions (service (final r))) = map fst (functions (service p)) /\
  map (fun e => fields (snd e)) (functions (service (final r))) =
    map (fun e => fields (snd e)) (functions (service p)) /\
  providerRuntime (service (final r)) = providerRuntime (service p) /\
  lumigo (service (final r)) = lumigo (service p) /\
  pythonRequirementsFileName (service (final r)) =
    pythonRequirementsFileName (service p) /\
  plugins (service (final r)) = plugins (service p) /\
  package (service (final r)) =
    match outcome r, eligible (service p) functionNames with
    | inr _, _ :: _ => lumigoIncluded (package (service p))
    | _, _ => package (service p)
    end.
Proof.
  cbv zeta.
  set (E := map localName (eligible (service p) functionNames)).
  assert (H : frame E p
                (setPackage (package (service p))
                   (final (wrapFunctions env functionNames p))) /\
              package (service (final (wrapFunctions env functionNames p))) =
                match outcome (wrapFunctions env functionNames p),
                      eligible (service p) functionNames with
                | inr _, _ :: _ => lumigoIncluded (package (service p))
                | _, _ => package (service p)
                end).
  { rewrite wrapFunctions_run.
    assert (HE : forall f, In f (eligible (service p) functionNames) ->
                           In (localName f) E) by (intros f; apply in_map).
    destruct (eligible (service p) functionNames) as [|f0 l0] eqn:Eel.
    - cbn [final outcome fst snd]. split; [|reflexivity].
      repeat split. apply Forall2_sameBut_refl.
    - rewrite <- Eel in *. clear Eel.
      unfold wrapEligible. rewrite bind_getPlugin.
      destruct (token (lumigo (service p))) as [t|] eqn:Htok.
      + rewrite bind_run.
        pose proof (preserves_wrap_frame E env (runtimeFamily (service p))
                      (eligible (service p) functionNames) (Some t)
                      (edgeHost (lumigo (service p))) HE p) as Hbody.
        unfold final in Hbody.
        match type of Hbody with
        | frame _ _ (snd (fst (?b p))) => set (body := b) in *
        end.
        destruct (body p) as [[[e|[]] p1] t1]; cbn [fst snd] in Hbody.
        * cbn [final outcome fst snd].
          destruct Hbody as (H1 & H2 & H3 & H4 & H5 & H6).
          split; [|destruct (eligible _ _); exact H6].
          repeat split; assumption.
        * rewrite includeLumigoFolder_run. cbn [final outcome fst snd].
          destruct Hbody as (H1 & H2 & H3 & H4 & H5 & H6).
          split; [repeat split; assumption|].
          cbn [setPackage service package]. rewrite H6.
          destruct (eligible _ _) eqn:Eel; [|reflexivity].
          now destruct (package (service p)).
      + cbn [throw final outcome fst snd]. split.
        * repeat split. apply Forall2_sameBut_refl.
        * now destruct (eligible _ _). }
  destruct H as ((H1 & H2 & H3 & H4 & H5 & _) & Hpkg).
  cbn [setPackage service functions providerRuntime lumigo
       pythonRequirementsFileName plugins] in H1, H2, H3, H4, H5.
  repeat split; try assumption.
  - clear - H1. induction H1 as [|a b l l' (Hn & _) _ IH]; cbn [map];
      [reflexivity | now rewrite Hn, IH].
  - clear - H1. induction H1 as [|a b l l' (_ & Hf & _) _ IH]; cbn [map];
      [reflexivity | now rewrite Hf, IH].
Qed.

(** ** Opt-out flag and layer mode *)

(** Eligibility looks at the name and the provider runtime only: every
    declared function is eligible for an unfiltered pass, whatever its
    fields say. *)
Lemma eligible_whatever_fields (svc : Service) (name : string)
    (d : FunctionDeclaration) :
  runtimeFamily svc <> unsupported ->
  In (name, d) (functions svc) ->
  In (mkFunc name d) (eligible svc None).
Proof.
  intros Hsup Hin. rewrite eligible_supported by assumption.
  unfold named. apply in_map_iff. exists (name, d). split; [reflexivity|].
  apply filter_In. split; [exact Hin|]. cbn [fst].
  apply namesInclude_In. unfold getAllFunctions.
  change name with (fst (name, d)). now apply in_map.
Qed.

(** C2, at the failing input.  The function [skippy] carries
    [lumigo: { enabled: false }]; the pass counts it among the functions to
    wrap, writes [_lumigo/skippy.js] for it and reassigns its handler. *)
Theorem C2_opt_out_function_is_wrapped :
  let r := wrapFunctions sampleEnv None (fresh optOutService) in
  In (mkFunc "skippy"
        (mkFunctionDeclaration "will.skip"
           [("lumigo", JObj [("enabled", JBool false)])]))
     (eligible optOutService None) /\
  outcome r = inr tt /\
  In (CliLog "serverless-lumigo: there are 7 function(s) to wrap...") (trace r) /\
  In (OutputFile "/srv/app/_lumigo/skippy.js"
        (wrappedNodejsFunction "token: 'test-token'" "will" "skip"))
     (trace r) /\
  In ("skippy",
      mkFunctionDeclaration "_lumigo/skippy.skip"
        [("lumigo", JObj [("enabled", JBool false)])])
     (functions (service (final r))).
Proof. cbv zeta. repeat split; simpl; tauto. Qed.

(** C7, at the failing input.  [useLayers: true] is a key the plugin never
    reads: the pass installs the tracer, writes the wrapper file and points
    the handler at it; the function gets neither a layer nor an environment
    variable. *)
Theorem C7_layer_mode_is_ignored :
  let r := wrapFunctions sampleEnv None (fresh useLayersService) in
  outcome r = inr tt /\
  worldChanges (trace r) =
    [ExecSync "npm install --no-save @lumigo/tracer@latest";
     OutputFile "/srv/app/_lumigo/hello.js"
       (wrappedNodejsFunction "token: 'test-token'" "hello" "world")] /\
  functions (service (final r)) =
    [("hello",
      mkFunctionDeclaration "_lumigo/hello.world" [("events", JArr [])])] /\
  handler (snd (hd ("", fn "") (functions (service (final r)))))
    <> "lumigo-auto-instrument.handler".
Proof. cbv zeta. repeat split. discriminate. Qed.

(** * Further properties of the plugin *)

(** ** Installing the tracer *)

Lemma installLumigoNodejs_run env p :
  exists T,
    installLumigoNodejs env p =
      (if tracerPresent env p then inr tt
       else commandResult env (installCommand (service p)),
       remembered env p, T) /\
    worldChanges T =
      if tracerPresent env p then [] else commandRun (installCommand (service p)).
Proof.
  unfold installLumigoNodejs. rewrite bind_run.
  destruct (isNodeTracerInstalled_run env p) as (T0 & -> & W0).
  destruct (tracerPresent env p).
  - unfold verboseLog, log. destruct (SLS_DEBUG env); cbn [emit ret];
      eexists; (split; [reflexivity|]); rewrite worldChanges_app, W0; reflexivity.
  - unfold log. rewrite bind_emit, bind_getPlugin.
    unfold installCommand, commandResult, commandRun. cbn [service remembered].
    destruct (nodePackageManager (service p) =? NPM).
    + destruct (runCommand_run env "npm install --no-save @lumigo/tracer@latest"
                  (remembered env p)) as (T1 & -> & W1).
      eexists. split; [reflexivity|].
      rewrite worldChanges_app, W0. unfold worldChanges in *.
      cbn [List.app filter changesWorld]. exact W1.
    + destruct (nodePackageManager (service p) =? Yarn).
      * destruct (runCommand_run env "yarn add @lumigo/tracer@latest"
                    (remembered env p)) as (T1 & -> & W1).
        eexists. split; [reflexivity|].
        rewrite worldChanges_app, W0. unfold worldChanges in *.
        cbn [List.app filter changesWorld]. exact W1.
      * eexists. split; [reflexivity|].
        rewrite worldChanges_app, W0. reflexivity.
Qed.

(** The whole nodejs pass, for every way the installation can end. *)
Lemma wrapFunctions_nodejs env functionNames p t :
  runtimeFamily (service p) = nodejs ->
  eligible (service p) functionNames <> [] ->
  token (lumigo (service p)) = Some t ->
  let r := wrapFunctions env functionNames p in
  let el := eligible (service p) functionNames in
  if tracerPresent env p then
    outcome r = inr tt /\
    final r = setPackage (lumigoIncluded (package (service p)))
                (setFunctions (rewriteHandlers env ".js" el (functions (service p)))
                   (remembered env p)) /\
    worldChanges (trace r) =
      map (nodejsWrite env t (edgeHost (lumigo (service p)))) el
  else
    match commandResult env (installCommand (service p)) with
    | inl e =>
        outcome r = inl e /\ final r = remembered env p /\
        worldChanges (trace r) = commandRun (installCommand (service p))
    | inr _ =>
        outcome r = inr tt /\
        final r = setPackage (lumigoIncluded (package (service p)))
                    (setFunctions
                       (rewriteHandlers env ".js" el (functions (service p)))
                       (remembered env p)) /\
        worldChanges (trace r) =
          (commandRun (installCommand (service p)) ++
           map (nodejsWrite env t (edgeHost (lumigo (service p)))) el)%list
    end.
Proof.
  intros Hfam Hne Htok. cbv zeta.
  rewrite wrapFunctions_run.
  destruct (eligible (service p) functionNames) as [|f0 l0] eqn:Eel;
    [congruence|]. rewrite <- Eel. clear Hne.
  unfold wrapEligible. rewrite bind_getPlugin, Htok, Hfam.
  rewrite bind_run, bind_run.
  destruct (installLumigoNodejs_run env p) as (T0 & -> & W0).
  destruct (wrap_loop env ".js"
              (fun func => createWrappedNodejsFunction env func (Some t)
                             (edgeHost (lumigo (service p))))
              (nodejsWrite env t (edgeHost (lumigo (service p))))
              (fun f q => createWrappedNodejsFunction_run env f t
                            (edgeHost (lumigo (service p))) q)
              (eligible (service p) functionNames) (remembered env p))
    as (T & EL & HT).
  cbn [service remembered] in EL.
  destruct (tracerPresent env p) eqn:Epres.
  - rewrite EL, includeLumigoFolder_run. cbn [outcome final trace fst snd].
    split; [reflexivity|]. split; [reflexivity|].
    rewrite !worldChanges_app, prologue_quiet, W0, HT.
    now rewrite app_nil_r.
  - destruct (commandResult env (installCommand (service p))) as [e|[]].
    + cbn [outcome final trace fst snd].
      split; [reflexivity|]. split; [reflexivity|].
      now rewrite worldChanges_app, prologue_quiet, W0.
    + rewrite EL, includeLumigoFolder_run. cbn [outcome final trace fst snd].
      split; [reflexivity|]. split; [reflexivity|].
      rewrite !worldChanges_app, prologue_quiet, W0, HT.
      now rewrite app_nil_r.
Qed.

(** ** The requirements check of the python pass *)

Lemma ensureTracerInstalled_run env svc fileName p :
  exists T,
    ensureTracerInstalled env
      (existsb (String.eqb "serverless-python-requirements") (plugins svc))
      fileName p =
      (if requirementsOk env fileName then inr tt
       else inl (requirementsError env svc fileName), p, T) /\
    T = PathExistsSync fileName
        :: if pathExistsSync env fileName then [ReadFile fileName] else [].
Proof.
  unfold ensureTracerInstalled, requirementsOk, requirementsError.
  rewrite bind_emit.
  destruct (pathExistsSync env fileName); cbn [negb andb].
  - rewrite bind_emit.
    destruct (Js.includes (readFile env fileName) "lumigo_tracer");
      cbn [negb throw ret]; eexists; split; reflexivity.
  - destruct (existsb _ (plugins svc)); cbn [negb throw];
      eexists; split; reflexivity.
Qed.

Lemma forEach_ensureTracerInstalled env svc {A} (g : A -> string)
    (l : list A) p :
  outcome (forEach l (fun x =>
             ensureTracerInstalled env
               (existsb (String.eqb "serverless-python-requirements")
                  (plugins svc)) (g x)) p) =
  match find (fun f => negb (requirementsOk env f)) (map g l) with
  | Some f => inl (requirementsError env svc f)
  | None => inr tt
  end.
Proof.
  induction l as [|x l IH]; [reflexivity|].
  cbn [forEach map find]. unfold outcome in *. rewrite bind_run.
  destruct (ensureTracerInstalled_run env svc (g x) p) as (T & -> & _).
  destruct (requirementsOk env (g x)); cbn [negb]; [|reflexivity].
  destruct (forEach l _ p) as [[r p'] t'] eqn:E. cbn [fst] in *. exact IH.
Qed.

(** The check ends with the error of the first file that does not pass. *)
Lemma ensureLumigoPythonIsInstalled_outcome env p :
  outcome (ensureLumigoPythonIsInstalled env p) =
  match find (fun f => negb (requirementsOk env f))
          (requirementsFiles (service p)) with
  | Some f => inl (requirementsError env (service p) f)
  | None => inr tt
  end.
Proof.
  unfold ensureLumigoPythonIsInstalled, requirementsFiles, outcome, log.
  rewrite bind_emit, bind_getPlugin.
  destruct (match package (service p) with
            | Some pkg => individually pkg
            | None => false
            end).
  - rewrite bind_emit, bind_run, getFunctionsToWrap_run. cbn [snd fst].
    pose proof (forEach_ensureTracerInstalled env (service p)
                  (fun fn => match pythonRequirementsFileName (service p) with
                             | Some f => f
                             | None => Path.join [Path.dirname (handler (decl fn));
                                                  "requirements.txt"]
                             end)
                  (eligible (service p) None) p) as H.
    unfold outcome in H.
    destruct (forEach _ _ p) as [[r p'] t']. cbn [fst] in *. exact H.
  - rewrite bind_emit.
    destruct (ensureTracerInstalled_run env (service p)
                match pythonRequirementsFileName (service p) with
                | Some f => f
                | None => "requirements.txt"
                end p) as (T & -> & _).
    cbn [fst find map].
    now destruct (requirementsOk env _).
Qed.

(** The python pass, for both ways the check can end. *)
Lemma wrapFunctions_python_failed env functionNames p t e :
  runtimeFamily (service p) = python ->
  eligible (service p) functionNames <> [] ->
  token (lumigo (service p)) = Some t ->
  outcome (ensureLumigoPythonIsInstalled env p) = inl e ->
  outcome (wrapFunctions env functionNames p) = inl e /\
  final (wrapFunctions env functionNames p) = p /\
  worldChanges (trace (wrapFunctions env functionNames p)) = [].
Proof.
  intros Hfam Hne Htok Hens.
  rewrite wrapFunctions_run.
  destruct (eligible (service p) functionNames) as [|f0 l0] eqn:Eel;
    [congruence|]. rewrite <- Eel. clear Hne.
  unfold wrapEligible. rewrite bind_getPlugin, Htok, Hfam.
  rewrite bind_run, bind_run.
  pose proof (ensureLumigoPythonIsInstalled_final env p) as Hfin.
  pose proof (quiet_ensureLumigoPythonIsInstalled env p) as Hq.
  unfold outcome, final, trace in Hens, Hfin, Hq.
  destruct (ensureLumigoPythonIsInstalled env p) as [[r1 p1] t1].
  cbn [fst snd] in Hens, Hfin, Hq. subst r1 p1.
  cbn [outcome final trace fst snd].
  split; [reflexivity|]. split; [reflexivity|].
  now rewrite worldChanges_app, prologue_quiet, Hq.
Qed.

(** ** Shape of the parsed parts *)

Lemma infix_mem_absent (c : ascii) (s t : string) :
  infix s t -> Js.mem c t = false -> Js.mem c s = false.
Proof.
  rewrite <- !includes_char. apply infix_absent.
Qed.

Lemma basename_no_separator (h : string) : Js.mem "/" (Path.basename h) = false.
Proof.
  unfold Path.basename.
  destruct (fold_pick_cases (Path.segments h) "") as [->|HIn]; [reflexivity|].
  now apply split_segment_absent in HIn.
Qed.

Lemma handlerFuncName_no_separator (h : string) :
  Js.mem "/" (handlerFuncName h) = false.
Proof.
  apply (infix_mem_absent "/" _ (Path.basename h));
    [apply substr_infix | apply basename_no_separator].
Qed.

Lemma handlerFuncName_no_dot_inside (h : string) :
  Js.mem "." (handlerFuncName h) = false.
Proof.
  unfold handlerFuncName. set (b := Path.basename h).
  destruct (Js.mem "." b) eqn:Eb.
  - rewrite <- includes_char in Eb.
    destruct (last_dot_decomposition b Eb) as (m & f & E & Hf).
    rewrite includes_char in Hf. rewrite E.
    change (m ++ "." ++ f) with (m ++ String "." f).
    rewrite lastIndexOf_last by assumption.
    change (m ++ String "." f) with (m ++ "." ++ f).
    rewrite <- append_assoc.
    replace (Z.of_nat (String.length m) + 1)
      with (Z.of_nat (String.length (m ++ ".")))
      by (rewrite length_append; simpl; lia).
    now rewrite substr_suffix.
  - rewrite lastIndexOf_absent by assumption.
    now rewrite substr_from_zero.
Qed.

Lemma concat_cons_char (x : ascii) (seg sep : string) (rest : list string) :
  String.concat sep (String x seg :: rest) =
  String x (String.concat sep (seg :: rest)).
Proof. now destruct rest. Qed.

(** Splitting at a character and joining with another replaces it. *)
Lemma join_split_replace (a b : ascii) (s : string) :
  Js.join (Js.split s a) (String b "") = replaceChar a b s.
Proof.
  unfold Js.join. induction s as [|x s IH]; [reflexivity|].
  cbn [Js.split replaceChar]. destruct (Ascii.eqb x a).
  - destruct (Js.split s a) as [|seg rest] eqn:E;
      [now apply split_not_nil in E|].
    cbn [String.concat]. rewrite <- IH. reflexivity.
  - destruct (Js.split s a) as [|seg rest] eqn:E;
      [now apply split_not_nil in E|].
    rewrite concat_cons_char. now rewrite IH.
Qed.

Lemma replaceChar_absent (a b : ascii) (s : string) :
  a <> b -> Js.mem a (replaceChar a b s) = false.
Proof.
  intros Hab. induction s as [|x s IH]; [reflexivity|].
  cbn [replaceChar Js.mem]. rewrite IH, orb_false_r.
  destruct (Ascii.eqb x a) eqn:E; [|exact E].
  apply Ascii.eqb_neq. congruence.
Qed.

Lemma replaceChar_length (a b : ascii) (s : string) :
  String.length (replaceChar a b s) = String.length s.
Proof. induction s as [|x s IH]; simpl; congruence. Qed.

Lemma replaceChar_id (a b : ascii) (s : string) :
  Js.mem a s = false -> replaceChar a b s = s.
Proof.
  induction s as [|x s IH]; [reflexivity|]. cbn [Js.mem replaceChar].
  intros H. apply orb_false_iff in H as [Hx Hs]. now rewrite Hx, IH.
Qed.

(** ** Names of the generated files *)

Lemma append_cancel_l (a b c : string) : a ++ b = a ++ c -> b = c.
Proof.
  induction a as [|x a IH]; simpl; intros H; [exact H|].
  injection H as H. now apply IH.
Qed.

Lemma append_cancel_r (a b c : string) : a ++ c = b ++ c -> a = b.
Proof.
  revert b; induction a as [|x a IH]; intros [|y b] H.
  - reflexivity.
  - exfalso. apply (f_equal String.length) in H.
    cbn [append String.length] in H. rewrite length_append in H. lia.
  - exfalso. apply (f_equal String.length) in H.
    cbn [append String.length] in H. rewrite length_append in H. lia.
  - cbn [append] in H. injection H as -> H. f_equal. now apply IH.
Qed.

Lemma prefix_append (a b : string) : String.prefix a (a ++ b) = true.
Proof. apply prefix_refl_append. Qed.

(** ** Properties beyond the specification *)

(** X1.  [installLumigoNodejs] leaves the service description alone.  When
    the project already depends on the tracer it runs nothing.  Otherwise
    the package manager name, lower-cased, decides: ["npm"] and ["yarn"]
    each run their one install command, whose failure is passed on; any
    other name is a configuration error and no command is run. *)
Theorem X1_install_runs_one_command (env : Env) (p : Plugin) :
  let manager := nodePackageManager (service p) in
  let r := installLumigoNodejs env p in
  service (final r) = service p /\
  (tracerPresent env p = true ->
   outcome r = inr tt /\ worldChanges (trace r) = []) /\
  (tracerPresent env p = false ->
   (manager = "npm" ->
    worldChanges (trace r) =
      [ExecSync "npm install --no-save @lumigo/tracer@latest"] /\
    outcome r =
      commandResult env (Some "npm install --no-save @lumigo/tracer@latest")) /\
   (manager = "yarn" ->
    worldChanges (trace r) = [ExecSync "yarn add @lumigo/tracer@latest"] /\
    outcome r = commandResult env (Some "yarn add @lumigo/tracer@latest")) /\
   (manager <> "npm" -> manager <> "yarn" ->
    worldChanges (trace r) = [] /\
    outcome r =
      inl (ServerlessError
             "No Node.js package manager found. Please install either NPM or Yarn."))).
Proof.
  cbv zeta. destruct (installLumigoNodejs_run env p) as (T & -> & W).
  cbn [outcome final trace fst snd]. rewrite W.
  split; [reflexivity|]. split.
  - intros ->. now split.
  - intros ->. unfold installCommand. split; [|split].
    + intros ->. now split.
    + intros ->. now split.
    + intros Hn Hy. apply String.eqb_neq in Hn, Hy.
      unfold NPM, Yarn. rewrite Hn, Hy. now split.
Qed.

Lemma X1_install_runs_one_command_witness :
  tracerPresent sampleEnv (fresh yarnService) = false /\
  nodePackageManager yarnService = "yarn" /\
  worldChanges (trace (installLumigoNodejs sampleEnv (fresh yarnService))) =
    [ExecSync "yarn add @lumigo/tracer@latest"].
Proof.
  destruct (X1_install_runs_one_command sampleEnv (fresh yarnService))
    as (_ & _ & H).
  destruct (H eq_refl) as (_ & Hyarn & _).
  destruct (Hyarn eq_refl) as (Hw & _).
  split; [reflexivity|]. split; [reflexivity|]. exact Hw.
Defined.


(** X3.  In a nodejs pass the installation comes first.  When it fails the
    pass fails with the same error, no wrapper has been written and the
    service description is untouched.  When it succeeds the pass completes:
    after the commands of the installation come the wrapper files, one per
    eligible function in the order of declaration, and the function table
    is the old one with the handlers of the eligible functions replaced. *)
Theorem X3_nodejs_pass_installs_before_writing
    (env : Env) (functionNames : option (list string)) (p : Plugin)
    (t : string) :
  runtimeFamily (service p) = nodejs ->
  eligible (service p) functionNames <> [] ->
  token (lumigo (service p)) = Some t ->
  let r := wrapFunctions env functionNames p in
  let i := installLumigoNodejs env p in
  let el := eligible (service p) functionNames in
  (forall e, outcome i = inl e ->
     outcome r = inl e /\ service (final r) = service p /\
     worldChanges (trace r) = worldChanges (trace i)) /\
  (outcome i = inr tt ->
     outcome r = inr tt /\
     worldChanges (trace r) =
       (worldChanges (trace i) ++
        map (nodejsWrite env t (edgeHost (lumigo (service p)))) el)%list /\
     functions (service (final r)) =
       map (rewriteEntry env ".js" el) (functions (service p))).
Proof.
  intros Hfam Hne Htok. cbv zeta.
  pose proof (wrapFunctions_nodejs env functionNames p t Hfam Hne Htok) as H.
  cbv zeta in H.
  destruct (installLumigoNodejs_run env p) as (T & -> & W).
  cbn [outcome trace fst snd]. rewrite W.
  destruct (tracerPresent env p).
  - destruct H as (Ho & Hf & Hw). split; [discriminate|]. intros _.
    rewrite Ho, Hw, Hf. cbn [setPackage setFunctions service functions].
    now rewrite rewriteHandlers_entries.
  - destruct (commandResult env (installCommand (service p))) as [e|[]].
    + destruct H as (Ho & Hf & Hw). split; [|discriminate].
      intros e' E. injection E as <-. rewrite Ho, Hf, Hw. now repeat split.
    + destruct H as (Ho & Hf & Hw). split; [discriminate|]. intros _.
      rewrite Ho, Hw, Hf. cbn [setPackage setFunctions service functions].
      now rewrite rewriteHandlers_entries.
Qed.

Lemma X3_nodejs_pass_installs_before_writing_witness :
  runtimeFamily (sampleService "nodejs12.x") = nodejs /\
  eligible (sampleService "nodejs12.x") None <> [] /\
  outcome (installLumigoNodejs brokenEnv (fresh (sampleService "nodejs12.x"))) =
    inl (ExecSyncError "npm ERR! network") /\
  outcome (wrapFunctions brokenEnv None (fresh (sampleService "nodejs12.x"))) =
    inl (ExecSyncError "npm ERR! network") /\
  worldChanges
    (trace (wrapFunctions brokenEnv None (fresh (sampleService "nodejs12.x")))) =
    [ExecSync "npm install --no-save @lumigo/tracer@latest"].
Proof.
  assert (Hne : eligible (service (fresh (sampleService "nodejs12.x"))) None <> [])
    by discriminate.
  destruct (X3_nodejs_pass_installs_before_writing brokenEnv None
              (fresh (sampleService "nodejs12.x")) "test-token"
              eq_refl Hne eq_refl) as (Hfail & _).
  destruct (Hfail (ExecSyncError "npm ERR! network") eq_refl) as (Ho & _ & Hw).
  split; [reflexivity|]. split; [exact Hne|]. split; [reflexivity|].
  split; [exact Ho|]. rewrite Hw. reflexivity.
Defined.

Lemma find_none_forallb {A} (f : A -> bool) (l : list A) :
  find (fun x => negb (f x)) l = None <-> forallb f l = true.
Proof.
  induction l as [|x l IH]; cbn [find forallb]; [tauto|].
  destruct (f x); cbn [negb andb]; [exact IH|]. split; discriminate.
Qed.

Lemma operations_app (t t' : list Effect) :
  operations (t ++ t') = (operations t ++ operations t')%list.
Proof. apply filter_app. Qed.

Lemma forEach_ensureTracerInstalled_trace env svc {A} (g : A -> string)
    (l : list A) p :
  forallb (requirementsOk env) (map g l) = true ->
  trace (forEach l (fun x =>
           ensureTracerInstalled env
             (existsb (String.eqb "serverless-python-requirements")
                (plugins svc)) (g x)) p) =
  flat_map (fun f => [PathExistsSync f; ReadFile f]) (map g l).
Proof.
  induction l as [|x l IH]; [reflexivity|].
  cbn [forEach map forallb flat_map]. intros H.
  apply andb_true_iff in H as [Hx Hl]. unfold trace in *. rewrite bind_run.
  destruct (ensureTracerInstalled_run env svc (g x) p) as (T & -> & ->).
  rewrite Hx. unfold requirementsOk in Hx.
  apply andb_true_iff in Hx as [-> _].
  specialize (IH Hl).
  destruct (forEach l _ p) as [[r p'] t']. cbn [snd] in *. now rewrite IH.
Qed.

(** X4.  The requirements check of the python pass changes neither the
    plugin nor the world.  It looks at the configured file name, else at
    [requirements.txt]; for functions packaged individually it looks once
    per declared function, at the configured name again or else at
    [requirements.txt] next to the handler.  It passes exactly when every
    file exists and mentions [lumigo_tracer], having tested and read each
    file in turn; otherwise it throws the error of the first file that does
    not pass. *)
Theorem X4_requirements_check (env : Env) (p : Plugin) :
  let r := ensureLumigoPythonIsInstalled env p in
  let files := requirementsFiles (service p) in
  final r = p /\
  worldChanges (trace r) = [] /\
  outcome r =
    match find (fun f => negb (requirementsOk env f)) files with
    | Some f => inl (requirementsError env (service p) f)
    | None => inr tt
    end /\
  (outcome r = inr tt <-> forallb (requirementsOk env) files = true) /\
  (forallb (requirementsOk env) files = true ->
   operations (trace r) =
     flat_map (fun f => [PathExistsSync f; ReadFile f]) files).
Proof.
  cbv zeta.
  split; [apply ensureLumigoPythonIsInstalled_final|].
  split; [apply quiet_ensureLumigoPythonIsInstalled|].
  split; [apply ensureLumigoPythonIsInstalled_outcome|]. split.
  - rewrite ensureLumigoPythonIsInstalled_outcome, <- find_none_forallb.
    destruct (find _ _); split; congruence.
  - unfold ensureLumigoPythonIsInstalled, requirementsFiles, trace, log.
    rewrite bind_emit, bind_getPlugin.
    destruct (match package (service p) with
              | Some pkg => individually pkg
              | None => false
              end).
    + intros Hall. rewrite bind_emit, bind_run, getFunctionsToWrap_run.
      cbn [snd fst].
      pose proof (forEach_ensureTracerInstalled_trace env (service p)
                    (fun fn => match pythonRequirementsFileName (service p) with
                               | Some f => f
                               | None => Path.join [Path.dirname (handler (decl fn));
                                                    "requirements.txt"]
                               end)
                    (eligible (service p) None) p Hall) as H.
      unfold trace in H.
      destruct (forEach _ _ p) as [[r p'] t']. cbn [snd] in *. subst t'.
      assert (Hops : forall l : list string,
                operations (flat_map (fun f => [PathExistsSync f; ReadFile f]) l)
                = flat_map (fun f => [PathExistsSync f; ReadFile f]) l).
      { induction l as [|x l IH]; [reflexivity|].
        cbn [flat_map List.app]. unfold operations in *.
        cbn [filter isLog negb]. now rewrite IH. }
      unfold operations in *. cbn [filter isLog negb].
      rewrite filter_app, Hops.
      now destruct (runtimeFamily (service p)).
    + cbn [forallb flat_map]. rewrite andb_true_r. intros Hok.
      rewrite bind_emit.
      destruct (ensureTracerInstalled_run env (service p)
                  match pythonRequirementsFileName (service p) with
                  | Some f => f
                  | None => "requirements.txt"
                  end p) as (T & -> & ->).
      unfold requirementsOk in Hok. apply andb_true_iff in Hok as [-> _].
      reflexivity.
Qed.

Lemma X4_requirements_check_witness :
  forallb (requirementsOk sampleEnv) (requirementsFiles individualService) = true /\
  outcome (ensureLumigoPythonIsInstalled sampleEnv (fresh individualService)) =
    inr tt /\
  operations
    (trace (ensureLumigoPythonIsInstalled sampleEnv (fresh individualService))) =
    [PathExistsSync "functions/hello/requirements.txt";
     ReadFile "functions/hello/requirements.txt";
     PathExistsSync "functions/world/requirements.txt";
     ReadFile "functions/world/requirements.txt"].
Proof.
  destruct (X4_requirements_check sampleEnv (fresh individualService))
    as (_ & _ & _ & Hiff & Hops).
  split; [reflexivity|]. split.
  - apply Hiff. reflexivity.
  - rewrite Hops; reflexivity.
Defined.

(** X5.  A python pass whose requirements check fails ends with the error
    of the first failing file, before anything is written and with the
    plugin exactly as it was.  The files checked are those of all declared
    functions: the name filter of a single-function deploy does not narrow
    the check. *)
Theorem X5_python_pass_aborts_on_failed_check
    (env : Env) (functionNames : option (list string)) (p : Plugin)
    (t f : string) :
  runtimeFamily (service p) = python ->
  eligible (service p) functionNames <> [] ->
  token (lumigo (service p)) = Some t ->
  find (fun f => negb (requirementsOk env f)) (requirementsFiles (service p))
    = Some f ->
  let r := wrapFunctions env functionNames p in
  outcome r = inl (requirementsError env (service p) f) /\
  final r = p /\
  worldChanges (trace r) = [].
Proof.
  intros Hfam Hne Htok Hfind. cbv zeta.
  apply (wrapFunctions_python_failed env functionNames p t); try assumption.
  now rewrite ensureLumigoPythonIsInstalled_outcome, Hfind.
Qed.

Lemma X5_python_pass_aborts_on_failed_check_witness :
  eligible individualService (Some ["hello"]) =
    [mkFunc "hello" (fn "functions/hello/hello.world")] /\
  find (fun f => negb (requirementsOk partialEnv f))
    (requirementsFiles individualService) =
    Some "functions/world/requirements.txt" /\
  outcome (wrapFunctions partialEnv (Some ["hello"]) (fresh individualService)) =
    inl (ServerlessError
           ("functions/world/requirements.txt is not found." ++ LF ++
            "Consider using the serverless-python-requirements plugin to help you package Python dependencies.")) /\
  final (wrapFunctions partialEnv (Some ["hello"]) (fresh individualService)) =
    fresh individualService.
Proof.
  assert (Hne : eligible (service (fresh individualService)) (Some ["hello"]) <> [])
    by discriminate.
  destruct (X5_python_pass_aborts_on_failed_check partialEnv (Some ["hello"])
              (fresh individualService) "test-token"
              "functions/world/requirements.txt" eq_refl Hne eq_refl eq_refl)
    as (Ho & Hf & _).
  split; [reflexivity|]. split; [reflexivity|]. split; [exact Ho | exact Hf].
Defined.

Lemma substring_is_prefix (k : nat) (s : string) :
  String.prefix (substring 0 k s) s = true.
Proof.
  revert k; induction s as [|x s IH]; intros [|k]; cbn [substring];
    try reflexivity.
  cbn [String.prefix]. destruct (ascii_dec x x); [apply IH | congruence].
Qed.

Lemma handlerModulePath_is_prefix (h : string) :
  String.prefix (handlerModulePath h) h = true.
Proof.
  unfold handlerModulePath, Js.substr. cbn [Z.ltb Z.compare].
  replace (Z.to_nat (Z.min 0 (Z.of_nat (String.length h)))) with 0%nat by lia.
  apply substring_is_prefix.
Qed.

(** X6.  Whatever the handler string, the function name cut from it holds
    neither a path separator nor a dot, and the module path is a prefix of
    the handler.  The python module path is that prefix with every ["/"]
    turned into ["."]: same length, no separator left, and the very same
    string when there was none. *)
Theorem X6_parsed_parts_shape (h : string) :
  Js.includes (handlerFuncName h) "/" = false /\
  Js.includes (handlerFuncName h) "." = false /\
  Js.startsWith h (handlerModulePath h) = true /\
  handlerModulePath_python h = replaceChar "/" "." (handlerModulePath h) /\
  String.length (handlerModulePath_python h) =
    String.length (handlerModulePath h) /\
  Js.includes (handlerModulePath_python h) "/" = false /\
  (Js.includes h "/" = false ->
   handlerModulePath_python h = handlerModulePath h).
Proof.
  rewrite !includes_char.
  assert (E : handlerModulePath_python h =
              replaceChar "/" "." (handlerModulePath h))
    by apply join_split_replace.
  split; [apply handlerFuncName_no_separator|].
  split; [apply handlerFuncName_no_dot_inside|].
  split; [apply handlerModulePath_is_prefix|].
  split; [exact E|]. rewrite E.
  split; [apply replaceChar_length|].
  split; [now apply replaceChar_absent|].
  intros Hh. apply replaceChar_id.
  apply (infix_mem_absent "/" _ h); [apply handlerModulePath_infix | exact Hh].
Qed.

Lemma X6_parsed_parts_shape_witness :
  Js.includes "hello.world" "/" = false /\
  handlerModulePath_python "hello.world" = handlerModulePath "hello.world".
Proof.
  destruct (X6_parsed_parts_shape "hello.world") as (_ & _ & _ & _ & _ & _ & H).
  split; [reflexivity | exact (H eq_refl)].
Defined.

Lemma wrappedHandler_stable
    (env : Env) (func : Func) (flds : list (string * JValue)) (ext : string) :
  Path.isAbsolute (servicePath env) = true ->
  Js.includes (localName func) "/" = false ->
  ext = "js" \/ ext = "py" ->
  let h := wrappedHandler env ("." ++ ext) func in
  let again := mkFunc (localName func) (mkFunctionDeclaration h flds) in
  h = "_lumigo/" ++ localName func ++ "." ++ handlerFuncName (handler (decl func)) /\
  handlerFuncName h = handlerFuncName (handler (decl func)) /\
  handlerModulePath h = "_lumigo/" ++ localName func /\
  wrappedHandler env ("." ++ ext) again = h.
Proof.
  intros Hsp Hname Hext. cbv zeta. rewrite includes_char in Hname.
  set (f := handlerFuncName (handler (decl func))).
  assert (Hf1 : Js.mem "." f = false) by apply handlerFuncName_no_dot_inside.
  assert (Hf2 : Js.mem "/" f = false) by apply handlerFuncName_no_separator.
  assert (Hw : forall g : Func, localName g = localName func ->
            wrappedHandler env ("." ++ ext) g =
            "_lumigo/" ++ localName func ++ "." ++ handlerFuncName (handler (decl g))).
  { intros g Eg. rewrite <- Eg in Hname |- *.
    destruct Hext as [-> | ->].
    - now destruct (wrappedHandler_lumigo env "js" g Hsp Hname
                      eq_refl eq_refl (le_n 2)) as (_ & _ & E).
    - now destruct (wrappedHandler_lumigo env "py" g Hsp Hname
                      eq_refl eq_refl (le_n 2)) as (_ & _ & E). }
  rewrite (Hw func eq_refl). fold f.
  assert (Ef : handlerFuncName ("_lumigo/" ++ localName func ++ "." ++ f) = f).
  { rewrite <- append_assoc.
    change (("_lumigo/" ++ localName func) ++ "." ++ f)
      with (("_lumigo/" ++ localName func) ++ String "." f).
    now apply handlerFuncName_last_dot. }
  split; [reflexivity|]. split; [exact Ef|]. split.
  - rewrite <- append_assoc.
    change (("_lumigo/" ++ localName func) ++ "." ++ f)
      with (("_lumigo/" ++ localName func) ++ String "." f).
    now apply handlerModulePath_last_dot.
  - rewrite (Hw (mkFunc (localName func)
                    (mkFunctionDeclaration
                       ("_lumigo/" ++ localName func ++ "." ++ f) flds))
               eq_refl).
    cbn [decl handler]. now rewrite Ef.
Qed.

(** X7.  With an absolute service path and a function name without path
    separator, both generators return the handler
    [_lumigo/<name>.<function name>] whatever the original handler was.
    Parsed again, that handler gives the wrapper file (without extension) as
    module and the original function name.  So run on the rewritten
    function, both generators return the same handler once more, and the
    wrapper that [createWrappedNodejsFunction] then writes, to the same
    file, requires the wrapper itself. *)
Theorem X7_rewritten_handler_is_stable
    (env : Env) (func : Func) (flds : list (string * JValue)) (t : string)
    (edgeHost token : option string) (p p' : Plugin) :
  Path.isAbsolute (servicePath env) = true ->
  Js.includes (localName func) "/" = false ->
  let f := handlerFuncName (handler (decl func)) in
  let h := "_lumigo/" ++ localName func ++ "." ++ f in
  let again := mkFunc (localName func) (mkFunctionDeclaration h flds) in
  outcome (createWrappedNodejsFunction env func (Some t) edgeHost p) = inr h /\
  outcome (createWrappedPythonFunction env func token p) = inr h /\
  handlerFuncName h = f /\
  handlerModulePath h = "_lumigo/" ++ localName func /\
  outcome (createWrappedNodejsFunction env again (Some t) edgeHost p') = inr h /\
  outcome (createWrappedPythonFunction env again token p') = inr h /\
  exists parameters,
    getNodeTracerParameters (Some t) edgeHost = inr parameters /\
    worldChanges
      (trace (createWrappedNodejsFunction env again (Some t) edgeHost p')) =
      [OutputFile (folderPath env ++ "/" ++ localName func ++ ".js")
         (wrappedNodejsFunction parameters ("_lumigo/" ++ localName func) f)].
Proof.
  intros Hsp Hname. cbv zeta.
  set (f := handlerFuncName (handler (decl func))).
  set (h := "_lumigo/" ++ localName func ++ "." ++ f).
  destruct (wrappedHandler_stable env func flds "js" Hsp Hname
              (or_introl eq_refl)) as (Hjs & Hfn & Hmod & Hjs').
  destruct (wrappedHandler_stable env func flds "py" Hsp Hname
              (or_intror eq_refl)) as (Hpy & _ & _ & Hpy').
  change ("." ++ "js") with ".js" in *. change ("." ++ "py") with ".py" in *.
  fold f in Hjs, Hfn, Hpy. fold h in Hjs, Hpy.
  rewrite Hjs in Hfn, Hmod, Hjs'. rewrite Hpy in Hpy'.
  destruct (createWrappedNodejsFunction_run env func t edgeHost p)
    as (T1 & E1 & _).
  destruct (createWrappedPythonFunction_run env func token p)
    as (T2 & E2 & _).
  destruct (createWrappedNodejsFunction_run env
              (mkFunc (localName func) (mkFunctionDeclaration h flds))
              t edgeHost p') as (T3 & E3 & _).
  destruct (createWrappedPythonFunction_run env
              (mkFunc (localName func) (mkFunctionDeclaration h flds))
              token p') as (T4 & E4 & _).
  pose proof (createWrappedNodejsFunction_writes env
                (mkFunc (localName func) (mkFunctionDeclaration h flds))
                t edgeHost p' _ (getNodeTracerParameters_eq t edgeHost)) as W.
  cbn [localName decl handler] in W. rewrite Hfn, Hmod in W.
  rewrite includes_char in Hname.
  destruct (wrappedHandler_lumigo env "js" func Hsp Hname eq_refl eq_refl
              (le_n 2)) as (Ejoin & _ & _).
  change ("." ++ "js") with ".js" in Ejoin. rewrite Ejoin in W.
  split; [now rewrite E1, Hjs|]. split; [now rewrite E2, Hpy|].
  split; [exact Hfn|]. split; [exact Hmod|].
  split; [now rewrite E3, Hjs'|]. split; [now rewrite E4, Hpy'|].
  eexists. split; [apply getNodeTracerParameters_eq | exact W].
Qed.

Lemma X7_rewritten_handler_is_stable_witness :
  Path.isAbsolute (servicePath sampleEnv) = true /\
  Js.includes "jet" "/" = false /\
  outcome (createWrappedNodejsFunction sampleEnv
             (mkFunc "jet" (fn "foo/foo/bar.handler")) (Some "test-token") None
             (fresh (sampleService "nodejs12.x"))) = inr "_lumigo/jet.handler" /\
  outcome (createWrappedNodejsFunction sampleEnv
             (mkFunc "jet" (fn "_lumigo/jet.handler")) (Some "test-token") None
             (fresh (sampleService "nodejs12.x"))) = inr "_lumigo/jet.handler" /\
  worldChanges
    (trace (createWrappedNodejsFunction sampleEnv
              (mkFunc "jet" (fn "_lumigo/jet.handler")) (Some "test-token") None
              (fresh (sampleService "nodejs12.x")))) =
    [OutputFile "/srv/app/_lumigo/jet.js"
       (wrappedNodejsFunction "token: 'test-token'" "_lumigo/jet" "handler")].
Proof.
  destruct (X7_rewritten_handler_is_stable sampleEnv
              (mkFunc "jet" (fn "foo/foo/bar.handler")) [("events", JArr [])]
              "test-token" None (Some "test-token")
              (fresh (sampleService "nodejs12.x"))
              (fresh (sampleService "nodejs12.x")) eq_refl eq_refl)
    as (H1 & _ & _ & _ & H2 & _ & ps & Eps & Hw).
  split; [reflexivity|]. split; [reflexivity|].
  split; [exact H1|]. split; [exact H2|].
  injection Eps as <-. exact Hw.
Defined.

Lemma wrapper_files_differ
    (env : Env) (ext : string) (f g : Func) :
  Path.isAbsolute (servicePath env) = true ->
  Js.includes (localName f) "/" = false ->
  Js.includes (localName g) "/" = false ->
  localName f <> localName g ->
  ext = "js" \/ ext = "py" ->
  Path.join [folderPath env; localName f ++ "." ++ ext] =
    folderPath env ++ "/" ++ localName f ++ "." ++ ext /\
  Path.join [folderPath env; localName g ++ "." ++ ext] =
    folderPath env ++ "/" ++ localName g ++ "." ++ ext /\
  folderPath env ++ "/" ++ localName f ++ "." ++ ext <>
    folderPath env ++ "/" ++ localName g ++ "." ++ ext.
Proof.
  intros Hsp Hf Hg Hne Hext. rewrite includes_char in Hf, Hg.
  assert (Ef : Path.join [folderPath env; localName f ++ "." ++ ext] =
               folderPath env ++ "/" ++ localName f ++ "." ++ ext).
  { destruct Hext as [-> | ->].
    - now destruct (wrappedHandler_lumigo env "js" f Hsp Hf eq_refl eq_refl
                      (le_n 2)) as (E & _ & _).
    - now destruct (wrappedHandler_lumigo env "py" f Hsp Hf eq_refl eq_refl
                      (le_n 2)) as (E & _ & _). }
  assert (Eg : Path.join [folderPath env; localName g ++ "." ++ ext] =
               folderPath env ++ "/" ++ localName g ++ "." ++ ext).
  { destruct Hext as [-> | ->].
    - now destruct (wrappedHandler_lumigo env "js" g Hsp Hg eq_refl eq_refl
                      (le_n 2)) as (E & _ & _).
    - now destruct (wrappedHandler_lumigo env "py" g Hsp Hg eq_refl eq_refl
                      (le_n 2)) as (E & _ & _). }
  split; [exact Ef|]. split; [exact Eg|].
  intros E. apply append_cancel_l, append_cancel_l, append_cancel_r in E.
  contradiction.
Qed.

(** X8.  With an absolute service path, run on two functions whose names
    differ and hold no path separator, a generator writes two different
    files, both directly inside the plugin's folder; when the functions
    share a handler the two files have the same text.  This holds for
    [createWrappedNodejsFunction] and for [createWrappedPythonFunction]. *)
Theorem X8_wrappers_do_not_collide
    (env : Env) (t : string) (edgeHost token : option string) (f g : Func)
    (p q : Plugin) :
  Path.isAbsolute (servicePath env) = true ->
  Js.includes (localName f) "/" = false ->
  Js.includes (localName g) "/" = false ->
  localName f <> localName g ->
  (exists cf cg,
     worldChanges
       (trace (createWrappedNodejsFunction env f (Some t) edgeHost p)) =
       [OutputFile (folderPath env ++ "/" ++ localName f ++ ".js") cf] /\
     worldChanges
       (trace (createWrappedNodejsFunction env g (Some t) edgeHost q)) =
       [OutputFile (folderPath env ++ "/" ++ localName g ++ ".js") cg] /\
     folderPath env ++ "/" ++ localName f ++ ".js" <>
       folderPath env ++ "/" ++ localName g ++ ".js" /\
     (handler (decl f) = handler (decl g) -> cf = cg)) /\
  (exists cf cg,
     worldChanges (trace (createWrappedPythonFunction env f token p)) =
       [OutputFile (folderPath env ++ "/" ++ localName f ++ ".py") cf] /\
     worldChanges (trace (createWrappedPythonFunction env g token q)) =
       [OutputFile (folderPath env ++ "/" ++ localName g ++ ".py") cg] /\
     folderPath env ++ "/" ++ localName f ++ ".py" <>
       folderPath env ++ "/" ++ localName g ++ ".py" /\
     (handler (decl f) = handler (decl g) -> cf = cg)).
Proof.
  intros Hsp Hf Hg Hne. split.
  - destruct (wrapper_files_differ env "js" f g Hsp Hf Hg Hne
                (or_introl eq_refl)) as (Ef & Eg & Hd).
    change ("." ++ "js") with ".js" in *.
    destruct (createWrappedNodejsFunction_run env f t edgeHost p)
      as (T1 & -> & W1).
    destruct (createWrappedNodejsFunction_run env g t edgeHost q)
      as (T2 & -> & W2).
    cbn [trace snd]. rewrite W1, W2. unfold nodejsWrite. rewrite Ef, Eg.
    do 2 eexists. repeat split; [exact Hd|]. now intros ->.
  - destruct (wrapper_files_differ env "py" f g Hsp Hf Hg Hne
                (or_intror eq_refl)) as (Ef & Eg & Hd).
    change ("." ++ "py") with ".py" in *.
    destruct (createWrappedPythonFunction_run env f token p)
      as (T1 & -> & W1).
    destruct (createWrappedPythonFunction_run env g token q)
      as (T2 & -> & W2).
    cbn [trace snd]. rewrite W1, W2. unfold pythonWrite. rewrite Ef, Eg.
    do 2 eexists. repeat split; [exact Hd|]. now intros ->.
Qed.

Lemma X8_wrappers_do_not_collide_witness :
  Path.isAbsolute (servicePath sampleEnv) = true /\
  "foo" <> "bar" /\
  exists c,
    worldChanges
      (trace (createWrappedNodejsFunction sampleEnv
                (mkFunc "foo" (fn "foo_bar.handler")) (Some "test-token") None
                (fresh (sampleService "nodejs12.x")))) =
      [OutputFile "/srv/app/_lumigo/foo.js" c] /\
    worldChanges
      (trace (createWrappedNodejsFunction sampleEnv
                (mkFunc "bar" (fn "foo_bar.handler")) (Some "test-token") None
                (fresh (sampleService "nodejs12.x")))) =
      [OutputFile "/srv/app/_lumigo/bar.js" c].
Proof.
  assert (Hne : localName (mkFunc "foo" (fn "foo_bar.handler")) <>
                localName (mkFunc "bar" (fn "foo_bar.handler")))
    by discriminate.
  destruct (X8_wrappers_do_not_collide sampleEnv "test-token" None None
              (mkFunc "foo" (fn "foo_bar.handler"))
              (mkFunc "bar" (fn "foo_bar.handler"))
              (fresh (sampleService "nodejs12.x"))
              (fresh (sampleService "nodejs12.x"))
              eq_refl eq_refl eq_refl Hne)
    as ((cf & cg & E1 & E2 & _ & Hc) & _).
  split; [reflexivity|]. split; [exact Hne|].
  exists cf. split; [exact E1|]. rewrite (Hc eq_refl). exact E2.
Defined.

(** ** Where the changes of a pass go *)

Lemma wrapFunctions_no_token env functionNames p :
  eligible (service p) functionNames <> [] ->
  token (lumigo (service p)) = None ->
  wrapFunctions env functionNames p =
    (inl tokenMissing, p, prologue env (service p) functionNames).
Proof.
  intros Hne Htok. rewrite wrapFunctions_run.
  destruct (eligible (service p) functionNames) as [|f l]; [congruence|].
  unfold wrapEligible. rewrite bind_getPlugin, Htok.
  cbn [throw]. now rewrite app_nil_r.
Qed.

(** Every change of a pass is a shell command or the wrapper of an eligible
    function. *)
Lemma wrapFunctions_changes env functionNames p e :
  In e (worldChanges (trace (wrapFunctions env functionNames p))) ->
  (exists c, e = ExecSync c) \/
  (exists f t,
     In f (eligible (service p) functionNames) /\
     token (lumigo (service p)) = Some t /\
     (e = nodejsWrite env t (edgeHost (lumigo (service p))) f \/
      e = pythonWrite env (Some t) f)).
Proof.
  destruct (eligible (service p) functionNames) as [|f0 l0] eqn:Eel.
  { rewrite wrapFunctions_run, Eel. cbn [trace snd].
    now rewrite prologue_quiet. }
  assert (Hne : eligible (service p) functionNames <> []) by congruence.
  rewrite <- Eel. clear Eel.
  destruct (token (lumigo (service p))) as [t|] eqn:Htok.
  2:{ rewrite wrapFunctions_no_token by assumption. cbn [trace snd].
      now rewrite prologue_quiet. }
  destruct (runtimeFamily (service p)) eqn:Hfam.
  - pose proof (wrapFunctions_nodejs env functionNames p t Hfam Hne Htok) as H.
    cbv zeta in H.
    assert (Hcmd : forall x, In x (commandRun (installCommand (service p))) ->
                     exists c, x = ExecSync c).
    { intros x. destruct (installCommand (service p)); cbn.
      - intros [<-|[]]. eauto.
      - intros []. }
    destruct (tracerPresent env p).
    + destruct H as (_ & _ & ->). intros Hin.
      apply in_map_iff in Hin as (f & <- & Hf). right. exists f, t. auto.
    + destruct (commandResult env (installCommand (service p))).
      * destruct H as (_ & _ & ->). intros Hin. left. now apply Hcmd.
      * destruct H as (_ & _ & ->). intros Hin.
        apply in_app_or in Hin as [Hin|Hin]; [left; now apply Hcmd|].
        apply in_map_iff in Hin as (f & <- & Hf). right. exists f, t. auto.
  - destruct (outcome (ensureLumigoPythonIsInstalled env p)) as [e'|[]] eqn:Hens.
    + destruct (wrapFunctions_python_failed env functionNames p t e'
                  Hfam Hne Htok Hens) as (_ & _ & ->). intros [].
    + destruct (wrapFunctions_python env functionNames p t Hfam Hne Htok Hens)
        as (_ & _ & ->). intros Hin.
      apply in_map_iff in Hin as (f & <- & Hf). right. exists f, t. auto.
  - now rewrite eligible_unsupported in Hne.
Qed.

Lemma afterCreateDeploymentArtifacts_changes env p :
  worldChanges (trace (afterCreateDeploymentArtifacts env p)) =
  match eligible (service p) None with
  | [] => []
  | _ :: _ =>
      Remove (folderPath env)
      :: match runtimeFamily (service p) with
         | nodejs =>
             if tracerPresent env p then []
             else commandRun (uninstallCommand (service p))
         | _ => []
         end
  end.
Proof.
  unfold afterCreateDeploymentArtifacts, trace.
  rewrite bind_run, getFunctionsToWrap_run. cbn [fst snd].
  destruct (eligible (service p) None) as [|f l] eqn:Eel.
  - cbn [List.length Nat.eqb ret snd]. rewrite app_nil_r.
    now destruct (runtimeFamily (service p)).
  - cbn [List.length Nat.eqb]. rewrite bind_run.
    destruct (cleanFolder_run env p) as (T1 & -> & W1).
    destruct (runtimeFamily (service p)) eqn:Hfam.
    + destruct (uninstallLumigoNodejs_run env p) as (T2 & -> & W2).
      cbn [snd List.app]. rewrite worldChanges_app, W1, W2.
      unfold commandRun.
      destruct (tracerPresent env p); [reflexivity|].
      now destruct (uninstallCommand (service p)).
    + cbn [ret snd List.app]. now rewrite app_nil_r.
    + now rewrite eligible_unsupported in Eel.
Qed.

Lemma eligible_declared svc functionNames f :
  In f (eligible svc functionNames) -> In (localName f) (getAllFunctions svc).
Proof.
  intros H. apply eligible_subset in H. unfold getAllFunctions.
  change (localName f) with (fst (localName f, decl f)). now apply in_map.
Qed.

(** X9.  With an absolute service path and declared names free of path
    separators, every file that [wrapFunctions] writes, on whatever path
    through the pass, is the [.js] or [.py] file of an eligible function
    directly inside the plugin's folder.  Cleanup removes nothing but that
    folder. *)
Theorem X9_cleanup_removes_what_was_written
    (env : Env) (functionNames : option (list string)) (p q : Plugin) :
  Path.isAbsolute (servicePath env) = true ->
  Forall (fun n => Js.includes n "/" = false) (getAllFunctions (service p)) ->
  (forall path content,
     In (OutputFile path content) (trace (wrapFunctions env functionNames p)) ->
     Js.startsWith path (folderPath env ++ "/") = true /\
     exists f,
       In f (eligible (service p) functionNames) /\
       (path = folderPath env ++ "/" ++ localName f ++ ".js" \/
        path = folderPath env ++ "/" ++ localName f ++ ".py")) /\
  (forall path,
     In (Remove path) (trace (afterCreateDeploymentArtifacts env q)) ->
     path = folderPath env).
Proof.
  intros Hsp Hnames. split.
  - intros path content Hin.
    assert (Hw : In (OutputFile path content)
                   (worldChanges (trace (wrapFunctions env functionNames p))))
      by (apply filter_In; now split).
    apply wrapFunctions_changes in Hw as [[c Hc]|(f & t & Hf & _ & Hw)];
      [discriminate|].
    assert (Hn : Js.mem "/" (localName f) = false).
    { rewrite <- includes_char. rewrite Forall_forall in Hnames.
      apply Hnames. now apply eligible_declared in Hf. }
    assert (Hpath : path = folderPath env ++ "/" ++ localName f ++ ".js" \/
                    path = folderPath env ++ "/" ++ localName f ++ ".py").
    { destruct Hw as [Hw|Hw].
      - left. unfold nodejsWrite in Hw. injection Hw as -> _.
        now destruct (wrappedHandler_lumigo env "js" f Hsp Hn
                        eq_refl eq_refl (le_n 2)) as (E & _).
      - right. unfold pythonWrite in Hw. injection Hw as -> _.
        now destruct (wrappedHandler_lumigo env "py" f Hsp Hn
                        eq_refl eq_refl (le_n 2)) as (E & _). }
    split; [|now exists f].
    unfold Js.startsWith.
    destruct Hpath as [-> | ->];
      rewrite <- (append_assoc (folderPath env) "/"); apply prefix_append.
  - intros path Hin.
    assert (Hw : In (Remove path)
                   (worldChanges (trace (afterCreateDeploymentArtifacts env q))))
      by (apply filter_In; now split).
    rewrite afterCreateDeploymentArtifacts_changes in Hw.
    destruct (eligible (service q) None); [destruct Hw|].
    destruct Hw as [Hw|Hw]; [now injection Hw|].
    destruct (runtimeFamily (service q)); try destruct Hw.
    destruct (tracerPresent env q); [destruct Hw|].
    destruct (uninstallCommand (service q)); cbn in Hw;
      [destruct Hw as [Hw|[]]; discriminate | destruct Hw].
Qed.

Lemma X9_cleanup_removes_what_was_written_witness :
  Path.isAbsolute (servicePath sampleEnv) = true /\
  Forall (fun n => Js.includes n "/" = false)
    (getAllFunctions (sampleService "python3.7")) /\
  Js.startsWith "/srv/app/_lumigo/jet.py" (folderPath sampleEnv ++ "/") = true.
Proof.
  assert (Hnames : Forall (fun n => Js.includes n "/" = false)
                     (getAllFunctions (service (fresh (sampleService "python3.7")))))
    by (repeat constructor).
  destruct (X9_cleanup_removes_what_was_written sampleEnv None
              (fresh (sampleService "python3.7"))
              (fresh (sampleService "python3.7")) eq_refl Hnames) as (Hw & _).
  split; [reflexivity|]. split; [exact Hnames|].
  apply (Hw "/srv/app/_lumigo/jet.py"
           (wrappedPythonFunction "test-token" "foo.foo.bar" "handler")).
  simpl. tauto.
Defined.

(** ** The hooks *)

Lemma namesInclude_all (l : list (string * FunctionDeclaration)) :
  filter (fun e => namesInclude (map fst l) (fst e)) l = l.
Proof.
  apply forallb_filter_id, forallb_forall. intros e He.
  apply namesInclude_In. now apply in_map.
Qed.

Lemma filter_none {A} (f : A -> bool) (l : list A) :
  (forall x, In x l -> f x = false) -> filter f l = [].
Proof.
  induction l as [|x l IH]; intros H; [reflexivity|]. cbn [filter].
  rewrite (H x (or_introl eq_refl)). apply IH. intros y Hy. apply H. now right.
Qed.

Lemma filter_single_name (l : list (string * FunctionDeclaration))
    (n : string) (d : FunctionDeclaration) :
  NoDup (map fst l) -> In (n, d) l ->
  filter (fun e => namesInclude [n] (fst e)) l = [(n, d)].
Proof.
  induction l as [|[n0 d0] l IH]; intros Hnd Hin; [destruct Hin|].
  cbn [map fst] in Hnd. inversion Hnd as [|? ? Hn0 Hl]; subst.
  cbn [filter fst namesInclude existsb]. rewrite orb_false_r.
  destruct Hin as [E|Hin].
  - injection E as -> ->. rewrite String.eqb_refl. f_equal.
    apply filter_none. intros [m dm] Hm. cbn [fst namesInclude existsb].
    rewrite orb_false_r. apply String.eqb_neq. intros ->.
    apply Hn0. change n with (fst (n, dm)). now apply in_map.
  - destruct (n0 =? n) eqn:E.
    + apply String.eqb_eq in E. subst. exfalso. apply Hn0.
      change n with (fst (n, d)). now apply in_map.
    + now apply IH.
Qed.

Lemma eligible_unfiltered svc :
  runtimeFamily svc <> unsupported ->
  eligible svc None = map (fun e => mkFunc (fst e) (snd e)) (functions svc).
Proof.
  intros Hsup. rewrite eligible_supported by assumption.
  unfold named, getAllFunctions. now rewrite namesInclude_all.
Qed.

Lemma eligible_single svc f d :
  runtimeFamily svc <> unsupported ->
  NoDup (getAllFunctions svc) -> In (f, d) (functions svc) ->
  eligible svc (Some [f]) = [mkFunc f d].
Proof.
  intros Hsup Hnd Hin. rewrite eligible_supported by assumption.
  unfold named. now rewrite (filter_single_name _ f d Hnd Hin).
Qed.

(** X10.  The package hook runs the pass without filter, which under a
    supported runtime makes every declared function eligible, in the order
    of declaration.  The single-function deploy hook makes exactly the
    named function eligible: in a nodejs pass whose installation succeeds,
    one wrapper is written after the installation and only the entry of
    that function gets a new handler.  With no function option the hook
    wraps nothing and returns. *)
Theorem X10_hooks_select_functions
    (env : Env) (p : Plugin) (f t : string) (d : FunctionDeclaration) :
  runtimeFamily (service p) = nodejs ->
  NoDup (getAllFunctions (service p)) ->
  In (f, d) (functions (service p)) ->
  token (lumigo (service p)) = Some t ->
  outcome (installLumigoNodejs env p) = inr tt ->
  let r := afterDeployFunctionInitialize env (Some f) p in
  map localName (eligible (service p) None) = getAllFunctions (service p) /\
  afterPackageInitialize env p = wrapFunctions env None p /\
  eligible (service p) (Some [f]) = [mkFunc f d] /\
  outcome r = inr tt /\
  worldChanges (trace r) =
    (worldChanges (trace (installLumigoNodejs env p)) ++
     [nodejsWrite env t (edgeHost (lumigo (service p))) (mkFunc f d)])%list /\
  functions (service (final r)) =
    assignHandler f (wrappedHandler env ".js" (mkFunc f d))
      (functions (service p)) /\
  afterDeployFunctionInitialize env None p =
    (inr tt, p, [CliLog "serverless-lumigo: there are 0 function(s) to wrap..."]).
Proof.
  intros Hfam Hnd Hin Htok Hinst. cbv zeta.
  assert (Hsup : runtimeFamily (service p) <> unsupported) by congruence.
  pose proof (eligible_single (service p) f d Hsup Hnd Hin) as Hel.
  split.
  { rewrite eligible_unfiltered by assumption. rewrite map_map.
    unfold getAllFunctions. now apply map_ext. }
  split; [reflexivity|]. split; [exact Hel|].
  unfold afterDeployFunctionInitialize.
  assert (Hne : eligible (service p) (Some [f]) <> []) by now rewrite Hel.
  pose proof (wrapFunctions_nodejs env (Some [f]) p t Hfam Hne Htok) as H.
  cbv zeta in H. rewrite Hel in H.
  destruct (installLumigoNodejs_run env p) as (T & Ei & W).
  rewrite Ei in Hinst |- *. cbn [outcome trace fst snd] in Hinst |- *.
  rewrite W.
  assert (Hnone : wrapFunctions env (Some []) p =
            (inr tt, p, [countLine 0])).
  { rewrite wrapFunctions_run.
    assert (E0 : eligible (service p) (Some []) = []).
    { rewrite eligible_supported by assumption. unfold named.
      cbn [namesInclude existsb]. now rewrite filter_none. }
    rewrite E0. unfold prologue. rewrite E0, Hfam.
    now destruct (SLS_DEBUG env). }
  destruct (tracerPresent env p).
  - destruct H as (Ho & Hf & Hw). rewrite Ho, Hw, Hf.
    repeat split. exact Hnone.
  - destruct (commandResult env (installCommand (service p))) as [e|[]];
      [discriminate|].
    destruct H as (Ho & Hf & Hw). rewrite Ho, Hw, Hf.
    repeat split. exact Hnone.
Qed.

Lemma X10_hooks_select_functions_witness :
  NoDup (getAllFunctions (sampleService "nodejs12.x")) /\
  outcome (installLumigoNodejs sampleEnv (fresh (sampleService "nodejs12.x"))) =
    inr tt /\
  functions (service (final (afterDeployFunctionInitialize sampleEnv (Some "hello")
                               (fresh (sampleService "nodejs12.x"))))) =
    ("hello", fn "_lumigo/hello.world") :: tl sampleFunctions.
Proof.
  assert (Hnd : NoDup (getAllFunctions (service (fresh (sampleService "nodejs12.x"))))).
  { repeat (constructor; [simpl; intuition discriminate|]). constructor. }
  destruct (X10_hooks_select_functions sampleEnv
              (fresh (sampleService "nodejs12.x")) "hello" "test-token"
              (fn "hello.world") eq_refl Hnd (or_introl eq_refl) eq_refl eq_refl)
    as (_ & _ & _ & _ & _ & Hf & _).
  split; [exact Hnd|]. split; [reflexivity|]. rewrite Hf. reflexivity.
Defined.

(** ** A pass followed by cleanup *)

Lemma eligible_unfiltered_nonempty svc functionNames :
  eligible svc functionNames <> [] -> functions svc <> [].
Proof.
  intros Hne E. destruct (eligible svc functionNames) as [|f l] eqn:Eel;
    [congruence|].
  assert (Hin : In f (eligible svc functionNames)) by (rewrite Eel; now left).
  apply eligible_subset in Hin. now rewrite E in Hin.
Qed.

Lemma rewriteHandlers_nonempty env ext fs fns :
  fns <> [] -> rewriteHandlers env ext fs fns <> [].
Proof.
  rewrite rewriteHandlers_entries. now destruct fns.
Qed.

(** X11.  Cleanup after a nodejs pass mirrors that pass, whether the pass
    completed or not: the pass runs the install command exactly when the
    project did not depend on the tracer at its first check and the package
    manager is a known one; cleanup then removes the folder and runs the
    uninstall command of the same package manager under exactly the same
    condition, whatever the manifest says by then. *)
Theorem X11_cleanup_mirrors_install
    (env env' : Env) (functionNames : option (list string)) (p : Plugin)
    (t : string) :
  runtimeFamily (service p) = nodejs ->
  eligible (service p) functionNames <> [] ->
  token (lumigo (service p)) = Some t ->
  let r := wrapFunctions env functionNames p in
  let c := afterCreateDeploymentArtifacts env' (final r) in
  (forall cmd, In (ExecSync cmd) (trace r) <->
     tracerPresent env p = false /\ installCommand (service p) = Some cmd) /\
  worldChanges (trace c) =
    Remove (folderPath env')
    :: (if tracerPresent env p then []
        else commandRun (uninstallCommand (service p))) /\
  (forall cmd, In (ExecSync cmd) (trace c) <->
     tracerPresent env p = false /\ uninstallCommand (service p) = Some cmd) /\
  (installCommand (service p) = None <-> uninstallCommand (service p) = None).
Proof.
  intros Hfam Hne Htok. cbv zeta.
  pose proof (wrapFunctions_nodejs env functionNames p t Hfam Hne Htok) as H.
  cbv zeta in H.
  pose proof (wrapFunctions_remembers env functionNames p t Hfam Hne Htok) as Hmemo.
  pose proof (eligible_unfiltered_nonempty _ _ Hne) as Hfns.
  assert (Hexec : forall cmd l,
            In (ExecSync cmd)
               (map (nodejsWrite env t (edgeHost (lumigo (service p)))) l) -> False).
  { intros cmd l Hin. apply in_map_iff in Hin as (x & E & _). discriminate. }
  assert (Hrun : forall cmd o, In (ExecSync cmd) (commandRun o) <-> o = Some cmd).
  { intros cmd [c0|]; cbn; split; intros E; try discriminate; try tauto.
    - destruct E as [E|[]]. now injection E as ->.
    - injection E as ->. now left. }
  assert (Hfinal :
    runtimeFamily (service (final (wrapFunctions env functionNames p))) = nodejs /\
    lumigo (service (final (wrapFunctions env functionNames p))) = lumigo (service p) /\
    functions (service (final (wrapFunctions env functionNames p))) <> []).
  { destruct (tracerPresent env p);
      [|destruct (commandResult env (installCommand (service p)))];
      destruct H as (_ & -> & _); cbn; repeat split; auto;
      now apply rewriteHandlers_nonempty. }
  destruct Hfinal as (Hfam' & Hlum' & Hfns').
  assert (Hchanges :
    worldChanges (trace (afterCreateDeploymentArtifacts env'
                           (final (wrapFunctions env functionNames p)))) =
    Remove (folderPath env')
    :: (if tracerPresent env p then []
        else commandRun (uninstallCommand (service p)))).
  { rewrite afterCreateDeploymentArtifacts_changes, Hfam'.
    rewrite eligible_unfiltered by congruence.
    destruct (functions (service (final (wrapFunctions env functionNames p))));
      [congruence|]. cbn [map].
    unfold tracerPresent at 1. rewrite Hmemo.
    unfold uninstallCommand, nodePackageManager. now rewrite Hlum'. }
  split; [|split; [exact Hchanges|split]].
  - intros cmd. split.
    + intros Hin.
      assert (Hw : In (ExecSync cmd)
                     (worldChanges (trace (wrapFunctions env functionNames p))))
        by (apply filter_In; now split).
      destruct (tracerPresent env p).
      * destruct H as (_ & _ & E). rewrite E in Hw. now apply Hexec in Hw.
      * split; [reflexivity|]. apply Hrun.
        destruct (commandResult env (installCommand (service p)));
          destruct H as (_ & _ & E); rewrite E in Hw; [exact Hw|].
        apply in_app_or in Hw as [Hw|Hw]; [exact Hw | now apply Hexec in Hw].
    + intros [Hp Hc]. rewrite Hp in H.
      assert (Hw : In (ExecSync cmd)
                     (worldChanges (trace (wrapFunctions env functionNames p)))).
      { destruct (commandResult env (installCommand (service p)));
          destruct H as (_ & _ & ->); [|apply in_or_app; left]; now apply Hrun. }
      now apply filter_In in Hw.
  - intros cmd. split.
    + intros Hin.
      assert (Hw : In (ExecSync cmd)
                     (worldChanges (trace (afterCreateDeploymentArtifacts env'
                        (final (wrapFunctions env functionNames p))))))
        by (apply filter_In; now split).
      rewrite Hchanges in Hw. destruct Hw as [Hw|Hw]; [discriminate|].
      destruct (tracerPresent env p); [destruct Hw|].
      split; [reflexivity | now apply Hrun].
    + intros [Hp Hc].
      assert (Hw : In (ExecSync cmd)
                     (worldChanges (trace (afterCreateDeploymentArtifacts env'
                        (final (wrapFunctions env functionNames p)))))).
      { rewrite Hchanges, Hp. right. now apply Hrun. }
      now apply filter_In in Hw.
  - unfold installCommand, uninstallCommand.
    destruct (nodePackageManager (service p) =? NPM); [split; discriminate|].
    destruct (nodePackageManager (service p) =? Yarn); [split; discriminate|].
    tauto.
Qed.

Lemma X11_cleanup_mirrors_install_witness :
  runtimeFamily yarnService = nodejs /\
  eligible yarnService None <> [] /\
  In (ExecSync "yarn add @lumigo/tracer@latest")
     (trace (wrapFunctions sampleEnv None (fresh yarnService))) /\
  In (ExecSync "yarn remove @lumigo/tracer")
     (trace (afterCreateDeploymentArtifacts staleEnv
               (final (wrapFunctions sampleEnv None (fresh yarnService))))).
Proof.
  assert (Hne : eligible (service (fresh yarnService)) None <> []) by discriminate.
  destruct (X11_cleanup_mirrors_install sampleEnv staleEnv None (fresh yarnService)
              "test-token" eq_refl Hne eq_refl) as (Hi & _ & Hu & _).
  split; [reflexivity|]. split; [exact Hne|]. split.
  - apply Hi. now split.
  - apply Hu. now split.
Defined.

(** ** The generated python wrapper *)

Lemma prefix_replaceChar (a b : ascii) (n s : string) :
  Js.mem a n = false -> Js.mem b n = false ->
  String.prefix n (replaceChar a b s) = String.prefix n s.
Proof.
  revert n; induction s as [|x s IH]; intros [|c n] Ha Hb; try reflexivity.
  cbn [Js.mem] in Ha, Hb.
  apply orb_false_iff in Ha as [Hca Ha], Hb as [Hcb Hb].
  cbn [replaceChar String.prefix].
  destruct (Ascii.eqb x a) eqn:Exa.
  - apply Ascii.eqb_eq in Exa. subst x.
    destruct (ascii_dec c b) as [->|_]; [now rewrite Ascii.eqb_refl in Hcb|].
    destruct (ascii_dec c a) as [->|_]; [now rewrite Ascii.eqb_refl in Hca|].
    reflexivity.
  - destruct (ascii_dec c x); [now apply IH | reflexivity].
Qed.

Lemma includes_replaceChar (a b : ascii) (n s : string) :
  Js.mem a n = false -> Js.mem b n = false ->
  Js.includes (replaceChar a b s) n = Js.includes s n.
Proof.
  intros Ha Hb. induction s as [|x s IH].
  - reflexivity.
  - change (replaceChar a b (String x s))
      with (String (if Ascii.eqb x a then b else x) (replaceChar a b s)).
    cbn [Js.includes]. rewrite IH.
    change (String (if Ascii.eqb x a then b else x) (replaceChar a b s))
      with (replaceChar a b (String x s)).
    now rewrite prefix_replaceChar.
Qed.

Lemma wrappedPythonFunction_pieces (t modulePath funcName : string) :
  wrappedPythonFunction t modulePath funcName =
  (LF ++ "from lumigo_tracer import lumigo_tracer" ++ LF ++ "from") ++
  String " " (modulePath ++
  String " " ("import" ++
  String " " (funcName ++
  String " " (("as userHandler" ++ LF ++ LF ++ "@lumigo_tracer(token=") ++
  String "'" (t ++
  String "'" ((")" ++ LF ++ "def") ++
  String " " (funcName ++
  String "(" ("event, context):" ++ LF
              ++ "  return userHandler(event, context)" ++ LF ++ "    ")))))))).
Proof.
  unfold wrappedPythonFunction. rewrite !append_assoc. reflexivity.
Qed.

(** A python pass does not depend on [custom.lumigo.edgeHost]. *)
Lemma wrapFunctions_python_edgeHost env functionNames e p :
  runtimeFamily (service p) = python ->
  outcome (wrapFunctions env functionNames (setEdgeHost e p)) =
    outcome (wrapFunctions env functionNames p) /\
  worldChanges (trace (wrapFunctions env functionNames (setEdgeHost e p))) =
    worldChanges (trace (wrapFunctions env functionNames p)).
Proof.
  intros Hfam. set (q := setEdgeHost e p).
  assert (Hfam' : runtimeFamily (service q) = python) by exact Hfam.
  assert (Eel : eligible (service q) functionNames =
                eligible (service p) functionNames) by reflexivity.
  assert (Etok : token (lumigo (service q)) = token (lumigo (service p)))
    by reflexivity.
  assert (Eens : outcome (ensureLumigoPythonIsInstalled env q) =
                 outcome (ensureLumigoPythonIsInstalled env p)).
  { now rewrite !ensureLumigoPythonIsInstalled_outcome. }
  destruct (eligible (service p) functionNames) as [|f0 l0] eqn:Ep.
  - rewrite (wrapFunctions_run env functionNames p), Ep.
    rewrite (wrapFunctions_run env functionNames q), Eel.
    cbn [outcome trace fst snd]. now rewrite !prologue_quiet.
  - assert (Hne : eligible (service p) functionNames <> [])
      by (rewrite Ep; discriminate).
    assert (Hne' : eligible (service q) functionNames <> [])
      by (rewrite Eel; discriminate).
    destruct (token (lumigo (service p))) as [t|] eqn:Ht.
    + destruct (outcome (ensureLumigoPythonIsInstalled env p))
        as [err|[]] eqn:Hens.
      * destruct (wrapFunctions_python_failed env functionNames p t err
                    Hfam Hne Ht Hens) as (Ho & _ & Hw).
        destruct (wrapFunctions_python_failed env functionNames q t err
                    Hfam' Hne' Etok Eens) as (Ho' & _ & Hw').
        now rewrite Ho, Hw, Ho', Hw'.
      * destruct (wrapFunctions_python env functionNames p t
                    Hfam Hne Ht Hens) as (Ho & _ & Hw).
        destruct (wrapFunctions_python env functionNames q t
                    Hfam' Hne' Etok Eens) as (Ho' & _ & Hw').
        now rewrite Ho, Hw, Ho', Hw', Eel, Ep.
    + rewrite (wrapFunctions_no_token env functionNames p Hne Ht).
      rewrite (wrapFunctions_no_token env functionNames q Hne' Etok).
      cbn [outcome trace fst snd]. now rewrite !prologue_quiet.
Qed.

(** X12.  [createWrappedPythonFunction] returns the rewritten handler,
    leaves the plugin alone and changes the world by exactly one write.  The
    text written imports the tracer, imports the handler from the dotted
    module path under the name [userHandler], decorates with the token and
    defines a function of the original name; an absent token is rendered as
    the word [undefined], where the Node.js generator throws and writes
    nothing.  The edge host plays no part: the word ["edgeHost"] occurs in
    the text only if the token or the handler spell it, and a pass under
    the python family has the same outcome and makes the same changes
    whatever [custom.lumigo.edgeHost] is. *)
Theorem X12_python_wrapper_text
    (env : Env) (func : Func) (token edgeHost : option string) (p : Plugin) :
  let r := createWrappedPythonFunction env func token p in
  let m := handlerModulePath_python (handler (decl func)) in
  let f := handlerFuncName (handler (decl func)) in
  exists content,
    outcome r =
      inr (newHandler
             (Path.relative (cwd env) (servicePath env)
                (Path.join [folderPath env; localName func ++ ".py"])) f) /\
    final r = p /\
    worldChanges (trace r) =
      [OutputFile (Path.join [folderPath env; localName func ++ ".py"]) content] /\
    Js.includes content "from lumigo_tracer import lumigo_tracer" = true /\
    Js.includes content ("from " ++ m ++ " import " ++ f ++ " as userHandler") = true /\
    Js.includes content ("def " ++ f ++ "(event, context):") = true /\
    (forall t, token = Some t ->
       Js.includes content ("@lumigo_tracer(token='" ++ t ++ "')") = true) /\
    (token = None ->
       Js.includes content "@lumigo_tracer(token='undefined')" = true /\
       outcome (createWrappedNodejsFunction env func None edgeHost p) =
         inl (ServerlessError "Lumigo's tracer token is undefined") /\
       worldChanges (trace (createWrappedNodejsFunction env func None edgeHost p))
         = []) /\
    (Js.includes (render token) "edgeHost" = false ->
     Js.includes (handler (decl func)) "edgeHost" = false ->
     Js.includes content "edgeHost" = false) /\
    (runtimeFamily (service p) = python ->
     forall functionNames e,
       outcome (wrapFunctions env functionNames (setEdgeHost e p)) =
         outcome (wrapFunctions env functionNames p) /\
       worldChanges (trace (wrapFunctions env functionNames (setEdgeHost e p))) =
         worldChanges (trace (wrapFunctions env functionNames p))).
Proof.
  cbv zeta.
  destruct (createWrappedPythonFunction_run env func token p) as (T & E & W).
  rewrite E. cbn [outcome final trace fst snd]. rewrite W.
  unfold pythonWrite, wrappedHandler.
  eexists. split; [reflexivity|]. split; [reflexivity|]. split; [reflexivity|].
  set (m := handlerModulePath_python (handler (decl func))).
  set (f := handlerFuncName (handler (decl func))).
  split; [|split; [|split; [|split; [|split; [|split]]]]].
  - apply includes_spec. exists LF. eexists.
    unfold wrappedPythonFunction. reflexivity.
  - apply includes_spec.
    exists (LF ++ "from lumigo_tracer import lumigo_tracer" ++ LF). eexists.
    unfold wrappedPythonFunction. rewrite !append_assoc. reflexivity.
  - apply includes_spec.
    exists (LF ++ "from lumigo_tracer import lumigo_tracer" ++ LF ++ "from "
               ++ m ++ " import " ++ f ++ " as userHandler" ++ LF ++ LF
               ++ "@lumigo_tracer(token='" ++ render token ++ "')" ++ LF).
    eexists. unfold wrappedPythonFunction. rewrite !append_assoc. reflexivity.
  - intros t ->. apply includes_spec.
    exists (LF ++ "from lumigo_tracer import lumigo_tracer" ++ LF ++ "from "
               ++ m ++ " import " ++ f ++ " as userHandler" ++ LF ++ LF).
    eexists. unfold wrappedPythonFunction, render.
    rewrite !append_assoc. reflexivity.
  - intros ->. split; [|split].
    + apply includes_spec.
      exists (LF ++ "from lumigo_tracer import lumigo_tracer" ++ LF ++ "from "
                 ++ m ++ " import " ++ f ++ " as userHandler" ++ LF ++ LF).
      eexists. unfold wrappedPythonFunction, render.
      rewrite !append_assoc. reflexivity.
    + unfold createWrappedNodejsFunction, outcome, bind, verboseLog, log, emit.
      cbn [getNodeTracerParameters throw]. now destruct (SLS_DEBUG env).
    + unfold createWrappedNodejsFunction, trace, bind, verboseLog, log, emit.
      cbn [getNodeTracerParameters throw]. now destruct (SLS_DEBUG env).
  - intros Ht Hh.
    pose proof (infix_absent "edgeHost" _ _
                  (handlerModulePath_infix (handler (decl func))) Hh) as Hm.
    pose proof (infix_absent "edgeHost" _ _
                  (handlerFuncName_infix (handler (decl func))) Hh) as Hf.
    assert (Hm' : Js.includes m "edgeHost" = false).
    { subst m. unfold handlerModulePath_python.
      rewrite join_split_replace, includes_replaceChar by reflexivity.
      exact Hm. }
    rewrite wrappedPythonFunction_pieces.
    repeat (rewrite includes_across by reflexivity).
    subst f. rewrite Ht, Hm', Hf. reflexivity.
  - intros Hfam functionNames e.
    now apply wrapFunctions_python_edgeHost.
Qed.

Lemma X12_python_wrapper_text_witness :
  exists content,
    outcome (createWrappedPythonFunction sampleEnv
               (mkFunc "jet" (fn "foo/foo/bar.handler")) None
               (fresh (sampleService "python3.7"))) =
      inr "_lumigo/jet.handler" /\
    worldChanges
      (trace (createWrappedPythonFunction sampleEnv
                (mkFunc "jet" (fn "foo/foo/bar.handler")) None
                (fresh (sampleService "python3.7")))) =
      [OutputFile "/srv/app/_lumigo/jet.py" content] /\
    Js.includes content "from foo.foo.bar import handler as userHandler" = true /\
    Js.includes content "@lumigo_tracer(token='undefined')" = true /\
    Js.includes content "edgeHost" = false /\
    worldChanges
      (trace (wrapFunctions sampleEnv None
                (setEdgeHost (Some "edge-host")
                   (fresh (sampleService "python3.7"))))) =
    worldChanges
      (trace (wrapFunctions sampleEnv None (fresh (sampleService "python3.7")))).
Proof.
  destruct (X12_python_wrapper_text sampleEnv
              (mkFunc "jet" (fn "foo/foo/bar.handler")) None (Some "edge-host")
              (fresh (sampleService "python3.7")))
    as (content & Ho & _ & Hw & _ & Hi & _ & _ & Hnone & Hedge & Hpass).
  exists content. split; [exact Ho|]. split; [exact Hw|]. split; [exact Hi|].
  split; [apply (Hnone eq_refl)|]. split; [apply Hedge; reflexivity|].
  apply (Hpass eq_refl None (Some "edge-host")).
Defined.

(** ** Verbose logging *)

Section VerboseLogging.

Variable env : Env.
Variable b : bool.

Lemma alike_refl {A} (m : M A) : alike m m.
Proof. intros p. now repeat split. Qed.

Lemma alike_bind {A B} (m m' : M A) (k k' : A -> M B) :
  alike m m' -> (forall a, alike (k a) (k' a)) -> alike (bind m k) (bind m' k').
Proof.
  intros Hm Hk p. specialize (Hm p).
  unfold sameUpToLogs, outcome, final, trace in *. rewrite !bind_run.
  destruct (m p) as [[r1 p1] t1], (m' p) as [[r1' p1'] t1'].
  cbn [fst snd] in Hm. destruct Hm as (-> & -> & Ht).
  destruct r1' as [e|a]; [now repeat split|].
  specialize (Hk a p1'). unfold sameUpToLogs, outcome, final, trace in Hk.
  destruct (k a p1') as [[r2 p2] t2], (k' a p1') as [[r2' p2'] t2'].
  cbn [fst snd] in *. destruct Hk as (-> & -> & Ht2).
  repeat split. now rewrite !operations_app, Ht, Ht2.
Qed.

Lemma alike_verboseLog (msg msg' : string) :
  alike (verboseLog env msg) (verboseLog (withDebug b env) msg').
Proof.
  intros p. unfold verboseLog. cbn [SLS_DEBUG withDebug].
  destruct (SLS_DEBUG env), b; now repeat split.
Qed.

Lemma alike_verboseLogJson (fn : Func) :
  alike (verboseLogJson env fn) (verboseLogJson (withDebug b env) fn).
Proof.
  intros p. unfold verboseLogJson. cbn [SLS_DEBUG withDebug].
  destruct (SLS_DEBUG env), b; now repeat split.
Qed.

Lemma alike_forEach {A} (l : list A) (body body' : A -> M unit) :
  (forall x, alike (body x) (body' x)) ->
  alike (forEach l body) (forEach l body').
Proof.
  intros H. induction l as [|x l IH]; cbn [forEach]; [apply alike_refl|].
  apply alike_bind; [apply H | intros _; exact IH].
Qed.

Lemma alike_runCommand (command : string) :
  alike (runCommand env command) (runCommand (withDebug b env) command).
Proof.
  unfold runCommand. cbn [execSync withDebug].
  apply alike_bind; [apply alike_refl|]. intros _.
  destruct (execSync env command); [apply alike_refl | apply alike_verboseLog].
Qed.

Lemma alike_isNodeTracerInstalled :
  alike (isNodeTracerInstalled env) (isNodeTracerInstalled (withDebug b env)).
Proof.
  unfold isNodeTracerInstalled.
  apply alike_bind; [apply alike_refl|]. intros q.
  destruct (_isNodeTracerInstalled q); [apply alike_refl|].
  apply alike_bind; [|intros a; apply alike_refl].
  unfold isLumigoNodejsInstalled. cbn [servicePath packageJson withDebug].
  apply alike_bind; [apply alike_refl|]. intros _.
  destruct (packageJson env); [|apply alike_refl].
  repeat (apply alike_bind; [apply alike_verboseLog|]; intros _).
  apply alike_refl.
Qed.

Lemma alike_installLumigoNodejs :
  alike (installLumigoNodejs env) (installLumigoNodejs (withDebug b env)).
Proof.
  unfold installLumigoNodejs.
  apply alike_bind; [apply alike_isNodeTracerInstalled|].
  intros [|]; [apply alike_verboseLog|].
  apply alike_bind; [apply alike_refl|]. intros _.
  apply alike_bind; [apply alike_refl|]. intros q.
  destruct (_ =? NPM); [apply alike_runCommand|].
  destruct (_ =? Yarn); [apply alike_runCommand | apply alike_refl].
Qed.

Lemma alike_uninstallLumigoNodejs :
  alike (uninstallLumigoNodejs env) (uninstallLumigoNodejs (withDebug b env)).
Proof.
  unfold uninstallLumigoNodejs.
  apply alike_bind; [apply alike_isNodeTracerInstalled|].
  intros [|]; [apply alike_refl|].
  apply alike_bind; [apply alike_refl|]. intros _.
  apply alike_bind; [apply alike_refl|]. intros q.
  destruct (_ =? NPM); [apply alike_runCommand|].
  destruct (_ =? Yarn); [apply alike_runCommand | apply alike_refl].
Qed.

Lemma alike_createWrappedNodejsFunction func token edgeHost :
  alike (createWrappedNodejsFunction env func token edgeHost)
        (createWrappedNodejsFunction (withDebug b env) func token edgeHost).
Proof.
  unfold createWrappedNodejsFunction.
  apply alike_bind; [apply alike_verboseLog|]. intros _.
  destruct (getNodeTracerParameters token edgeHost); [apply alike_refl|].
  apply alike_bind; [apply alike_verboseLog|]. intros _.
  apply alike_refl.
Qed.

Lemma alike_createWrappedPythonFunction func token :
  alike (createWrappedPythonFunction env func token)
        (createWrappedPythonFunction (withDebug b env) func token).
Proof.
  unfold createWrappedPythonFunction.
  apply alike_bind; [apply alike_verboseLog|]. intros _.
  apply alike_bind; [apply alike_verboseLog|]. intros _.
  apply alike_refl.
Qed.

Lemma alike_wrapFunctions functionNames :
  alike (wrapFunctions env functionNames)
        (wrapFunctions (withDebug b env) functionNames).
Proof.
  unfold wrapFunctions.
  apply alike_bind; [apply alike_refl|]. intros rf.
  apply alike_bind; [apply alike_refl|]. intros _.
  apply alike_bind; [apply alike_forEach, alike_verboseLogJson|]. intros _.
  destruct (Nat.eqb _ 0); [apply alike_refl|].
  apply alike_bind; [apply alike_refl|]. intros q.
  destruct (token (lumigo (service q))); [|apply alike_refl].
  apply alike_bind; [|intros _; apply alike_refl].
  destruct (fst rf).
  - apply alike_bind; [apply alike_installLumigoNodejs|]. intros _.
    apply alike_forEach. intros func.
    apply alike_bind; [apply alike_createWrappedNodejsFunction|]. intros h.
    apply alike_bind; [apply alike_verboseLog | intros _; apply alike_refl].
  - apply alike_bind; [apply alike_refl|]. intros _.
    apply alike_forEach. intros func.
    apply alike_bind; [apply alike_createWrappedPythonFunction|]. intros h.
    apply alike_bind; [apply alike_verboseLog | intros _; apply alike_refl].
  - apply alike_refl.
Qed.

Lemma alike_afterCreateDeploymentArtifacts :
  alike (afterCreateDeploymentArtifacts env)
        (afterCreateDeploymentArtifacts (withDebug b env)).
Proof.
  unfold afterCreateDeploymentArtifacts.
  apply alike_bind; [apply alike_refl|]. intros rf.
  destruct (Nat.eqb _ 0); [apply alike_refl|].
  apply alike_bind.
  - unfold cleanFolder.
    apply alike_bind; [apply alike_verboseLog | intros _; apply alike_refl].
  - intros _. destruct (fst rf);
      [apply alike_uninstallLumigoNodejs | apply alike_refl | apply alike_refl].
Qed.

End VerboseLogging.

(** X13.  [SLS_DEBUG] switches log lines on and off and nothing else: with
    either setting, a wrap pass and a cleanup end with the same result and
    the same plugin, and perform the same manifest reads, file tests, file
    reads, writes, removals and commands in the same order. *)
Theorem X13_verbose_logging_only_logs
    (env : Env) (b : bool) (functionNames : option (list string)) (p : Plugin) :
  let r := wrapFunctions env functionNames p in
  let r' := wrapFunctions (withDebug b env) functionNames p in
  let c := afterCreateDeploymentArtifacts env p in
  let c' := afterCreateDeploymentArtifacts (withDebug b env) p in
  (outcome r = outcome r' /\ final r = final r' /\
   operations (trace r) = operations (trace r')) /\
  (outcome c = outcome c' /\ final c = final c' /\
   operations (trace c) = operations (trace c')).
Proof.
  split.
  - apply (alike_wrapFunctions env b functionNames p).
  - apply (alike_afterCreateDeploymentArtifacts env b p).
Qed.

(** ** The operations of a python pass *)

Lemma logs_are_no_operations (t : list Effect) :
  forallb isLog t = true -> operations t = [].
Proof.
  induction t as [|e t IH]; simpl; [reflexivity|].
  intros H. apply andb_true_iff in H as [He Ht].
  unfold operations in *. cbn [filter]. rewrite He. now apply IH.
Qed.

Lemma createWrappedPythonFunction_operations env func token p :
  exists T,
    createWrappedPythonFunction env func token p =
      (inr (wrappedHandler env ".py" func), p, T) /\
    operations T = [pythonWrite env token func].
Proof.
  unfold createWrappedPythonFunction, bind, verboseLog, log, emit, ret.
  destruct (SLS_DEBUG env); eexists; split; reflexivity.
Qed.

(** The loop of [wrap_loop], seen through its operations. *)
Lemma wrap_loop_operations env ext (create : Func -> M string)
    (write : Func -> Effect) :
  (forall f p, exists T,
      create f p = (inr (wrappedHandler env ext f), p, T) /\
      operations T = [write f]) ->
  forall fs p,
    operations
      (trace (forEach fs (fun func =>
                handler <- create func ;;
                verboseLog env
                  ("setting [" ++ localName func ++ "]'s handler to ["
                   ++ handler ++ "]...") ;;
                setHandler (localName func) handler) p)) =
    map write fs.
Proof.
  intros Hcreate fs. induction fs as [|f fs IH]; intros p; [reflexivity|].
  cbn [forEach]. destruct (Hcreate f p) as (T1 & E1 & W1).
  rewrite bind_run, bind_run, E1, bind_run.
  unfold verboseLog at 1, log at 1.
  set (L := if SLS_DEBUG env
            then [CliLog ("serverless-lumigo: " ++ "setting [" ++ localName f
                          ++ "]'s handler to [" ++ wrappedHandler env ext f
                          ++ "]...")]
            else []).
  assert (Estep :
    (if SLS_DEBUG env
     then emit (CliLog ("serverless-lumigo: " ++ "setting [" ++ localName f
                        ++ "]'s handler to [" ++ wrappedHandler env ext f
                        ++ "]..."))
     else ret tt) p = (inr tt, p, L)).
  { subst L. now destruct (SLS_DEBUG env). }
  rewrite Estep, setHandler_run.
  specialize (IH (setFunctions
                    (assignHandler (localName f) (wrappedHandler env ext f)
                       (functions (service p))) p)).
  unfold trace in *.
  destruct (forEach fs _ _) as [[r2 p2] T2]. cbn [snd] in *.
  rewrite app_nil_r, !operations_app, W1, IH.
  assert (EL : operations L = []) by (subst L; now destruct (SLS_DEBUG env)).
  now rewrite EL.
Qed.

Lemma ensureLumigoPythonIsInstalled_operations env p :
  forallb (requirementsOk env) (requirementsFiles (service p)) = true ->
  operations (trace (ensureLumigoPythonIsInstalled env p)) =
    flat_map (fun f => [PathExistsSync f; ReadFile f])
      (requirementsFiles (service p)).
Proof.
  unfold ensureLumigoPythonIsInstalled, requirementsFiles, trace, log.
  rewrite bind_emit, bind_getPlugin.
  destruct (match package (service p) with
            | Some pkg => individually pkg
            | None => false
            end).
  - intros Hall. rewrite bind_emit, bind_run, getFunctionsToWrap_run.
    cbn [snd fst].
    pose proof (forEach_ensureTracerInstalled_trace env (service p)
                  (fun fn => match pythonRequirementsFileName (service p) with
                             | Some f => f
                             | None => Path.join [Path.dirname (handler (decl fn));
                                                  "requirements.txt"]
                             end)
                  (eligible (service p) None) p Hall) as H.
    unfold trace in H.
    destruct (forEach _ _ p) as [[r p'] t']. cbn [snd] in *. subst t'.
    assert (Hops : forall l : list string,
              operations (flat_map (fun f => [PathExistsSync f; ReadFile f]) l)
              = flat_map (fun f => [PathExistsSync f; ReadFile f]) l).
    { induction l as [|x l IH]; [reflexivity|].
      cbn [flat_map List.app]. unfold operations in *.
      cbn [filter isLog negb]. now rewrite IH. }
    unfold operations in *. cbn [filter isLog negb].
    rewrite filter_app, Hops.
    now destruct (runtimeFamily (service p)).
  - cbn [forallb flat_map]. rewrite andb_true_r. intros Hok.
    rewrite bind_emit.
    destruct (ensureTracerInstalled_run env (service p)
                match pythonRequirementsFileName (service p) with
                | Some f => f
                | None => "requirements.txt"
                end p) as (T & -> & ->).
    unfold requirementsOk in Hok. apply andb_true_iff in Hok as [-> _].
    reflexivity.
Qed.

(** A completed python pass reads the requirements files and writes the
    wrappers, and does nothing else but log. *)
Lemma wrapFunctions_python_operations env functionNames p t :
  runtimeFamily (service p) = python ->
  eligible (service p) functionNames <> [] ->
  token (lumigo (service p)) = Some t ->
  forallb (requirementsOk env) (requirementsFiles (service p)) = true ->
  operations (trace (wrapFunctions env functionNames p)) =
    List.app
      (flat_map (fun f => [PathExistsSync f; ReadFile f])
         (requirementsFiles (service p)))
      (map (pythonWrite env (Some t)) (eligible (service p) functionNames)).
Proof.
  intros Hfam Hne Htok Hok.
  assert (Hens : outcome (ensureLumigoPythonIsInstalled env p) = inr tt).
  { rewrite ensureLumigoPythonIsInstalled_outcome.
    apply find_none_forallb in Hok. now rewrite Hok. }
  rewrite wrapFunctions_run.
  destruct (eligible (service p) functionNames) as [|f0 l0] eqn:Eel;
    [congruence|]. rewrite <- Eel. clear Hne.
  unfold wrapEligible. rewrite bind_getPlugin, Htok, Hfam.
  rewrite bind_run, bind_run.
  pose proof (ensureLumigoPythonIsInstalled_final env p) as Hfin.
  pose proof (ensureLumigoPythonIsInstalled_operations env p Hok) as Hops.
  unfold outcome, final, trace in Hens, Hfin, Hops.
  destruct (ensureLumigoPythonIsInstalled env p) as [[r1 p1] t1].
  cbn [fst snd] in Hens, Hfin, Hops. subst r1 p1.
  pose proof (wrap_loop_operations env ".py"
                (fun func => createWrappedPythonFunction env func (Some t))
                (pythonWrite env (Some t))
                (fun f q => createWrappedPythonFunction_operations env f (Some t) q)
                (eligible (service p) functionNames) p) as HT.
  destruct (wrap_loop env ".py"
              (fun func => createWrappedPythonFunction env func (Some t))
              (pythonWrite env (Some t))
              (fun f q => createWrappedPythonFunction_run env f (Some t) q)
              (eligible (service p) functionNames) p) as (T & E & _).
  cbv beta in HT. rewrite E in HT |- *. cbn [trace snd] in HT.
  rewrite includeLumigoFolder_run.
  cbn [trace fst snd].
  rewrite !operations_app, Hops, HT, app_nil_r.
  now rewrite (logs_are_no_operations _ (prologue_logs env (service p) functionNames)).
Qed.

(** X14.  A python pass with a token whose requirements check passes runs
    to completion without looking at [package.json] and without running a
    command: apart from log lines, the trace holds the test and the read of
    each requirements file followed by the wrapper writes, one per eligible
    function in the order of declaration.  The memo of the tracer check
    stays as it was, and the function table is the old one with the
    handlers of the eligible functions replaced. *)
Theorem X14_python_pass_completes
    (env : Env) (functionNames : option (list string)) (p : Plugin)
    (t : string) :
  runtimeFamily (service p) = python ->
  eligible (service p) functionNames <> [] ->
  token (lumigo (service p)) = Some t ->
  forallb (requirementsOk env) (requirementsFiles (service p)) = true ->
  let r := wrapFunctions env functionNames p in
  let el := eligible (service p) functionNames in
  outcome r = inr tt /\
  worldChanges (trace r) = map (pythonWrite env (Some t)) el /\
  (forall cmd, ~ In (ExecSync cmd) (trace r)) /\
  functions (service (final r)) =
    map (rewriteEntry env ".py" el) (functions (service p)) /\
  _isNodeTracerInstalled (final r) = _isNodeTracerInstalled p /\
  operations (trace r) =
    List.app
      (flat_map (fun f => [PathExistsSync f; ReadFile f])
         (requirementsFiles (service p)))
      (map (pythonWrite env (Some t)) el) /\
  (forall path, ~ In (RequireJson path) (trace r)).
Proof.
  intros Hfam Hne Htok Hok. cbv zeta.
  assert (Hens : outcome (ensureLumigoPythonIsInstalled env p) = inr tt).
  { rewrite ensureLumigoPythonIsInstalled_outcome.
    apply find_none_forallb in Hok. now rewrite Hok. }
  destruct (wrapFunctions_python env functionNames p t Hfam Hne Htok Hens)
    as (Ho & Hf & Hw).
  pose proof (wrapFunctions_python_operations env functionNames p t
                Hfam Hne Htok Hok) as Hops.
  split; [exact Ho|]. split; [exact Hw|].
  split; [|split; [|split; [|split]]].
  - intros cmd Hin.
    assert (Hc : In (ExecSync cmd)
                   (worldChanges (trace (wrapFunctions env functionNames p))))
      by (apply filter_In; now split).
    rewrite Hw in Hc. apply in_map_iff in Hc as (x & E & _). discriminate.
  - rewrite Hf. cbn [setPackage setFunctions service functions].
    apply rewriteHandlers_entries.
  - now rewrite Hf.
  - exact Hops.
  - intros path Hin.
    assert (Hc : In (RequireJson path)
                   (operations (trace (wrapFunctions env functionNames p))))
      by (apply filter_In; now split).
    rewrite Hops in Hc. apply in_app_or in Hc as [Hc|Hc].
    + apply in_flat_map in Hc as (x & _ & [E|[E|[]]]); discriminate.
    + apply in_map_iff in Hc as (x & E & _). discriminate.
Qed.

Lemma X14_python_pass_completes_witness :
  forallb (requirementsOk sampleEnv)
    (requirementsFiles (sampleService "python3.7")) = true /\
  outcome (wrapFunctions sampleEnv (Some ["jet"])
             (fresh (sampleService "python3.7"))) = inr tt /\
  worldChanges (trace (wrapFunctions sampleEnv (Some ["jet"])
                         (fresh (sampleService "python3.7")))) =
    [OutputFile "/srv/app/_lumigo/jet.py"
       (wrappedPythonFunction "test-token" "foo.foo.bar" "handler")] /\
  operations (trace (wrapFunctions sampleEnv (Some ["jet"])
                       (fresh (sampleService "python3.7")))) =
    [PathExistsSync "requirements.txt"; ReadFile "requirements.txt";
     OutputFile "/srv/app/_lumigo/jet.py"
       (wrappedPythonFunction "test-token" "foo.foo.bar" "handler")].
Proof.
  assert (Hne : eligible (service (fresh (sampleService "python3.7")))
                  (Some ["jet"]) <> []) by discriminate.
  destruct (X14_python_pass_completes sampleEnv (Some ["jet"])
              (fresh (sampleService "python3.7")) "test-token"
              eq_refl Hne eq_refl eq_refl) as (Ho & Hw & _ & _ & _ & Hops & _).
  split; [reflexivity|]. split; [exact Ho|].
  split; [rewrite Hw; reflexivity | rewrite Hops; reflexivity].
Defined.

(** X15.  Every call of [wrapFunctions] opens its trace the same way,
    whatever follows: the line about an unsupported runtime if that is the
    case, then the line that counts the eligible functions, then, under
    [SLS_DEBUG] only, one dump per eligible function.  Nothing precedes
    these lines, and on the early return nothing follows them. *)
Theorem X15_pass_opens_with_the_count
    (env : Env) (functionNames : option (list string)) (p : Plugin) :
  let el := eligible (service p) functionNames in
  exists rest,
    trace (wrapFunctions env functionNames p) =
      ((match runtimeFamily (service p) with
        | unsupported =>
            [CliLog ("serverless-lumigo: unsupported runtime: ["
                     ++ providerRuntime (service p) ++ "], skipped...")]
        | _ => []
        end ++
        CliLog ("serverless-lumigo: there are " ++ Js.ofNat (List.length el)
                ++ " function(s) to wrap...")
        :: (if SLS_DEBUG env then map CliLogJson el else [])) ++ rest)%list /\
    (el = [] -> rest = []).
Proof.
  cbv zeta. rewrite wrapFunctions_run.
  destruct (eligible (service p) functionNames) as [|f l] eqn:E.
  - exists []. split; [|reflexivity].
    cbn [trace snd]. unfold prologue. rewrite E, app_nil_r. reflexivity.
  - destruct (wrapEligible env (runtimeFamily (service p)) (f :: l) p)
      as [[r p'] t]. exists t. split; [|discriminate].
    cbn [trace snd]. unfold prologue. rewrite E. reflexivity.
Qed.

Lemma X15_pass_opens_with_the_count_witness :
  eligible (sampleService "java8") None = [] /\
  trace (wrapFunctions sampleEnv None (fresh (sampleService "java8"))) =
    [CliLog "serverless-lumigo: unsupported runtime: [java8], skipped...";
     CliLog "serverless-lumigo: there are 0 function(s) to wrap..."].
Proof.
  destruct (X15_pass_opens_with_the_count sampleEnv None
              (fresh (sampleService "java8"))) as (rest & Ht & Hnil).
  split; [reflexivity|]. rewrite Ht, (Hnil eq_refl). reflexivity.
Defined.
